(** * Lino Cosi: account-number conversion and statement reconciliation

    A shallow embedding of

    - [lino_cosi/lib/sepa/utils.py]: [be2iban], [iban2bic],
      [belgian_nban_to_iban_bic] and the [BELGIAN_BICS] table;
    - [lino_cosi/lib/b2c/models.py]: [ImportStatements.import_file] and the
      [Account], [Statement] and [Movement] models.

    The code is Python 2.  Python exceptions are values of [exn]; pure
    functions that may raise return [Exc A]; the importer runs in a
    state-and-exception monad over the database, the counters of the action,
    the log and the directory.  Saving a row raises when a conversion of
    Django or the database refuses it. *)

From stdpp Require Import base strings list gmap fin_maps pretty.
From Stdlib Require Import ZArith Ascii.

Open Scope Z_scope.

(** ** Exceptions *)

Inductive exn : Type :=
| ValidationError (msg : string)
| ValueError
| AssertionError
| DoesNotExist
| MultipleObjectsReturned
| IntegrityError
| OverflowError
| OSError (msg : string)
| Exception (msg : string).

Definition Exc (A : Type) : Type := exn + A.

Definition raise {A : Type} (e : exn) : Exc A := inl e.

Definition exc_bind {A B : Type} (f : A → Exc B) (c : Exc A) : Exc B :=
  match c with
  | inl e => inl e
  | inr a => f a
  end.

#[global] Instance Exc_ret : MRet Exc := λ A a, inr a.
#[global] Instance Exc_bind : MBind Exc := λ A B f c, exc_bind f c.

(** ** Python strings and integers *)

Module Py.

(** [s.replace(c, '')] for a one-character [c]. *)
Fixpoint remove_char (c : ascii) (s : string) : string :=
  match s with
  | EmptyString => EmptyString
  | String x r =>
      if decide (x = c) then remove_char c r else String x (remove_char c r)
  end.

(** [s[:n]] *)
Fixpoint take (n : nat) (s : string) : string :=
  match n, s with
  | S k, String x r => String x (take k r)
  | _, _ => EmptyString
  end.

(** [s[n:]] for [n >= 0] *)
Fixpoint drop (n : nat) (s : string) : string :=
  match n, s with
  | S k, String _ r => drop k r
  | _, _ => s
  end.

(** [s[-n:]]: the last [n] characters, all of [s] when it is shorter. *)
Definition last_chars (n : nat) (s : string) : string :=
  drop (String.length s - n) s.

(** [s[i:j]] for [0 <= i <= j] *)
Definition slice (i j : nat) (s : string) : string := take (j - i) (drop i s).

(** [s.startswith(p)] *)
Definition startswith (p s : string) : bool :=
  bool_decide (take (String.length p) s = p).

Definition digit_val (c : ascii) : option Z :=
  Z.of_nat <$> Ascii.is_nat c.

Definition is_digit (c : ascii) : bool := bool_decide (is_Some (digit_val c)).

Fixpoint all_digits (s : string) : bool :=
  match s with
  | EmptyString => true
  | String c r => is_digit c && all_digits r
  end.

(** The value of a run of decimal digits, most significant first; [None]
    when a character is not a digit. *)
Fixpoint digits_acc (acc : Z) (s : string) : option Z :=
  match s with
  | EmptyString => Some acc
  | String c r =>
      match digit_val c with
      | Some d => digits_acc (10 * acc + d) r
      | None => None
      end
  end.

(** The number a string of decimal digits denotes (0 when it is not one). *)
Definition num (s : string) : Z := default 0 (digits_acc 0 s).

Fixpoint lstrip (s : string) : string :=
  match s with
  | String c r => if Ascii.is_space c then lstrip r else s
  | EmptyString => EmptyString
  end.

Fixpoint rstrip (s : string) : string :=
  match s with
  | String c r =>
      match rstrip r with
      | EmptyString =>
          if Ascii.is_space c then EmptyString else String c EmptyString
      | r' => String c r'
      end
  | EmptyString => EmptyString
  end.

(** [s.strip()] *)
Definition strip (s : string) : string := rstrip (lstrip s).

(** [int(s)] in base 10: white space around, an optional sign, then at least
    one decimal digit; anything else raises [ValueError]. *)
Definition int (s : string) : Exc Z :=
  let unsigned (t : string) : option Z :=
    match t with
    | EmptyString => None
    | _ => digits_acc 0 t
    end in
  let signed : option Z :=
    match strip s with
    | String "+" t => unsigned t
    | String "-" t => Z.opp <$> unsigned t
    | t => unsigned t
    end%char in
  match signed with
  | Some z => mret z
  | None => raise ValueError
  end.

(** [str(z)], also what [%s] prints for an integer. *)
Definition str (z : Z) : string := pretty z.

(** ["%02d" % z]: the decimal writing of [z], with a zero before it when it
    is a single digit. *)
Definition fmt_02d (z : Z) : string :=
  if decide (0 ≤ z < 10) then String "0"%char (pretty z)
  else pretty z.

(** [s.splitlines()], for the line ends LF, CR and CR LF. *)
Fixpoint splitlines_go (cur : string) (s : string) : list string :=
  match s with
  | EmptyString =>
      match cur with EmptyString => [] | _ => [String.rev cur] end
  | String c r =>
      if decide (c = "010"%char) then
        String.rev cur :: splitlines_go EmptyString r
      else if decide (c = "013"%char) then
        match r with
        | String "010"%char r' => String.rev cur :: splitlines_go EmptyString r'
        | _ => String.rev cur :: splitlines_go EmptyString r
        end
      else splitlines_go (String c cur) r
  end.

Definition splitlines (s : string) : list string := splitlines_go EmptyString s.

(** [s.split(c)] for a one-character separator. *)
Fixpoint split_go (c : ascii) (cur : string) (s : string) : list string :=
  match s with
  | EmptyString => [String.rev cur]
  | String x r =>
      if decide (x = c) then String.rev cur :: split_go c EmptyString r
      else split_go c (String x cur) r
  end.

Definition split (c : ascii) (s : string) : list string := split_go c EmptyString s.

End Py.

(** ** [sepa/utils.py] *)

Module Sepa.

(** The table of Belgian bank codes, one line per code: the three digits,
    a tab, and the BIC written with spaces. *)
Definition BANK_CODES : string := "000	BPOT BE B1
001	GEBA BE BB
002	GEBA BE BB
003	GEBA BE BB
004	GEBA BE BB
005	GEBA BE BB
006	GEBA BE BB
007	GEBA BE BB
008	GEBA BE BB
009	GEBA BE BB
010	GEBA BE BB
011	GEBA BE BB
012	GEBA BE BB
013	GEBA BE BB
014	GEBA BE BB
015	GEBA BE BB
016	GEBA BE BB
017	GEBA BE BB
018	GEBA BE BB
019	GEBA BE BB
020	GEBA BE BB
021	GEBA BE BB
022	GEBA BE BB
023	GEBA BE BB
024	GEBA BE BB
025	GEBA BE BB
026	GEBA BE BB
027	GEBA BE BB
028	GEBA BE BB
029	GEBA BE BB
030	GEBA BE BB
031	GEBA BE BB
032	GEBA BE BB
033	GEBA BE BB
034	GEBA BE BB
035	GEBA BE BB
036	GEBA BE BB
037	GEBA BE BB
038	GEBA BE BB
039	GEBA BE BB
040	GEBA BE BB
041	GEBA BE BB
042	GEBA BE BB
043	GEBA BE BB
044	GEBA BE BB
045	GEBA BE BB
046	GEBA BE BB
047	GEBA BE BB
048	GEBA BE BB
049	GEBA BE BB
050	GKCC BE BB
051	GKCC BE BB
052	GKCC BE BB
053	GKCC BE BB
054	GKCC BE BB
055	GKCC BE BB
056	GKCC BE BB
057	GKCC BE BB
058	GKCC BE BB
059	GKCC BE BB
060	GKCC BE BB
061	GKCC BE BB
062	GKCC BE BB
063	GKCC BE BB
064	GKCC BE BB
065	GKCC BE BB
066	GKCC BE BB
067	GKCC BE BB
068	GKCC BE BB
069	GKCC BE BB
070	GKCC BE BB
071	GKCC BE BB
072	GKCC BE BB
073	GKCC BE BB
074	GKCC BE BB
075	GKCC BE BB
076	GKCC BE BB
077	GKCC BE BB
078	GKCC BE BB
079	GKCC BE BB
080	GKCC BE BB
081	GKCC BE BB
082	GKCC BE BB
083	GKCC BE BB
084	GKCC BE BB
085	GKCC BE BB
086	GKCC BE BB
087	GKCC BE BB
088	GKCC BE BB
089	GKCC BE BB
090	GKCC BE BB
091	GKCC BE BB
092	GKCC BE BB
093	GKCC BE BB
094	GKCC BE BB
095	GKCC BE BB
096	GKCC BE BB
097	GKCC BE BB
098	GKCC BE BB
099	GKCC BE BB
100	NBBE BE BB 203
101	NBBE BE BB 203
103	NICA BE BB
104	NICA BE BB
105	NICA BE BB
106	NICA BE BB
107	NICA BE BB
108	NICA BE BB
109	BKCP BE B1 BKB
110	BKCP BE BB
111	ABER BE 21
113	BKCP BE B1 BKB
114	BKCP BE B1 BKB
119	BKCP BE B1 BKB
120	BKCP BE B1 BKB
121	BKCP BE B1 BKB
122	OBKB BE 99
123	OBKB BE 99
124	BKCP BE B1 BKB
125	CPHB BE 75
126	CPHB BE 75
127	BKCP BE B1 BKB
129	BKCP BE B1 BKB
131	BKCP BE B1 BKB
132	BNAG BE BB
133	BKCP BE B1 BKB
134	BKCP BE B1 BKB
137	GEBA BE BB
140	GEBA BE BB
141	GEBA BE BB
142	GEBA BE BB
143	GEBA BE BB
144	GEBA BE BB
145	GEBA BE BB
146	GEBA BE BB
147	GEBA BE BB
148	GEBA BE BB
149	GEBA BE BB
150	BCMC BE BB
171	CPHB BE 75
172	RABO BE 22
173	RABO BE 23
176	BSCH BE BR
177	BSCH BE BR
178	COBA BE BX
179	COBA BE BX
183	BARB BE BB
185	HBKA BE 22
189	SMBC BE BB
190	CREG BE BB
191	CREG BE BB
192	CREG BE BB
193	CREG BE BB
194	CREG BE BB
195	CREG BE BB
196	CREG BE BB
197	CREG BE BB
198	CREG BE BB
199	CREG BE BB
200	GEBA BE BB
201	GEBA BE BB
202	GEBA BE BB
203	GEBA BE BB
204	GEBA BE BB
205	GEBA BE BB
206	GEBA BE BB
207	GEBA BE BB
208	GEBA BE BB
209	GEBA BE BB
210	GEBA BE BB
211	GEBA BE BB
212	GEBA BE BB
213	GEBA BE BB
214	GEBA BE BB
220	GEBA BE BB
221	GEBA BE BB
222	GEBA BE BB
223	GEBA BE BB
224	GEBA BE BB
225	GEBA BE BB
226	GEBA BE BB
227	GEBA BE BB
228	GEBA BE BB
229	GEBA BE BB
230	GEBA BE BB
231	GEBA BE BB
232	GEBA BE BB
233	GEBA BE BB
234	GEBA BE BB
235	GEBA BE BB
236	GEBA BE BB
237	GEBA BE BB
238	GEBA BE BB
239	GEBA BE BB
240	GEBA BE BB
241	GEBA BE BB
242	GEBA BE BB
243	GEBA BE BB
244	GEBA BE BB
245	GEBA BE BB
246	GEBA BE BB
247	GEBA BE BB
248	GEBA BE BB
249	GEBA BE BB
250	GEBA BE BB
251	GEBA BE BB
257	GEBA BE BB
259	GEBA BE BB
260	GEBA BE BB
261	GEBA BE BB
262	GEBA BE BB
263	GEBA BE BB
264	GEBA BE BB
265	GEBA BE BB
266	GEBA BE BB
267	GEBA BE BB
268	GEBA BE BB
269	GEBA BE BB
270	GEBA BE BB
271	GEBA BE BB
272	GEBA BE BB
273	GEBA BE BB
274	GEBA BE BB
275	GEBA BE BB
276	GEBA BE BB
277	GEBA BE BB
278	GEBA BE BB
279	GEBA BE BB
280	GEBA BE BB
281	GEBA BE BB
282	GEBA BE BB
283	GEBA BE BB
284	GEBA BE BB
285	GEBA BE BB
286	GEBA BE BB
287	GEBA BE BB
288	GEBA BE BB
289	GEBA BE BB
290	GEBA BE BB
291	GEBA BE BB
292	GEBA BE BB
293	GEBA BE BB
294	GEBA BE BB
295	GEBA BE BB
296	GEBA BE BB
297	GEBA BE BB
298	GEBA BE BB
299	BPOT BE B1
300	BBRU BE BB
301	BBRU BE BB
302	BBRU BE BB
303	BBRU BE BB
304	BBRU BE BB
305	BBRU BE BB
306	BBRU BE BB
307	BBRU BE BB
308	BBRU BE BB
309	BBRU BE BB
310	BBRU BE BB
311	BBRU BE BB
312	BBRU BE BB
313	BBRU BE BB
314	BBRU BE BB
315	BBRU BE BB
316	BBRU BE BB
317	BBRU BE BB
318	BBRU BE BB
319	BBRU BE BB
320	BBRU BE BB
321	BBRU BE BB
322	BBRU BE BB
323	BBRU BE BB
324	BBRU BE BB
325	BBRU BE BB
326	BBRU BE BB
327	BBRU BE BB
328	BBRU BE BB
329	BBRU BE BB
330	BBRU BE BB
331	BBRU BE BB
332	BBRU BE BB
333	BBRU BE BB
334	BBRU BE BB
335	BBRU BE BB
336	BBRU BE BB
337	BBRU BE BB
338	BBRU BE BB
339	BBRU BE BB
340	BBRU BE BB
341	BBRU BE BB
342	BBRU BE BB
343	BBRU BE BB
344	BBRU BE BB
345	BBRU BE BB
346	BBRU BE BB
347	BBRU BE BB
348	BBRU BE BB
349	BBRU BE BB
350	BBRU BE BB
351	BBRU BE BB
352	BBRU BE BB
353	BBRU BE BB
354	BBRU BE BB
355	BBRU BE BB
356	BBRU BE BB
357	BBRU BE BB
358	BBRU BE BB
359	BBRU BE BB
360	BBRU BE BB
361	BBRU BE BB
362	BBRU BE BB
363	BBRU BE BB
364	BBRU BE BB
365	BBRU BE BB
366	BBRU BE BB
367	BBRU BE BB
368	BBRU BE BB
369	BBRU BE BB
370	BBRU BE BB
371	BBRU BE BB
372	BBRU BE BB
373	BBRU BE BB
374	BBRU BE BB
375	BBRU BE BB
376	BBRU BE BB
377	BBRU BE BB
378	BBRU BE BB
379	BBRU BE BB
380	BBRU BE BB
381	BBRU BE BB
382	BBRU BE BB
383	BBRU BE BB
384	BBRU BE BB
385	BBRU BE BB
386	BBRU BE BB
387	BBRU BE BB
388	BBRU BE BB
389	BBRU BE BB
390	BBRU BE BB
391	BBRU BE BB
392	BBRU BE BB
393	BBRU BE BB
394	BBRU BE BB
395	BBRU BE BB
396	BBRU BE BB
397	BBRU BE BB
398	BBRU BE BB
399	BBRU BE BB
400	KRED BE BB
401	KRED BE BB
402	KRED BE BB
403	KRED BE BB
404	KRED BE BB
405	KRED BE BB
406	KRED BE BB
407	KRED BE BB
408	KRED BE BB
409	KRED BE BB
410	KRED BE BB
411	KRED BE BB
412	KRED BE BB
413	KRED BE BB
414	KRED BE BB
415	KRED BE BB
416	KRED BE BB
417	KRED BE BB
418	KRED BE BB
419	KRED BE BB
420	KRED BE BB
421	KRED BE BB
422	KRED BE BB
423	KRED BE BB
424	KRED BE BB
425	KRED BE BB
426	KRED BE BB
427	KRED BE BB
428	KRED BE BB
429	KRED BE BB
430	KRED BE BB
431	KRED BE BB
432	KRED BE BB
433	KRED BE BB
434	KRED BE BB
435	KRED BE BB
436	KRED BE BB
437	KRED BE BB
438	KRED BE BB
439	KRED BE BB
440	KRED BE BB
441	KRED BE BB
442	KRED BE BB
443	KRED BE BB
444	KRED BE BB
445	KRED BE BB
446	KRED BE BB
447	KRED BE BB
448	KRED BE BB
449	KRED BE BB
450	KRED BE BB
451	KRED BE BB
452	KRED BE BB
453	KRED BE BB
454	KRED BE BB
455	KRED BE BB
456	KRED BE BB
457	KRED BE BB
458	KRED BE BB
459	KRED BE BB
460	KRED BE BB
461	KRED BE BB
462	KRED BE BB
463	KRED BE BB
464	KRED BE BB
465	KRED BE BB
466	KRED BE BB
467	KRED BE BB
468	KRED BE BB
469	KRED BE BB
470	KRED BE BB
471	KRED BE BB
472	KRED BE BB
473	KRED BE BB
474	KRED BE BB
475	KRED BE BB
476	KRED BE BB
477	KRED BE BB
478	KRED BE BB
479	KRED BE BB
480	KRED BE BB
481	KRED BE BB
482	KRED BE BB
483	KRED BE BB
484	KRED BE BB
485	KRED BE BB
486	KRED BE BB
487	KRED BE BB
488	KRED BE BB
489	KRED BE BB
490	KRED BE BB
491	KRED BE BB
492	KRED BE BB
493	KRED BE BB
494	KRED BE BB
495	KRED BE BB
496	KRED BE BB
497	KRED BE BB
498	KRED BE BB
499	KRED BE BB
501	DHBN BE BB
507	DIER BE 21
508	PARB BE BZ MDC
509	ABNA BE 2A IPC
510	VAPE BE 21
512	DNIB BE 21
513	SGPB BE 99
514	PUIL BE BB
515	IRVT BE BB
517	FORD BE 21
519	BNYM BE BB
521	FVLB BE 22
522	UTWB BE BB
523	TRIO BE BB
524	WAFA BE BB
525	FVLB BE 2E
530	SHIZ BE BB
535	FBHL BE 22
541	BKID BE 22
546	WAFA BE BB
548	LOCY BE BB
549	CHAS BE BX
550	GKCC BE BB
551	GKCC BE BB
552	GKCC BE BB
553	GKCC BE BB
554	GKCC BE BB
555	GKCC BE BB
556	GKCC BE BB
557	GKCC BE BB
558	GKCC BE BB
559	GKCC BE BB
560	GKCC BE BB
561	FTNO BE B1
562	GKCC BE BB
563	GKCC BE BB
564	GKCC BE BB
565	GKCC BE BB
566	GKCC BE BB
567	GKCC BE BB
568	GKCC BE BB
569	GKCC BE BB
570	CITI BE BX
571	CITI BE BX
572	CITI BE BX
573	CITI BE BX
574	CITI BE BX
575	CITI BE BX
576	CITI BE BX
577	CITI BE BX
578	CITI BE BX
579	CITI BE BX
581	MHCB BE BB
583	DEGR BE BB
584	ICIC GB 2L
585	RCBP BE BB
586	CFFR BE B1
587	BIBL BE 21
588	CMCI BE B1
590	BSCH BE BB
591	BSCH BE BB
592	BSCH BE BB
593	BSCH BE BB
594	BSCH BE BB
595	CTBK BE BX
596	CTBK BE BX
597	CTBK BE BX
598	CTBK BE BX
599	CTBK BE BX
600	CTBK BE BX
601	CTBK BE BX
605	BKCH BE BB
607	ICBK BE BB
610	DEUT BE BE
611	DEUT BE BE
612	DEUT BE BE
613	DEUT BE BE
624	GKCC BE BB
625	GKCC BE BB
626	CPBI FRPP
630	BBRU BE BB
631	BBRU BE BB
634	BNAG BE BB
635	BNAG BE BB
636	BNAG BE BB
638	GKCC BE BB
639	ABNA BE 2A MYO
640	ADIA BE 22
642	BBVA BE BB
643	BMPB BE BB
645	JVBA BE 22
646	BNAG BE BB
647	BNAG BE BB
651	KEYT BE BB
652	HBKA BE 22
656	ETHI BE BB
657	GKCC BE BB
658	HABB BE BB
664	BCDM BE BB
665	SPAA BE 22
668	SBIN BE 2X
671	EURB BE 99
672	GKCC BE BB
673	HBKA BE 22
674	ABNA BE 2A IDJ
675	BYBB BE BB
676	DEGR BE BB
678	DELE BE 22
679	PCHQ BE BB
680	GKCC BE BB
682	GKCC BE BB
683	GKCC BE BB
685	BOFA BE 3X
686	BOFA BE 3X
687	MGTC BE BE
688	SGAB BE B2
690	BNPA BE BB
691	FTSB NL 2R
693	BOTK BE BX
694	DEUT BE BE
696	CRLY BE BB
700	AXAB BE 22
701	AXAB BE 22
702	AXAB BE 22
703	AXAB BE 22
704	AXAB BE 22
705	AXAB BE 22
706	AXAB BE 22
707	AXAB BE 22
708	AXAB BE 22
709	AXAB BE 22
719	FTSB BE 22
720	ABNA BE BR
721	ABNA BE BR
722	ABNA BE 2A IPC
723	ABNA BE BR
724	ABNA BE BR
725	KRED BE BB
726	KRED BE BB
727	KRED BE BB
728	CREG BE BB
729	CREG BE BB
730	KRED BE BB
731	KRED BE BB
732	CREG BE BB
733	KRED BE BB
734	KRED BE BB
735	KRED BE BB
736	KRED BE BB
737	KRED BE BB
738	KRED BE BB
739	KRED BE BB
740	KRED BE BB
741	KRED BE BB
742	CREG BE BB
743	KRED BE BB
744	KRED BE BB
745	KRED BE BB
746	KRED BE BB
747	KRED BE BB
748	KRED BE BB
749	KRED BE BB
750	AXAB BE 22
751	AXAB BE 22
752	AXAB BE 22
753	AXAB BE 22
754	AXAB BE 22
755	AXAB BE 22
756	AXAB BE 22
757	AXAB BE 22
758	AXAB BE 22
759	AXAB BE 22
760	AXAB BE 22
761	AXAB BE 22
762	AXAB BE 22
763	AXAB BE 22
764	AXAB BE 22
765	AXAB BE 22
766	AXAB BE 22
767	AXAB BE 22
768	AXAB BE 22
769	AXAB BE 22
770	AXAB BE 22
771	AXAB BE 22
772	AXAB BE 22
773	AXAB BE 22
774	AXAB BE 22
775	GKCC BE BB
776	GKCC BE BB
777	GKCC BE BB
778	GKCC BE BB
779	GKCC BE BB
780	GKCC BE BB
781	GKCC BE BB
782	GKCC BE BB
783	GKCC BE BB
784	GKCC BE BB
785	GKCC BE BB
786	GKCC BE BB
787	GKCC BE BB
788	GKCC BE BB
789	GKCC BE BB
790	GKCC BE BB
791	GKCC BE BB
792	GKCC BE BB
793	GKCC BE BB
794	GKCC BE BB
795	GKCC BE BB
796	GKCC BE BB
797	GKCC BE BB
798	GKCC BE BB
799	GKCC BE BB
800	AXAB BE 22
801	AXAB BE 22
802	AXAB BE 22
803	AXAB BE 22
804	AXAB BE 22
805	AXAB BE 22
806	AXAB BE 22
807	AXAB BE 22
808	AXAB BE 22
809	AXAB BE 22
810	AXAB BE 22
811	AXAB BE 22
812	AXAB BE 22
813	AXAB BE 22
814	AXAB BE 22
815	AXAB BE 22
816	AXAB BE 22
823	BLUX BE 41
825	DEUT BE BE
826	DEUT BE BE
827	ETHI BE BB
828	HBKA BE 22
829	BMEC BE B1
830	GKCC BE BB
831	GKCC BE BB
832	GKCC BE BB
833	GKCC BE BB
834	GKCC BE BB
835	GKCC BE BB
836	GKCC BE BB
837	GKCC BE BB
838	GKCC BE BB
839	GKCC BE BB
840	PRIB BE BB
841	COVE BE 71
842	UBSW BE BB
843	FTNO BE B1
844	RABO BE 22
845	DEGR BE BB
850	SPAA BE 22
851	SPAA BE 22
852	SPAA BE 22
853	SPAA BE 22
859	SPAA BE 22
860	SPAA BE 22
861	SPAA BE 22
862	SPAA BE 22
863	SPAA BE 22
865	SPAA BE 22
866	SPAA BE 22
868	KRED BE BB
870	BNAG BE BB
871	BNAG BE BB
872	BNAG BE BB
873	PCHQ BE BB
874	BNAG BE BB
876	MBWM BE BB
877	BNAG BE BB
878	BNAG BE BB
879	BNAG BE BB
880	HBKA BE 22
881	HBKA BE 22
882	HBKA BE 22
883	HBKA BE 22
884	HBKA BE 22
885	HBKA BE 22
886	HBKA BE 22
887	HBKA BE 22
888	HBKA BE 22
889	HBKA BE 22
890	VDSP BE 91
891	VDSP BE 91
892	VDSP BE 91
893	VDSP BE 91
894	VDSP BE 91
895	VDSP BE 91
896	VDSP BE 91
897	VDSP BE 91
898	VDSP BE 91
899	VDSP BE 91
906	CEKV BE 81
907	SPAA BE 22
908	CEKV BE 81
909	FTNO BE B1
910	HBKA BE 22
911	TUNZ BE B1
913	EPBF BE BB
918	BILL BE BB
920	HBKA BE 22
921	HBKA BE 22
922	HBKA BE 22
923	HBKA BE 22
925	HBKA BE 22
929	HBKA BE 22
930	HBKA BE 22
931	HBKA BE 22
932	HBKA BE 22
933	HBKA BE 22
934	HBKA BE 22
935	HBKA BE 22
936	HBKA BE 22
937	HBKA BE 22
938	HBKA BE 22
939	HBKA BE 22
940	CLIQ BE B1
941	CVMC BE BB
942	PUIL BE BB
945	JPMG BE BB
947	AARB BE B1
949	HSBC BE BB
950	CTBK BE BX
951	CTBK BE BX
952	CTBK BE BX
953	CTBK BE BX
954	CTBK BE BX
955	CTBK BE BX
956	CTBK BE BX
957	CTBK BE BX
958	CTBK BE BX
959	CTBK BE BX
960	ABNA BE 2A IPC
961	HBKA BE 22
962	ETHI BE BB
963	AXAB BE 22
965	ETHI BE BB
968	ENIB BE BB
969	PUIL BE BB
970	HBKA BE 22
971	HBKA BE 22
973	ARSP BE 22
975	AXAB BE 22
976	HBKA BE 22
978	ARSP BE 22
979	ARSP BE 22
980	ARSP BE 22
981	PCHQ BE BB
982	PCHQ BE BB
983	PCHQ BE BB
984	PCHQ BE BB
985	BPOT BE B1
986	BPOT BE B1
987	BPOT BE B1
988	BPOT BE B1
".

(** One turn of the loop that fills [BELGIAN_BICS]. *)
Definition add_bank_code (d : gmap string string) (ln : string)
  : Exc (gmap string string) :=
  match Py.split "009" ln with
  | [a0; a1] =>
      let bic := Py.remove_char " " a1 in
      if decide (String.length bic = 8 ∨ String.length bic = 11)%nat
      then mret (<[a0 := bic]> d)
      else raise AssertionError
  | _ => raise AssertionError
  end.

Definition build_BELGIAN_BICS : Exc (gmap string string) :=
  foldl (λ acc ln, d ← acc; add_bank_code d ln) (mret ∅)
        (Py.splitlines BANK_CODES).

(** The module-level dictionary, as it stands once the module is loaded. *)
Definition BELGIAN_BICS : gmap string string :=
  match build_BELGIAN_BICS with
  | inr d => d
  | inl _ => ∅
  end.

Definition msg_length : string := "Length of Belgian NBAN must be 12!".

Definition msg_ends_with (found expected : string) : string :=
  "Belgian NBAN ends with " +:+ found +:+ " (expected " +:+ expected +:+ ")!".

(** [be2iban(nban)] *)
Definition be2iban (nban : string) : Exc string :=
  let nban := Py.remove_char " " nban in
  let nban := Py.remove_char "-" nban in
  if decide (String.length nban ≠ 12%nat) then
    raise (ValidationError msg_length)
  else
    n ← Py.int (Py.take 10 nban);
    let m := n `mod` 97 in
    let end_ := Py.last_chars 2 nban in
    (if decide (m = 0) then
       if decide (end_ ≠ "97") then
         raise (ValidationError (msg_ends_with end_ "97"))
       else mret ()
     else
       e ← Py.int end_;
       if decide (e ≠ m) then
         raise (ValidationError (msg_ends_with end_ (Py.str m)))
       else mret ());;
    let data := nban +:+ "1114" in
    let data := data +:+ "00" in
    d ← Py.int data;
    let s := Py.fmt_02d (98 - d `mod` 97) in
    mret ("BE" +:+ s +:+ nban).

(** [iban2bic(iban)]; Python's implicit [return None] is [None] here. *)
Definition iban2bic (iban : string) : option string :=
  let iban := Py.remove_char " " iban in
  if Py.startswith "BE" iban then
    let k := Py.slice 4 7 iban in
    BELGIAN_BICS !! k
  else None.

(** [belgian_nban_to_iban_bic(s)] *)
Definition belgian_nban_to_iban_bic (s : string) : Exc (string * option string) :=
  iban ← be2iban s;
  let bic := iban2bic iban in
  mret (iban, bic).

(** What [be2iban] keeps of its argument: the first two assignments of its
    body. *)
Definition normalize (nban : string) : string :=
  Py.remove_char "-" (Py.remove_char " " nban).

(** The two closing digits [be2iban] expects after the ten digits [ten]. *)
Definition expected_end (ten : string) : Z :=
  let m := Py.num ten `mod` 97 in
  if decide (m = 0) then 97 else m.

(** A Belgian NBAN that [be2iban] takes: twelve decimal digits once spaces and
    hyphens are gone, the last two being the ones expected after the first
    ten. *)
Definition valid_nban (raw : string) : Prop :=
  let nban := normalize raw in
  String.length nban = 12%nat ∧ Py.all_digits nban = true ∧
  Py.num (Py.last_chars 2 nban) = expected_end (Py.take 10 nban).

End Sepa.


(** ** [b2c/models.py] *)

Module B2C.

(** *** Values *)

(** A [datetime.date]; dates compare by year, then month, then day. *)
Record date : Type := Date { year : Z; month : Z; day : Z }.

#[global] Instance date_eq_dec : EqDecision date.
Proof. solve_decision. Defined.

Definition date_ltb (a b : date) : bool :=
  bool_decide (year a < year b ∨
               (year a = year b ∧
                (month a < month b ∨ (month a = month b ∧ day a < day b)))).

(** [max(last_movement, d)] of Python 2, where [None] is smaller than any
    date and the first of two equal arguments is returned. *)
Definition py_max (last_movement : option date) (d : date) : option date :=
  match last_movement with
  | None => Some d
  | Some l => if date_ltb l d then Some d else Some l
  end.

(** The loosely typed attributes of a parsed transaction. *)
Inductive pyval : Type :=
| PNone
| PStr (s : string)
| PDate (d : date).

#[global] Instance pyval_eq_dec : EqDecision pyval.
Proof. solve_decision. Defined.

Definition truthy (v : pyval) : bool :=
  match v with
  | PNone => false
  | PStr s => bool_decide (s ≠ EmptyString)
  | PDate _ => true
  end.

(** [v or d] *)
Definition py_or (v d : pyval) : pyval := if truthy v then v else d.

(** ['\n'.join(lines)] *)
Fixpoint join_lines (lines : list string) : string :=
  match lines with
  | [] => EmptyString
  | [l] => l
  | l :: ls => l +:+ String "010" (join_lines ls)
  end.

(** *** What the parser yields *)

Record transaction : Type := Transaction {
  mvmt_date : date;
  mvmt_amount : Z;
  mvmt_unique_import_id : string;
  mvmt_ref : option string;
  mvmt_remote_owner : pyval;
  mvmt_remote_owner_address : list string;
  mvmt_remote_account : pyval;
  mvmt_remote_bank_bic : pyval;
  mvmt_message : pyval;
  mvmt_eref : pyval;
  mvmt_remote_owner_city : pyval;
  mvmt_remote_owner_postalcode : pyval;
  mvmt_remote_owner_country_code : pyval;
  mvmt_transfer_type : pyval;
  mvmt_execution_date : pyval;
  mvmt_value_date : pyval
}.

Record statement_record : Type := StatementRecord {
  stmt_account_number : option string;
  stmt_name : string;
  stmt_start_date : option date;
  stmt_end_date : option date;
  stmt_balance_start : Z;
  stmt_balance_end : Z;
  stmt_balance_end_real : Z;
  stmt_currency_code : string;
  stmt_legal_sequence_number : option Z;
  stmt_transactions : list transaction
}.

(** *** The models

    A table maps primary keys to rows; a model instance in memory is a row
    together with its primary key, [None] until it is saved.  Amounts are
    decimals with a fixed number of places, kept as integers. *)

Record Account : Type := mkAccount {
  iban : string;
  bic : string;
  last_movement : option date
}.

Record Statement : Type := mkStatement {
  account : nat;
  start_date : option date;
  end_date : option date;
  statement_number : string;
  balance_start : Z;
  balance_end : Z;
  balance_end_real : Z;
  currency_code : string;
  sequence_number : option Z
}.

Record Movement : Type := mkMovement {
  statement : nat;
  unique_import_id : string;
  movement_date : date;
  amount : Z;
  partner_name : pyval;
  remote_account : pyval;
  remote_bic : pyval;
  ref : string;
  message : pyval;
  eref : pyval;
  remote_owner : pyval;
  remote_owner_address : string;
  remote_owner_city : pyval;
  remote_owner_postalcode : pyval;
  remote_owner_country_code : pyval;
  transfer_type : pyval;
  execution_date : pyval;
  value_date : pyval
}.

#[global] Instance Account_eq_dec : EqDecision Account.
Proof. solve_decision. Defined.
#[global] Instance Statement_eq_dec : EqDecision Statement.
Proof. solve_decision. Defined.
#[global] Instance Movement_eq_dec : EqDecision Movement.
Proof. solve_decision. Defined.

(** *** What [save()] refuses

    [s.save()] and [m.save()] convert the value of each column and send the
    row to the database; either step can raise, and then no row is
    written. *)

(** What is not written out below: the conversions of [IBANField] and
    [BICField], declared in [sepa/fields.py], and of Lino's [PriceField],
    which are not among the sources, those of Django for the strings that
    are not blank, and the constraints of the database in use.  For each
    row, the exception they raise, [None] when they take it. *)
Class Backend : Type := {
  refuses_statement : Statement → option exn;
  refuses_movement : Movement → option exn
}.

(** The first of the errors, in the order of the checks. *)
Fixpoint first_error (checks : list (option exn)) : option exn :=
  match checks with
  | [] => None
  | Some e :: _ => Some e
  | None :: rest => first_error rest
  end.

(** A string of spaces only, the empty one among them. *)
Definition blank (s : string) : bool :=
  bool_decide (Py.remove_char " " s = EmptyString).

Definition msg_invalid_date (s : string) : string :=
  "'" +:+ s +:+
  "' value has an invalid date format. It must be in YYYY-MM-DD format.".

(** [DateField.to_python], which [save()] applies to the value of a
    [DateField]: [None] and a date are kept, and a blank string is no date.
    Both [execution_date] and [value_date] are declared
    [DateField(null=True)]. *)
Definition date_field_error (v : pyval) : option exn :=
  match v with
  | PStr s =>
      if blank s then Some (ValidationError (msg_invalid_date s)) else None
  | _ => None
  end.

(** A [CharField] or [TextField] declared without [null=True] takes no
    [None]: the database raises [IntegrityError]. *)
Definition not_null_error (v : pyval) : option exn :=
  match v with
  | PNone => Some IntegrityError
  | _ => None
  end.

(** An [IntegerField] takes no integer outside of 64 bits, whatever the
    database; [sqlite3] raises [OverflowError]. *)
Definition integer_field_error (v : option Z) : option exn :=
  match v with
  | Some n => if decide (- 2 ^ 63 ≤ n < 2 ^ 63) then None else Some OverflowError
  | None => None
  end.

(** What [s.save()] raises for the row of a [Statement]. *)
Definition statement_error `{!Backend} (s : Statement) : option exn :=
  first_error [integer_field_error (sequence_number s); refuses_statement s].

(** What [m.save()] raises for the row of a [Movement]: the conversions come
    before the row is sent to the database. *)
Definition movement_error `{!Backend} (m : Movement) : option exn :=
  first_error [
    date_field_error (execution_date m);
    date_field_error (value_date m);
    not_null_error (partner_name m);
    not_null_error (message m);
    not_null_error (eref m);
    not_null_error (remote_owner m);
    not_null_error (remote_owner_city m);
    not_null_error (remote_owner_postalcode m);
    not_null_error (remote_owner_country_code m);
    not_null_error (transfer_type m);
    refuses_movement m ].

Arguments statement_error : simpl never.
Arguments movement_error : simpl never.

Record DB : Type := mkDB {
  accounts : gmap nat Account;
  statements : gmap nat Statement;
  movements : gmap nat Movement
}.

(** The primary key an insertion gets: one more than the largest in use. *)
Definition next_pk {A : Type} (table : gmap nat A) : nat :=
  S (max_list (map_to_list table).*1).

(** [Model.objects.filter(...)]: the rows that satisfy [p], with their keys. *)
Definition objects_filter {A : Type} (p : A → bool) (table : gmap nat A)
  : list (nat * A) :=
  filter (λ kr, p kr.2 = true) (map_to_list table).

(** [Model.objects.filter(...).exists()] *)
Definition objects_exists {A : Type} (p : A → bool) (table : gmap nat A) : bool :=
  match objects_filter p table with
  | [] => false
  | _ => true
  end.

(** [Model.objects.get(...)] *)
Definition objects_get {A : Type} (p : A → bool) (table : gmap nat A)
  : Exc (nat * A) :=
  match objects_filter p table with
  | [] => raise DoesNotExist
  | [kr] => mret kr
  | _ => raise MultipleObjectsReturned
  end.

(** [obj.save()]: an insertion under a new key when the instance has none,
    else the row under its key is replaced.  The key is returned. *)
Definition save_row {A : Type} (pk : option nat) (row : A) (table : gmap nat A)
  : nat * gmap nat A :=
  match pk with
  | None => let k := next_pk table in (k, <[k := row]> table)
  | Some k => (k, <[k := row]> table)
  end.

(** *** The state an import runs in *)

Inductive level : Type := DEBUG | INFO | WARNING.

Record State : Type := mkState {
  db : DB;
  new_statements : nat;
  updated_statements : nat;
  failed_statements : nat;
  imported_files : nat;
  log : list (level * string);
  (** the files of the directory, each with whether it may be removed *)
  files : gmap string bool
}.

Definition M (A : Type) : Type := State → State * Exc A.

#[global] Instance M_ret : MRet M := λ A a st, (st, inr a).
#[global] Instance M_bind : MBind M := λ A B f c st,
  match c st with
  | (st', inl e) => (st', inl e)
  | (st', inr a) => f a st'
  end.

Definition throw {A : Type} (e : exn) : M A := λ st, (st, inl e).
Definition lift {A : Type} (c : Exc A) : M A := λ st, (st, c).
Definition gets {A : Type} (f : State → A) : M A := λ st, (st, inr (f st)).
Definition modify (f : State → State) : M () := λ st, (f st, inr ()).

(** [try: c except e: handler] for the exceptions [handler] is defined on. *)
Definition try_except {A : Type} (c : M A) (handler : exn → option (M A)) : M A :=
  λ st,
    match c st with
    | (st', inl e) =>
        match handler e with
        | Some h => h st'
        | None => (st', inl e)
        end
    | r => r
    end.

Fixpoint for_each {A B : Type} (body : B → A → M B) (acc : B) (l : list A) : M B :=
  match l with
  | [] => mret acc
  | x :: l' => acc' ← body acc x; for_each body acc' l'
  end.

Definition set_db (f : DB → DB) (st : State) : State :=
  mkState (f (db st)) (new_statements st) (updated_statements st)
          (failed_statements st) (imported_files st) (log st) (files st).

Definition set_accounts (t : gmap nat Account) (d : DB) : DB :=
  mkDB t (statements d) (movements d).
Definition set_statements (t : gmap nat Statement) (d : DB) : DB :=
  mkDB (accounts d) t (movements d).
Definition set_movements (t : gmap nat Movement) (d : DB) : DB :=
  mkDB (accounts d) (statements d) t.

Definition add_log (l : level) (msg : string) (st : State) : State :=
  mkState (db st) (new_statements st) (updated_statements st)
          (failed_statements st) (imported_files st) (log st ++ [(l, msg)])
          (files st).

Definition incr_new_statements (st : State) : State :=
  mkState (db st) (S (new_statements st)) (updated_statements st)
          (failed_statements st) (imported_files st) (log st) (files st).
Definition incr_updated_statements (st : State) : State :=
  mkState (db st) (new_statements st) (S (updated_statements st))
          (failed_statements st) (imported_files st) (log st) (files st).
Definition add_failed_statements (n : nat) (st : State) : State :=
  mkState (db st) (new_statements st) (updated_statements st)
          (failed_statements st + n) (imported_files st) (log st) (files st).
Definition incr_imported_files (st : State) : State :=
  mkState (db st) (new_statements st) (updated_statements st)
          (failed_statements st) (S (imported_files st)) (log st) (files st).
Definition set_files (f : gmap string bool) (st : State) : State :=
  mkState (db st) (new_statements st) (updated_statements st)
          (failed_statements st) (imported_files st) (log st) f.

Definition logger (l : level) (msg : string) : M () := modify (add_log l msg).

(** [os.remove(filename)] *)
Definition os_remove (filename : string) : M () :=
  λ st,
    match files st !! filename with
    | Some true => (set_files (delete filename (files st)) st, inr ())
    | Some false =>
        (st, inl (OSError ("[Errno 13] Permission denied: '" +:+ filename +:+ "'")))
    | None =>
        (st, inl (OSError ("[Errno 2] No such file or directory: '" +:+ filename +:+ "'")))
    end.

(** *** [ImportStatements] *)

Section ImportStatements.

Context {backend : Backend}.

(** The field validators of an [Account]: [None] when they accept it, else
    the message of the [ValidationError] they raise.  Its [iban] and [bic]
    are an [IBANField] and a [BICField], declared in [sepa/fields.py], which
    is not among the sources: their validators are a parameter, and cleaning
    a field is taken to leave its value as it is. *)
Variable clean_fields : Account → option string.

(** [dd.plugins.b2c.delete_imported_xml_files] *)
Variable delete_imported_xml_files : bool.

Definition by_iban (i : string) (a : Account) : bool := bool_decide (iban a = i).

Definition by_statement (number : string) (account_pk : nat) (s : Statement) : bool :=
  bool_decide (statement_number s = number ∧ account s = account_pk).

Definition by_unique_import_id (i : string) (m : Movement) : bool :=
  bool_decide (unique_import_id m = i).

(** [account.full_clean()].  [b2c.Account] defines no [full_clean] of its
    own, so this is the inherited one: the field validators, then
    [validate_unique] for [iban], which is declared [unique=True]. *)
Definition full_clean (pk : option nat) (a : Account) : M () :=
  match clean_fields a with
  | Some msg => throw (ValidationError msg)
  | None =>
      same ← gets (λ st, objects_filter (by_iban (iban a)) (accounts (db st)));
      if forallb (λ kr : nat * Account, bool_decide (Some kr.1 = pk)) same
      then mret ()
      else throw (ValidationError
                    "Imported bank account with this IBAN already exists.")
  end.

(** [account.save()], which comes after [account.full_clean()] each time. *)
Definition save_account (pk : option nat) (a : Account) : M nat :=
  λ st,
    let '(k, t) := save_row pk a (accounts (db st)) in
    (set_db (set_accounts t) st, inr k).

(** [s.save()] *)
Definition save_statement (pk : option nat) (s : Statement) : M nat :=
  λ st,
    match statement_error s with
    | Some e => (st, inl e)
    | None =>
        let '(k, t) := save_row pk s (statements (db st)) in
        (set_db (set_statements t) st, inr k)
    end.

(** [m.save()] *)
Definition save_movement (pk : option nat) (m : Movement) : M nat :=
  λ st,
    match movement_error m with
    | Some e => (st, inl e)
    | None =>
        let '(k, t) := save_row pk m (movements (db st)) in
        (set_db (set_movements t) st, inr k)
    end.

(** The movement made of a transaction that is not in the table, for the
    statement [s]: the call [Movement(statement=s, ...)]. *)
Definition new_movement (s : nat) (mvmt : transaction) : Movement := {|
  statement := s;
  unique_import_id := mvmt_unique_import_id mvmt;
  movement_date := mvmt_date mvmt;
  amount := mvmt_amount mvmt;
  partner_name := mvmt_remote_owner mvmt;
  ref := default EmptyString (mvmt_ref mvmt);
  remote_account := py_or (mvmt_remote_account mvmt) (PStr EmptyString);
  remote_bic := py_or (mvmt_remote_bank_bic mvmt) (PStr EmptyString);
  message := py_or (mvmt_message mvmt) (PStr EmptyString);
  eref := py_or (mvmt_eref mvmt) (PStr EmptyString);
  remote_owner := py_or (mvmt_remote_owner mvmt) (PStr EmptyString);
  remote_owner_address := join_lines (mvmt_remote_owner_address mvmt);
  remote_owner_city := py_or (mvmt_remote_owner_city mvmt) (PStr EmptyString);
  remote_owner_postalcode :=
    py_or (mvmt_remote_owner_postalcode mvmt) (PStr EmptyString);
  remote_owner_country_code :=
    py_or (mvmt_remote_owner_country_code mvmt) (PStr EmptyString);
  transfer_type := py_or (mvmt_transfer_type mvmt) (PStr EmptyString);
  execution_date := py_or (mvmt_execution_date mvmt) (PStr EmptyString);
  value_date := py_or (mvmt_value_date mvmt) (PStr EmptyString)
|}.

(** The movement [m] found in the table after the assignments
    [m.statement = s], [m.movement_date = mvmt['date']] and so on. *)
Definition overwrite_movement (s : nat) (mvmt : transaction) (m : Movement)
  : Movement := {|
  statement := s;
  unique_import_id := unique_import_id m;
  movement_date := mvmt_date mvmt;
  amount := mvmt_amount mvmt;
  partner_name := mvmt_remote_owner mvmt;
  ref := default EmptyString (mvmt_ref mvmt);
  remote_account := py_or (mvmt_remote_account mvmt) (PStr EmptyString);
  remote_bic := py_or (mvmt_remote_bank_bic mvmt) (PStr EmptyString);
  message := py_or (mvmt_message mvmt) (PStr " ");
  eref := py_or (mvmt_eref mvmt) (PStr " ");
  remote_owner := py_or (mvmt_remote_owner mvmt) (PStr " ");
  remote_owner_address := join_lines (mvmt_remote_owner_address mvmt);
  remote_owner_city := py_or (mvmt_remote_owner_city mvmt) (PStr " ");
  remote_owner_postalcode := py_or (mvmt_remote_owner_postalcode mvmt) (PStr " ");
  remote_owner_country_code :=
    py_or (mvmt_remote_owner_country_code mvmt) (PStr " ");
  transfer_type := py_or (mvmt_transfer_type mvmt) (PStr " ");
  execution_date := py_or (mvmt_execution_date mvmt) (PStr " ");
  value_date := py_or (mvmt_value_date mvmt) (PStr " ")
|}.

Definition msg_existing_transaction (mvmt_id : string) : string :=
  "Existing transaction in a new statement?! " +:+ mvmt_id.

(** The body of [for mvmt in stmt['transactions']], for the saved statement
    [s]; the running [last_movement] goes in and comes out. *)
Definition movement_step (s : nat) (movements_to_update : bool)
    (last_movement : option date) (mvmt : transaction) : M (option date) :=
  let last_movement := py_max last_movement (mvmt_date mvmt) in
  let mvmt_id := mvmt_unique_import_id mvmt in
  found ← gets (λ st, objects_exists (by_unique_import_id mvmt_id)
                                     (movements (db st)));
  (if found : bool then
     (if negb movements_to_update then
        logger WARNING (msg_existing_transaction mvmt_id)
      else mret ());;
     '(pk, m) ← (λ st, lift (objects_get (by_unique_import_id mvmt_id)
                                         (movements (db st))) st);
     save_movement (Some pk) (overwrite_movement s mvmt m)
   else
     save_movement None (new_movement s mvmt));;
  mret last_movement.

(** The statement made of a record whose number is not in the table for
    the account: the call [Statement(account=account, ...)]. *)
Definition new_statement (account_pk : nat) (stmt : statement_record)
  : Statement := {|
  account := account_pk;
  start_date := stmt_start_date stmt;
  end_date := stmt_end_date stmt;
  statement_number := stmt_name stmt;
  balance_end := stmt_balance_end stmt;
  balance_start := stmt_balance_start stmt;
  balance_end_real := stmt_balance_end_real stmt;
  sequence_number := stmt_legal_sequence_number stmt;
  currency_code := stmt_currency_code stmt
|}.

(** The statement [s] found in the table after the assignments
    [s.start_date = stmt['start_date']] and so on. *)
Definition overwrite_statement (stmt : statement_record) (s : Statement)
  : Statement := {|
  account := account s;
  statement_number := statement_number s;
  start_date := stmt_start_date stmt;
  end_date := stmt_end_date stmt;
  balance_end := stmt_balance_end stmt;
  balance_start := stmt_balance_start stmt;
  balance_end_real := stmt_balance_end_real stmt;
  currency_code := stmt_currency_code stmt;
  sequence_number := stmt_legal_sequence_number stmt
|}.

(** [account.last_movement = last_movement] *)
Definition set_last_movement (last : option date) (a : Account) : Account :=
  {| iban := iban a; bic := bic a; last_movement := last |}.

(** The body of [for stmt in res] from the lookup of the statement on, for
    the account instance the first part of the body has found or made. *)
Definition import_statement (account_pk : nat) (account : Account)
    (stmt : statement_record) : M () :=
  found ← gets (λ st, objects_exists (by_statement (stmt_name stmt) account_pk)
                                     (statements (db st)));
  '(pk, s, movements_to_update) ←
    (if found : bool then
       '(pk, s) ← (λ st, lift (objects_get
                                 (by_statement (stmt_name stmt) account_pk)
                                 (statements (db st))) st);
       modify incr_updated_statements;;
       mret (Some pk, overwrite_statement stmt s, true)
     else
       modify incr_new_statements;;
       mret (None, new_statement account_pk stmt, false));
  s_pk ← save_statement pk s;
  last ← for_each (movement_step s_pk movements_to_update) None
                  (stmt_transactions stmt);
  if decide (last_movement account ≠ last) then
    let account := set_last_movement last account in
    full_clean (Some account_pk) account;;
    save_account (Some account_pk) account;;
    mret ()
  else mret ().

Definition msg_without_iban (unique_id : string) : string :=
  "Statement without IBAN : " +:+ unique_id.

Definition msg_more_than_one (iban : string) : string :=
  "Found more than one account with IBAN " +:+ iban.

(** [Account(iban=iban)]: the other fields take their defaults. *)
Definition new_account (iban : string) : Account :=
  {| iban := iban; bic := EmptyString; last_movement := None |}.

(** The body of [for stmt in res]; the local counter [failed_statements] goes
    in and comes out. *)
Definition stmt_step (failed_statements : nat) (stmt : statement_record) : M nat :=
  let unique_id := stmt_name stmt in
  match stmt_account_number stmt with
  | None =>
      logger WARNING (msg_without_iban unique_id);;
      mret (S failed_statements)
  | Some iban =>
      found ← try_except
        (a ← (λ st, lift (objects_get (by_iban iban) (accounts (db st))) st);
         mret (Some a))
        (λ e, match e with
              | DoesNotExist => Some (
                  let account := new_account iban in
                  full_clean None account;;
                  pk ← save_account None account;
                  mret (Some (pk, account)))
              | MultipleObjectsReturned => Some (
                  logger WARNING (msg_more_than_one iban);;
                  mret None)
              | _ => None
              end);
      match found with
      | None => mret (S failed_statements)
      | Some (pk, account) =>
          import_statement pk account stmt;;
          mret failed_statements
      end
  end.

(** [import_file(ar, filename)], given what [CamtParser().parse] returns for
    the content of the file. *)
Definition import_file (filename : string) (res : option (list statement_record))
  : M () :=
  logger DEBUG ("Importing file " +:+ filename +:+ ".");;
  modify incr_imported_files;;
  match res with
  | None => throw (Exception "res is None")
  | Some res =>
      failed_statements ← for_each stmt_step 0%nat res;
      if decide (0 < failed_statements)%nat then
        logger WARNING (Py.str (Z.of_nat failed_statements) +:+
                        " statements were NOT imported from " +:+ filename);;
        modify (add_failed_statements failed_statements)
      else if delete_imported_xml_files then
        try_except
          (os_remove filename;;
           logger INFO ("The file " +:+ filename +:+ " has been deleted."))
          (λ e, match e with
                | OSError err => Some (
                    logger WARNING
                      ("Failed to delete " +:+ filename +:+ " : " +:+ err))
                | _ => None
                end)
      else
        logger INFO ("File " +:+ filename +:+ " was imported but NOT deleted.")
  end.

End ImportStatements.

(** *** What the properties of the importer are stated with *)

(** At most one row of the table satisfies [p]. *)
Definition unique_by {A : Type} (p : A → bool) (table : gmap nat A) : Prop :=
  ∀ k1 k2 r1 r2,
    table !! k1 = Some r1 → table !! k2 = Some r2 →
    p r1 = true → p r2 = true → k1 = k2.

(** No row of the table satisfies [p]. *)
Definition none_by {A : Type} (p : A → bool) (table : gmap nat A) : Prop :=
  ∀ k r, table !! k = Some r → p r = false.

(** A well-formed database: the keys the importer looks rows up by identify
    at most one row, that is the IBAN of an account, the account and number
    of a statement, the import identifier of a movement. *)
Record wf (d : DB) : Prop := {
  wf_accounts : ∀ i, unique_by (by_iban i) (accounts d);
  wf_statements : ∀ n a, unique_by (by_statement n a) (statements d);
  wf_movements : ∀ i, unique_by (by_unique_import_id i) (movements d)
}.

(** What a loop over the transactions of a statement leaves as it is. *)
Record movements_only (st st' : State) : Prop := {
  mo_accounts : accounts (db st') = accounts (db st);
  mo_statements : statements (db st') = statements (db st);
  mo_new : new_statements st' = new_statements st;
  mo_updated : updated_statements st' = updated_statements st;
  mo_failed : failed_statements st' = failed_statements st;
  mo_imported : imported_files st' = imported_files st;
  mo_files : files st' = files st
}.

(** The running value of [last_movement] after the transactions [txs]. *)
Definition running_max (last : option date) (txs : list transaction) : option date :=
  foldl py_max last (mvmt_date <$> txs).

(** [d] is a date of the transactions and none of them has a later one. *)
Definition is_latest (d : date) (txs : list transaction) : Prop :=
  d ∈ mvmt_date <$> txs ∧ ∀ mvmt, mvmt ∈ txs → date_ltb d (mvmt_date mvmt) = false.

(** The state a transaction that is in the table, as the row [m] under [k],
    leaves. *)
Definition movement_overwritten (s : nat) (movements_to_update : bool)
    (mvmt : transaction) (k : nat) (m : Movement) (st : State) : State :=
  let st1 := if movements_to_update then st
             else add_log WARNING
                    (msg_existing_transaction (mvmt_unique_import_id mvmt)) st in
  set_db (set_movements
            (<[k := overwrite_movement s mvmt m]> (movements (db st)))) st1.

(** The state a transaction that is not in the table leaves. *)
Definition movement_created (s : nat) (mvmt : transaction) (st : State) : State :=
  set_db (set_movements
            (<[next_pk (movements (db st)) := new_movement s mvmt]>
               (movements (db st)))) st.

(** The table of movements after a transaction, for the statement [s]. *)
Definition upsert_movement (s : nat) (mvmt : transaction)
    (table : gmap nat Movement) : gmap nat Movement :=
  match objects_filter (by_unique_import_id (mvmt_unique_import_id mvmt)) table with
  | [] => <[next_pk table := new_movement s mvmt]> table
  | (k, m) :: _ => <[k := overwrite_movement s mvmt m]> table
  end.

(** The table of movements after the transactions [txs] of the statement
    [s]. *)
Definition movements_after (s : nat) (txs : list transaction)
    (table : gmap nat Movement) : gmap nat Movement :=
  foldl (λ t mvmt, upsert_movement s mvmt t) table txs.

(** How the statement of a record came into the table: made under a new key,
    which counts as a new statement, or found under its key, which counts as
    an updated one. *)
Definition statement_branch (account_pk : nat) (stmt : statement_record)
    (spk : nat) (st st' : State) : Prop :=
  (none_by (by_statement (stmt_name stmt) account_pk) (statements (db st)) ∧
   spk = next_pk (statements (db st)) ∧
   new_statements st' = S (new_statements st) ∧
   updated_statements st' = updated_statements st) ∨
  (∃ s, statements (db st) !! spk = Some s ∧
        by_statement (stmt_name stmt) account_pk s = true ∧
        new_statements st' = new_statements st ∧
        updated_statements st' = S (updated_statements st)).

(** What a record that is imported leaves: the account [a0] it belongs to,
    which was in the table under [apk] or has been made under that key, with
    the date of its last movement; its statement under [spk]; the other
    counters and the directory as they were. *)
Record stmt_imported (stmt : statement_record) (i : string) (st st' : State)
    (apk : nat) (a0 : Account) (spk : nat) : Prop := {
  si_wf : wf (db st');
  si_iban : iban a0 = i;
  si_account :
    accounts (db st) !! apk = Some a0 ∨
    (none_by (by_iban i) (accounts (db st)) ∧
     apk = next_pk (accounts (db st)) ∧ a0 = new_account i);
  si_accounts :
    accounts (db st')
    = <[apk := set_last_movement (running_max None (stmt_transactions stmt)) a0]>
        (accounts (db st));
  si_statements :
    statements (db st')
    = <[spk := new_statement apk stmt]> (statements (db st));
  si_movements :
    movements (db st')
    = movements_after spk (stmt_transactions stmt) (movements (db st));
  si_branch : statement_branch apk stmt spk st st';
  si_failed : failed_statements st' = failed_statements st;
  si_imported : imported_files st' = imported_files st;
  si_files : files st' = files st
}.

(** Every row of [d] is in [d'] under its key, with the key the importer
    looks it up by. *)
Record rows_kept (d d' : DB) : Prop := {
  rk_accounts : ∀ k a, accounts d !! k = Some a →
    ∃ a', accounts d' !! k = Some a' ∧ iban a' = iban a;
  rk_statements : ∀ k s, statements d !! k = Some s →
    ∃ s', statements d' !! k = Some s' ∧
          statement_number s' = statement_number s ∧ account s' = account s;
  rk_movements : ∀ k m, movements d !! k = Some m →
    ∃ m', movements d' !! k = Some m' ∧
          unique_import_id m' = unique_import_id m
}.

(** The database has the account, the statement and the movements of the
    record; a record without an account number has none. *)
Definition known (d : DB) (stmt : statement_record) : Prop :=
  ∀ i, stmt_account_number stmt = Some i →
    ∃ apk a spk s,
      accounts d !! apk = Some a ∧ iban a = i ∧
      statements d !! spk = Some s ∧
      by_statement (stmt_name stmt) apk s = true ∧
      ∀ mvmt, mvmt ∈ stmt_transactions stmt →
        ∃ k m, movements d !! k = Some m ∧
               unique_import_id m = mvmt_unique_import_id mvmt.


(** What importing a record adds to the log: nothing when its statement
    counts as updated, and when it counts as new the warning for each of
    its transactions whose import identifier the table had. *)
Record log_after (stmt : statement_record) (st st' : State) : Prop := {
  la_grows : ∃ l, log st' = log st ++ l;
  la_updated :
    updated_statements st' = S (updated_statements st) → log st' = log st;
  la_new :
    new_statements st' = S (new_statements st) →
    ∀ mvmt k m, mvmt ∈ stmt_transactions stmt →
      movements (db st) !! k = Some m →
      unique_import_id m = mvmt_unique_import_id mvmt →
      (WARNING, msg_existing_transaction (mvmt_unique_import_id mvmt))
      ∈ log st'
}.

(** The database takes the movement of the transaction, made or
    overwritten, whatever statement it is attached to. *)
Definition storable_movement `{!Backend} (mvmt : transaction) : Prop :=
  ∀ s, movement_error (new_movement s mvmt) = None ∧
       movement_error (overwrite_movement s mvmt (new_movement s mvmt)) = None.

(** The database takes the rows of the record: its statement, whatever
    account it is attached to, and the movements of its transactions. *)
Definition storable `{!Backend} (stmt : statement_record) : Prop :=
  (∀ account_pk, statement_error (new_statement account_pk stmt) = None) ∧
  ∀ mvmt, mvmt ∈ stmt_transactions stmt → storable_movement mvmt.

(** The account a record of the account number [i] is imported for: the
    one the table has, or the one that is made when it has none. *)
Definition account_for (i : string) (d : DB) (a : Account) : Prop :=
  (∃ k, accounts d !! k = Some a ∧ iban a = i) ∨
  (none_by (by_iban i) (accounts d) ∧ a = new_account i).

(** The validators accept what [full_clean] is called with for the record:
    the account that is made when the table has none, and the account with
    the date of the record when that is another than the one it has. *)
Definition validates (clean_fields : Account → option string)
    (stmt : statement_record) (i : string) (d : DB) : Prop :=
  (none_by (by_iban i) (accounts d) → clean_fields (new_account i) = None) ∧
  ∀ a, account_for i d a →
       last_movement a ≠ running_max None (stmt_transactions stmt) →
       clean_fields
         (set_last_movement (running_max None (stmt_transactions stmt)) a)
       = None.

(** The validators accept the accounts of the records, those the table has
    and those that are made, with whatever date of the last movement. *)
Definition accepted (clean_fields : Account → option string)
    (res : list statement_record) (d : DB) : Prop :=
  ∀ stmt i a last, stmt ∈ res → stmt_account_number stmt = Some i →
    account_for i d a → clean_fields (set_last_movement last a) = None.

(** The computation leaves the directory as it is, however it ends. *)
Definition keeps_files {A : Type} (c : M A) : Prop :=
  ∀ st, files (c st).1 = files st.

(** *** What holds however an import ends *)

(** The computation leaves the states it starts from and ends in related by
    [R], however it ends. *)
Definition always {A : Type} (R : State → State → Prop) (c : M A) : Prop :=
  ∀ st, R st (c st).1.

(** Every account of [d] is in [d'] under its key, with nothing changed but
    the date of its last movement. *)
Definition accounts_fixed (d d' : DB) : Prop :=
  ∀ k a, accounts d !! k = Some a →
    ∃ last, accounts d' !! k = Some (set_last_movement last a).

(** What holds of the database however an import ends: every row is kept
    under its key with the key it is looked up by, an account changes in
    the date of its last movement only, and a well-formed database stays
    well formed. *)
Record db_safe (d d' : DB) : Prop := {
  ds_rows : rows_kept d d';
  ds_accounts : accounts_fixed d d';
  ds_wf : wf d → wf d'
}.

(** What holds however the loop over the transactions of a statement
    ends. *)
Record movement_frame (st st' : State) : Prop := {
  mf_only : movements_only st st';
  mf_safe : db_safe (db st) (db st')
}.

(** What the loop over the records of a file leaves as it is. *)
Record loop_frame (st st' : State) : Prop := {
  lf_failed : failed_statements st' = failed_statements st;
  lf_imported : imported_files st' = imported_files st;
  lf_files : files st' = files st
}.

End B2C.

(** ** Sample data *)

Module Sample.
Import B2C.

(** No validator rejects anything. *)
Definition accept_all (a : Account) : option string := None.

(** A validator that rejects every account. *)
Definition reject_all (a : Account) : option string := Some "Enter a valid IBAN.".

(** A database that takes every row the conversions of Django let
    through. *)
#[export] Instance takes_all : Backend := {|
  refuses_statement := λ _, None;
  refuses_movement := λ _, None
|}.

Definition empty_db : DB := mkDB ∅ ∅ ∅.

(** Before the first import: an empty database, the counters at zero as
    [run_from_ui] sets them, and the file in the directory. *)
Definition initial (filename : string) : State :=
  mkState empty_db 0 0 0 0 [] {[ filename := true ]}.

Definition transaction_on (d : date) (unique_import_id : string) : transaction := {|
  mvmt_date := d;
  mvmt_amount := -1250;
  mvmt_unique_import_id := unique_import_id;
  mvmt_ref := None;
  mvmt_remote_owner := PStr "ACME";
  mvmt_remote_owner_address := ["Main Street 1"; "4700 Eupen"];
  mvmt_remote_account := PStr "BE20001601271956";
  mvmt_remote_bank_bic := PStr "GEBABEBB";
  mvmt_message := PStr "Invoice 17";
  mvmt_eref := PNone;
  mvmt_remote_owner_city := PNone;
  mvmt_remote_owner_postalcode := PNone;
  mvmt_remote_owner_country_code := PStr "BE";
  mvmt_transfer_type := PNone;
  mvmt_execution_date := PDate d;
  mvmt_value_date := PDate d
|}.

Definition statement_of (account_number : option string) (name : string)
    (balance_end : Z) (transactions : list transaction) : statement_record := {|
  stmt_account_number := account_number;
  stmt_name := name;
  stmt_start_date := Some (Date 2024 1 1);
  stmt_end_date := Some (Date 2024 3 31);
  stmt_balance_start := 100000;
  stmt_balance_end := balance_end;
  stmt_balance_end_real := balance_end;
  stmt_currency_code := "EUR";
  stmt_legal_sequence_number := Some 1;
  stmt_transactions := transactions
|}.

Definition march : date := Date 2024 3 1.
Definition january : date := Date 2024 1 15.
Definition february : date := Date 2024 2 10.

(** A statement of three movements that are not in the order of their dates. *)
Definition first_quarter : statement_record :=
  statement_of (Some "BE07340154921566") "2024/001" 96250
    [transaction_on march "TX-1"; transaction_on january "TX-2";
     transaction_on february "TX-3"].

(** The same statement with another closing balance. *)
Definition first_quarter_again : statement_record :=
  statement_of (Some "BE07340154921566") "2024/001" 95000
    [transaction_on march "TX-1"].

Definition without_iban : statement_record :=
  statement_of None "2024/002" 100000 [].

Definition second_account : statement_record :=
  statement_of (Some "BE20001601271956") "2024/001" 98750
    [transaction_on february "TX-4"].


(** A statement without movements. *)
Definition no_movement : statement_record :=
  statement_of (Some "BE07340154921566") "2024/003" 100000 [].

(** A statement whose only movement is of January. *)
Definition january_only : statement_record :=
  statement_of (Some "BE07340154921566") "2024/004" 98750
    [transaction_on january "TX-5"].

(** A transaction without an execution date: its movement has the empty
    string in a [DateField], which [save()] refuses. *)
Definition undated : transaction := {|
  mvmt_date := march;
  mvmt_amount := -1250;
  mvmt_unique_import_id := "TX-8";
  mvmt_ref := None;
  mvmt_remote_owner := PStr "ACME";
  mvmt_remote_owner_address := [];
  mvmt_remote_account := PNone;
  mvmt_remote_bank_bic := PNone;
  mvmt_message := PNone;
  mvmt_eref := PNone;
  mvmt_remote_owner_city := PNone;
  mvmt_remote_owner_postalcode := PNone;
  mvmt_remote_owner_country_code := PNone;
  mvmt_transfer_type := PNone;
  mvmt_execution_date := PNone;
  mvmt_value_date := PDate march
|}.

Definition with_undated : statement_record :=
  statement_of (Some "BE07340154921566") "2024/005" 98750 [undated].

(** A database with one account whose last movement is of March. *)
Definition known_account : Account :=
  {| iban := "BE07340154921566"; bic := "BBRUBEBB"; last_movement := Some march |}.

Definition with_account : State :=
  mkState (mkDB {[ 1%nat := known_account ]} ∅ ∅) 0 0 0 0 []
          {[ "statements.xml" := true ]}.

(** A database in which two accounts have one IBAN. *)
Definition with_two_accounts : State :=
  mkState (mkDB {[ 1%nat := known_account; 2%nat := known_account ]} ∅ ∅)
          0 0 0 0 [] {[ "statements.xml" := true ]}.

End Sample.

(** ** What more is stated about the conversion *)

Module SepaShapes.

(** A BIC as the loop that fills [BELGIAN_BICS] lets it in: eight or eleven
    characters, none of them a space. *)
Definition bic_shape (bic : string) : Prop :=
  (String.length bic = 8%nat ∨ String.length bic = 11%nat) ∧
  Py.remove_char " " bic = bic.

(** The IBAN [be2iban] makes of twelve digits. *)
Definition iban_of (nban : string) : string :=
  "BE" +:+ Py.fmt_02d (98 - Py.num (nban +:+ "111400") `mod` 97) +:+ nban.

End SepaShapes.

(** ** [sepa/models.py] *)

Module SepaModels.

(** A row of [sepa.Account].  Its [bic] is [None] when it holds Python's
    [None], which [belgian_nban_to_iban_bic] returns for a bank code the
    table has not. *)
Record Account : Type := mkAccount {
  partner : nat;
  iban : string;
  bic : option string;
  remark : string;
  primary : bool
}.

#[global] Instance Account_eq_dec : EqDecision Account.
Proof. solve_decision. Defined.

(** The truth value of a string or [None]. *)
Definition truthy (v : option string) : bool :=
  match v with
  | Some (String _ _) => true
  | _ => false
  end.

(** [v or ''] *)
Definition or_empty (v : option string) : string :=
  match v with
  | Some (String c s) => String c s
  | _ => EmptyString
  end.

Definition set_bic (v : option string) (self : Account) : Account :=
  {| partner := partner self; iban := iban self; bic := v;
     remark := remark self; primary := primary self |}.

Definition set_iban (v : string) (self : Account) : Account :=
  {| partner := partner self; iban := v; bic := bic self;
     remark := remark self; primary := primary self |}.

Definition set_primary (v : bool) (self : Account) : Account :=
  {| partner := partner self; iban := iban self; bic := bic self;
     remark := remark self; primary := v |}.

Section FullClean.

(** [super(Account, self).full_clean()]: the validation of the fields,
    [None] when it accepts the instance, else the message of the
    [ValidationError] it raises; it is taken to leave the instance as it
    is. *)
Variable clean_fields : Account → option string.

(** How the validation of the fields ends. *)
Definition validated (self : Account) : Exc () :=
  match clean_fields self with
  | Some msg => raise (ValidationError msg)
  | None => mret ()
  end.

(** [Account.full_clean(self)]: the instance as the call leaves it, and how
    the call ends.  [self.iban[0]] is read only when [self.iban] is not
    empty. *)
Definition full_clean (self : Account) : Account * Exc () :=
  let filled : Account * Exc () :=
    match iban self with
    | String c _ =>
        if negb (truthy (bic self)) then
          if Py.is_digit c then
            match Sepa.belgian_nban_to_iban_bic (iban self) with
            | inr (iban', bic') => (set_iban iban' (set_bic bic' self), inr ())
            | inl e => (self, inl e)
            end
          else
            (set_bic (Some (or_empty (Sepa.iban2bic (iban self)))) self, inr ())
        else (self, inr ())
    | EmptyString => (self, inr ())
    end in
  match filled with
  | (self, inr _) => (self, validated self)
  | (self, inl e) => (self, inl e)
  end.

End FullClean.

(** The partner of an account, a [contacts.Partner], which is not among the
    sources: the two attributes [after_ui_save] assigns, and the others. *)
Record Partner (Other : Type) : Type := mkPartner {
  p_iban : string;
  p_bic : option string;
  p_other : Other
}.
Arguments mkPartner {Other}.
Arguments p_iban {Other}.
Arguments p_bic {Other}.
Arguments p_other {Other}.

(** What [after_ui_save] reads and writes: the two tables, the
    [refresh_all] of the response of [ar], and the updates sent, each with
    the partner as the [ChangeWatcher] found it and as it was saved. *)
Record Site (Other : Type) : Type := mkSite {
  accounts : gmap nat Account;
  partners : gmap nat (Partner Other);
  refresh_all : bool;
  updates : list (nat * Partner Other * Partner Other)
}.
Arguments mkSite {Other}.
Arguments accounts {Other}.
Arguments partners {Other}.
Arguments refresh_all {Other}.
Arguments updates {Other}.

Section AfterUiSave.
Context {Other : Type}.

(** [mi.sepa_accounts.exclude(id=self.id)] *)
Definition sepa_accounts_exclude (mi self_id : nat) (t : gmap nat Account)
  : list (nat * Account) :=
  filter (λ kr, partner kr.2 = mi ∧ kr.1 ≠ self_id) (map_to_list t).

(** The body of [for o in mi.sepa_accounts.exclude(id=self.id)]. *)
Definition demote (site : Site Other) (ko : nat * Account) : Site Other :=
  if primary ko.2 then
    mkSite (<[ko.1 := set_primary false ko.2]> (accounts site))
           (partners site) true (updates site)
  else site.

(** [Account.after_ui_save(self, ar, cw)] for the instance [self] saved
    under [self_id]; the hook of the parent class does nothing.
    [PRIMARY_FIELDS] is [iban] and [bic]. *)
Definition after_ui_save (self_id : nat) (self : Account) (site : Site Other)
  : Site Other * Exc () :=
  if primary self then
    match partners site !! partner self with
    | None => (site, raise DoesNotExist)
    | Some mi =>
        let site :=
          foldl demote site
                (sepa_accounts_exclude (partner self) self_id (accounts site)) in
        let mi' := mkPartner (iban self) (bic self) (p_other mi) in
        (mkSite (accounts site) (<[partner self := mi']> (partners site))
                (refresh_all site)
                (updates site ++ [(partner self, mi, mi')]),
         mret ())
    end
  else (site, mret ()).

End AfterUiSave.

(** The partner has at most one primary account. *)
Definition one_primary (mi : nat) (t : gmap nat Account) : Prop :=
  ∀ k1 k2 o1 o2,
    t !! k1 = Some o1 → t !! k2 = Some o2 →
    partner o1 = mi → partner o2 = mi →
    primary o1 = true → primary o2 = true → k1 = k2.

(** Sample rows. *)
Definition accept_all (a : Account) : option string := None.

Definition first_account : Account :=
  mkAccount 7 "340-1549215-66" None EmptyString true.

Definition second_account : Account :=
  mkAccount 7 "BE20001601271956" (Some "GEBABEBB") "savings" true.

Definition other_account : Account :=
  mkAccount 8 "BE43063497558101" (Some "GKCCBEBB") EmptyString true.

Definition sample_site : Site string :=
  mkSite {[ 1%nat := first_account; 2%nat := second_account;
            3%nat := other_account ]}
         {[ 7%nat := mkPartner EmptyString None "ACME";
            8%nat := mkPartner "BE43063497558101" (Some "GKCCBEBB") "Smith" ]}
         false [].

End SepaModels.

(** ** [b2c/models.py]: the action from its start *)

Module B2CRun.
Import B2C.

(** [ar.success(msg, alert=_("Success"))] and
    [ar.error(msg, alert=_("Error"))] *)
Inductive response : Type :=
| Success (msg : string)
| Error (msg : string).

(** [os.path.join(a, b)] for a [b] that does not start with a slash. *)
Definition os_path_join (a b : string) : string :=
  match a with
  | EmptyString => b
  | _ => if decide (Py.last_chars 1 a = "/") then a +:+ b
         else a +:+ "/" +:+ b
  end.

Definition msg_not_configured : string := "No import_statements_path configured.".

(** The message [run_from_ui] makes of the counters. *)
Definition msg_imported (st : State) : string :=
  Py.str (Z.of_nat (imported_files st)) +:+ " XML files with " +:+
  Py.str (Z.of_nat (new_statements st)) +:+ " new and " +:+
  Py.str (Z.of_nat (updated_statements st)) +:+
  " updated statements have been imported.".

(** The four assignments [self.new_statements = 0] and so on. *)
Definition reset_counters (st : State) : State :=
  mkState (db st) 0 0 0 0 (log st) (files st).

Section RunFromUi.

Context {backend : Backend}.
Variable clean_fields : Account → option string.
Variable delete_imported_xml_files : bool.

(** [CamtParser().parse(open(filename, 'rb').read())]: the parser is
    declared in [sepa/camt.py], which is not among the sources; what it
    returns for the content of the named file is a parameter, and so is the
    exception that it, or reading the file, raises. *)
Variable parse : string → Exc (option (list statement_record)).

(** [glob.iglob(wc)]: the names that match the pattern, of the files the
    directory has when the loop starts. *)
Variable iglob : string → gmap string bool → list string.

(** [import_file(ar, filename)] from its start. *)
Definition import_named (filename : string) : M () :=
  match parse filename with
  | inr res =>
      import_file clean_fields delete_imported_xml_files filename res
  | inl e =>
      logger DEBUG ("Importing file " +:+ filename +:+ ".");;
      throw e
  end.

(** [run_from_ui(ar)], given [dd.plugins.b2c.import_statements_path]. *)
Definition run_from_ui (pth : option string) : M response :=
  match pth with
  | None | Some EmptyString => mret (Error msg_not_configured)
  | Some pth =>
      modify reset_counters;;
      logger INFO ("Importing XML files from " +:+ pth +:+ "...");;
      let wc := os_path_join pth "*.[Xx][Mm][Ll]" in
      listing ← gets (λ st, iglob wc (files st));
      for_each (λ _ filename, import_named filename) () listing;;
      msg ← gets msg_imported;
      logger INFO msg;;
      mret (Success msg)
  end.

(** The named files are read and parsed, the database [d] takes the rows
    of their records and the validators accept their accounts. *)
Definition importable (listing : list string) (d : DB) : Prop :=
  ∀ name, name ∈ listing →
    ∃ res, parse name = inr (Some res) ∧ accepted clean_fields res d ∧
           ∀ stmt, stmt ∈ res → storable stmt.

End RunFromUi.

(** *** What the properties of the action are stated with *)

(** The number of records of the named files. *)
Definition records_of (parse : string → Exc (option (list statement_record)))
    (listing : list string) : nat :=
  sum_list ((λ name, match parse name with
                     | inr (Some res) => length res
                     | _ => 0%nat
                     end) <$> listing).

(** *** A sample directory *)

Definition sample_parse (filename : string)
  : Exc (option (list statement_record)) :=
  if decide (filename = "in/a.xml")
  then inr (Some [Sample.first_quarter; Sample.without_iban])
  else if decide (filename = "in/b.XML")
  then inr (Some [Sample.second_account])
  else inr None.

(** The names of the directory in their order; the pattern is not looked
    at. *)
Definition sample_iglob (wc : string) (files : gmap string bool) : list string :=
  (map_to_list files).*1.

Definition sample_start : State :=
  mkState Sample.empty_db 3 1 4 1 []
          {[ "in/a.xml" := true; "in/b.XML" := true ]}.

End B2CRun.

(** * Properties of the account-number conversion *)

Module SepaSpec.
Import Sepa.

(** ** Strings of decimal digits *)

Lemma is_digit_plain c :
  Py.is_digit c = true →
  Ascii.is_space c = false ∧ c ≠ " "%char ∧ c ≠ "-"%char ∧ c ≠ "+"%char.
Proof.
  destruct c as [[] [] [] [] [] [] [] []]; intros H;
    try (vm_compute in H; discriminate H); repeat split; done.
Qed.

Lemma is_digit_val c : Py.is_digit c = true → ∃ d, Py.digit_val c = Some d ∧ 0 ≤ d ≤ 9.
Proof.
  destruct c as [[] [] [] [] [] [] [] []]; intros H;
    try (vm_compute in H; discriminate H);
    (eexists; split; [reflexivity | lia]).
Qed.

Lemma digit_val_inj c1 c2 d :
  Py.digit_val c1 = Some d → Py.digit_val c2 = Some d → c1 = c2.
Proof.
  unfold Py.digit_val.
  destruct (Ascii.is_nat c1) as [n1|] eqn:E1; [|done].
  destruct (Ascii.is_nat c2) as [n2|] eqn:E2; [|done].
  simpl. intros [= <-] [= H]. apply Nat2Z.inj in H. subst n2.
  revert E1 E2.
  destruct c1 as [[] [] [] [] [] [] [] []]; simpl; try discriminate;
    intros [= <-];
    destruct c2 as [[] [] [] [] [] [] [] []]; simpl; try discriminate; reflexivity.
Qed.

Lemma all_digits_cons c s :
  Py.all_digits (String c s) = true ↔ Py.is_digit c = true ∧ Py.all_digits s = true.
Proof. simpl. apply andb_true_iff. Qed.

Lemma remove_char_digits c s :
  Py.is_digit c = false → Py.all_digits s = true → Py.remove_char c s = s.
Proof.
  intros Hc. induction s as [|x s IH]; [done|].
  intros [Hx Hs]%all_digits_cons. simpl.
  destruct (decide (x = c)) as [->|_]; [congruence|]. by rewrite IH.
Qed.

Lemma all_digits_take n s : Py.all_digits s = true → Py.all_digits (Py.take n s) = true.
Proof.
  revert s. induction n as [|n IH]; intros [|c s]; simpl; try done.
  intros [Hc Hs]%andb_true_iff. rewrite Hc. simpl. auto.
Qed.

Lemma all_digits_drop n s : Py.all_digits s = true → Py.all_digits (Py.drop n s) = true.
Proof.
  revert s. induction n as [|n IH]; intros [|c s]; simpl; try done.
  intros [Hc Hs]%andb_true_iff. auto.
Qed.

Lemma string_app_cons c s t : String c s +:+ t = String c (s +:+ t).
Proof. reflexivity. Qed.

Lemma all_digits_app s t :
  Py.all_digits s = true → Py.all_digits t = true → Py.all_digits (s +:+ t) = true.
Proof.
  intros Hs Ht. induction s as [|c s IH]; [done|].
  apply all_digits_cons in Hs as [Hc Hs]. rewrite string_app_cons.
  apply all_digits_cons. auto.
Qed.

Lemma length_take n s : (n ≤ String.length s)%nat → String.length (Py.take n s) = n.
Proof.
  revert s. induction n as [|n IH]; intros [|c s]; simpl; try done; try lia.
  intros H. f_equal. apply IH. lia.
Qed.

Lemma length_drop n s : String.length (Py.drop n s) = (String.length s - n)%nat.
Proof. revert s. induction n as [|n IH]; intros [|c s]; simpl; auto. Qed.

Lemma digits_acc_total a s : Py.all_digits s = true → is_Some (Py.digits_acc a s).
Proof.
  revert a. induction s as [|c s IH]; intros a; [by eexists|].
  intros [Hc Hs]%all_digits_cons. simpl.
  destruct (is_digit_val c Hc) as (d & -> & _). by apply IH.
Qed.

Lemma lstrip_digits s : Py.all_digits s = true → Py.lstrip s = s.
Proof.
  destruct s as [|c s]; [done|]. intros [Hc _]%all_digits_cons. simpl.
  by destruct (is_digit_plain c Hc) as (-> & _).
Qed.

Lemma rstrip_digits s : Py.all_digits s = true → Py.rstrip s = s.
Proof.
  induction s as [|c s IH]; [done|]. intros [Hc Hs]%all_digits_cons.
  simpl. rewrite (IH Hs). destruct s; [|done].
  by destruct (is_digit_plain c Hc) as (-> & _).
Qed.

(** On a non-empty string of digits [int] returns the number it denotes. *)
Lemma int_digits s :
  Py.all_digits s = true → s ≠ EmptyString → Py.int s = inr (Py.num s).
Proof.
  intros Hs Hne. unfold Py.int, Py.strip, Py.num.
  rewrite (lstrip_digits s Hs), (rstrip_digits s Hs).
  destruct (digits_acc_total 0 s Hs) as [z Hz].
  destruct s as [|c s]; [done|].
  apply all_digits_cons in Hs as [Hc _].
  destruct c as [[] [] [] [] [] [] [] []];
    try (vm_compute in Hc; discriminate Hc); cbv zeta beta match; by rewrite Hz.
Qed.

(** [int] raises nothing but [ValueError]. *)
Lemma int_raises s e : Py.int s = inl e → e = ValueError.
Proof.
  unfold Py.int. case_match; [done|]. unfold raise. congruence.
Qed.

Lemma num_two_digits e :
  Py.all_digits e = true → String.length e = 2%nat → Py.num e = 97 ↔ e = "97".
Proof.
  intros He Hl. destruct e as [|a [|b [|]]]; try discriminate Hl.
  apply all_digits_cons in He as [Ha [Hb _]%all_digits_cons].
  destruct (is_digit_val a Ha) as (da & Ea & Hda).
  destruct (is_digit_val b Hb) as (db & Eb & Hdb).
  unfold Py.num. cbn [Py.digits_acc]. rewrite Ea. cbn [Py.digits_acc].
  rewrite Eb. cbn [Py.digits_acc default from_option id]. split.
  - intros H. assert (da = 9) by lia. assert (db = 7) by lia. subst da db.
    f_equal; [|f_equal]; eapply digit_val_inj; eauto.
  - intros [= -> ->]. vm_compute in Ea, Eb. by simplify_eq.
Qed.

Lemma normalize_digits s : Py.all_digits s = true → normalize s = s.
Proof.
  intros Hs. unfold normalize.
  rewrite (remove_char_digits " " s) by (reflexivity || done).
  by rewrite (remove_char_digits "-" s) by (reflexivity || done).
Qed.

(** ** [be2iban] *)

Lemma append_data s : (s +:+ "1114") +:+ "00" = s +:+ "111400".
Proof.
  induction s as [|c s IH]; [done|]. by rewrite !string_app_cons, IH.
Qed.

(** What [be2iban] does once its argument is reduced to its twelve digits. *)
Lemma be2iban_digits raw :
  let nban := normalize raw in
  String.length nban = 12%nat → Py.all_digits nban = true →
  be2iban raw =
    let end_ := Py.last_chars 2 nban in
    let expected := expected_end (Py.take 10 nban) in
    if decide (Py.num end_ = expected) then
      inr ("BE" +:+ Py.fmt_02d (98 - Py.num (nban +:+ "111400") `mod` 97) +:+ nban)
    else inl (ValidationError (msg_ends_with end_ (Py.str expected))).
Proof.
  intros nban Hlen Hdig. unfold be2iban. fold (normalize raw). fold nban.
  destruct (decide (String.length nban ≠ 12%nat)) as [?|_]; [done|].
  assert (Hten : Py.all_digits (Py.take 10 nban) = true) by by apply all_digits_take.
  assert (Hend : Py.all_digits (Py.last_chars 2 nban) = true) by by apply all_digits_drop.
  assert (Hlend : String.length (Py.last_chars 2 nban) = 2%nat).
  { unfold Py.last_chars. rewrite length_drop, Hlen. done. }
  rewrite (int_digits (Py.take 10 nban)); [|done|].
  2:{ intros E. apply (f_equal String.length) in E. rewrite length_take in E; [done|lia]. }
  rewrite (int_digits (Py.last_chars 2 nban)); [|done|].
  2:{ intros E. rewrite E in Hlend. done. }
  rewrite (append_data nban).
  rewrite (int_digits (nban +:+ "111400")); [|by apply all_digits_app|].
  2:{ destruct nban; done. }
  unfold expected_end. cbn [mbind Exc_bind exc_bind mret Exc_ret raise].
  destruct (decide (Py.num (Py.take 10 nban) `mod` 97 = 0)) as [Hm|Hm].
  - destruct (decide (Py.last_chars 2 nban ≠ "97")) as [Hne|Heq%dec_stable].
    + rewrite decide_False by (by rewrite num_two_digits). reflexivity.
    + rewrite decide_True by (by rewrite num_two_digits). reflexivity.
  - destruct (decide (Py.num (Py.last_chars 2 nban) ≠ _)) as [Hne|Heq%dec_stable].
    + rewrite decide_False by done. reflexivity.
    + rewrite decide_True by done. reflexivity.
Qed.

(** C2. For every twelve-digit number, [be2iban] fails exactly when the two
    closing digits are not the expected ones, that is the first ten digits
    modulo 97, or 97 when that is 0; the error raised names the digits found
    and the value expected, and otherwise the conversion succeeds. *)
Theorem be2iban_checksum (nban : string) :
  String.length nban = 12%nat → Py.all_digits nban = true →
  let end_ := Py.last_chars 2 nban in
  let expected := expected_end (Py.take 10 nban) in
  (Py.num end_ = expected → ∃ iban, be2iban nban = inr iban) ∧
  (Py.num end_ ≠ expected →
   be2iban nban = inl (ValidationError (msg_ends_with end_ (Py.str expected)))).
Proof.
  intros Hlen Hdig end_ expected.
  pose proof (be2iban_digits nban) as H. cbv zeta in H.
  rewrite (normalize_digits nban Hdig) in H. specialize (H Hlen Hdig).
  fold end_ expected in H. rewrite H. split; intros Hcmp.
  - rewrite decide_True by done. eauto.
  - by rewrite decide_False.
Qed.

Lemma fmt_02d_length z : 0 ≤ z < 100 → String.length (Py.fmt_02d z) = 2%nat.
Proof.
  intros Hz. rewrite <- (Z2Nat.id z) by lia.
  assert (Hn : (Z.to_nat z < 100)%nat) by lia.
  generalize dependent (Z.to_nat z). clear. intros n Hn.
  do 100 (destruct n as [|n]; [vm_compute; reflexivity|]). lia.
Qed.

(** C3. A valid Belgian NBAN is converted to the letters BE, two check
    digits and its twelve digits, the check digits being 98 minus the
    remainder modulo 97 of the twelve digits followed by 111400, written with
    two characters; the BIC is the one the table gives for that IBAN.  The
    three numbers of the module's documentation convert as documented. *)
Theorem belgian_nban_to_iban_bic_valid :
  (∀ raw : string, valid_nban raw →
     let nban := normalize raw in
     let check := Py.fmt_02d (98 - Py.num (nban +:+ "111400") `mod` 97) in
     let iban := "BE" +:+ check +:+ nban in
     String.length check = 2%nat ∧
     be2iban raw = inr iban ∧
     belgian_nban_to_iban_bic raw = inr (iban, iban2bic iban)) ∧
  belgian_nban_to_iban_bic "340-1549215-66"
    = inr ("BE07340154921566", Some "BBRUBEBB") ∧
  belgian_nban_to_iban_bic "001-6012719-56"
    = inr ("BE20001601271956", Some "GEBABEBB") ∧
  belgian_nban_to_iban_bic "063-4975581-01"
    = inr ("BE43063497558101", Some "GKCCBEBB").
Proof.
  split; [|by vm_compute].
  intros raw (Hlen & Hdig & Hsum) nban check iban.
  assert (Hbe : be2iban raw = inr iban).
  { rewrite be2iban_digits by done. cbv zeta. by rewrite decide_True. }
  split_and!; [|done|].
  - apply fmt_02d_length.
    pose proof (Z.mod_pos_bound (Py.num (nban +:+ "111400")) 97). lia.
  - unfold belgian_nban_to_iban_bic. by rewrite Hbe.
Qed.

(** C4, as the code has it. [be2iban] drops the spaces and hyphens of its
    argument and raises the validation error on the length exactly when what
    is left is not twelve characters long; when what is left is twelve
    decimal digits it raises nothing but the validation error on the closing
    digits. *)
Theorem be2iban_length (raw : string) :
  let nban := normalize raw in
  (String.length nban ≠ 12%nat ↔ be2iban raw = inl (ValidationError msg_length)) ∧
  (String.length nban = 12%nat → Py.all_digits nban = true →
   (∃ iban, be2iban raw = inr iban) ∨
   (∃ found expected,
      be2iban raw = inl (ValidationError (msg_ends_with found expected)))).
Proof.
  intros nban. split; [split|].
  - intros Hlen. unfold be2iban. fold (normalize raw). fold nban.
    by rewrite decide_True.
  - intros Hraise Hlen. revert Hraise. unfold be2iban.
    fold (normalize raw). fold nban.
    rewrite decide_False by (by intros ?).
    unfold mbind, Exc_bind, exc_bind, raise, mret, Exc_ret.
    repeat case_match; try discriminate; intros [= Heq].
    all: repeat match goal with
         | H : Py.int _ = inl _ |- _ => apply int_raises in H
         end; try congruence.
    all: match goal with
         | H : inl (ValidationError (msg_ends_with _ _)) = inl ?e |- _ =>
             subst e; injection H; intros; discriminate
         end.
  - intros Hlen Hdig. rewrite be2iban_digits by done. cbv zeta.
    case_decide; eauto.
Qed.

(** C4, as stated, fails: twelve letters pass the length check and stop
    [int] with a [ValueError], and a sign before eleven digits is accepted. *)
Lemma be2iban_non_digit_counterexample :
  Py.all_digits (normalize "abcdefghijkl") = false ∧
  be2iban "abcdefghijkl" = inl ValueError ∧
  Py.all_digits (normalize "+00000000101") = false ∧
  be2iban "+00000000101" = inr "BE43+00000000101".
Proof. by vm_compute. Qed.

Lemma be2iban_checksum_witness :
  (∃ iban, be2iban "340154921566" = inr iban) ∧
  be2iban "001114829483"
    = inl (ValidationError "Belgian NBAN ends with 83 (expected 84)!").
Proof.
  destruct (be2iban_checksum "340154921566") as [Hok _];
    [reflexivity | reflexivity |].
  destruct (be2iban_checksum "001114829483") as [_ Hko];
    [reflexivity | reflexivity |].
  split.
  - apply Hok. vm_compute. reflexivity.
  - apply Hko. vm_compute. discriminate.
Defined.

Lemma belgian_nban_to_iban_bic_valid_witness :
  be2iban "001-1148294-84" = inr "BE03001114829484".
Proof.
  destruct belgian_nban_to_iban_bic_valid as [H _].
  apply (H "001-1148294-84"). vm_compute. auto.
Defined.

Lemma be2iban_length_witness :
  be2iban "340-1549215" = inl (ValidationError msg_length) ∧
  ((∃ iban, be2iban "340-1549215-66" = inr iban) ∨
   (∃ found expected,
      be2iban "340-1549215-66" = inl (ValidationError (msg_ends_with found expected)))).
Proof.
  split.
  - apply (be2iban_length "340-1549215"). vm_compute. discriminate.
  - apply (be2iban_length "340-1549215-66"); reflexivity.
Defined.

End SepaSpec.

(** * Properties of the statement import *)

Module B2CSpec.
Import B2C.

(** ** Tables *)

Section Tables.
Context {A : Type}.
Implicit Types (p : A → bool) (table : gmap nat A) (k : nat) (r : A).

Lemma next_pk_fresh table : table !! next_pk table = None.
Proof.
  destruct (table !! next_pk table) as [r|] eqn:E; [|done].
  assert (next_pk table ∈ (map_to_list table).*1) as Hin.
  { apply list_elem_of_fmap. exists (next_pk table, r). split; [done|].
    by apply elem_of_map_to_list. }
  apply max_list_elem_of_le in Hin. unfold next_pk in Hin at 1. lia.
Qed.

Lemma elem_of_objects_filter p table k r :
  (k, r) ∈ objects_filter p table ↔ table !! k = Some r ∧ p r = true.
Proof.
  unfold objects_filter. rewrite list_elem_of_filter, elem_of_map_to_list.
  simpl. tauto.
Qed.

Lemma NoDup_objects_filter p table : NoDup (objects_filter p table).
Proof. apply NoDup_filter, NoDup_map_to_list. Qed.

Lemma objects_filter_nil p table :
  objects_filter p table = [] ↔ none_by p table.
Proof.
  split.
  - intros E k r Hk. destruct (p r) eqn:Hp; [|done].
    assert ((k, r) ∈ objects_filter p table) as Hin
      by by apply elem_of_objects_filter.
    rewrite E in Hin. by apply elem_of_nil in Hin.
  - intros Hnone. apply elem_of_nil_inv. intros [k r] Hin.
    apply elem_of_objects_filter in Hin as [Hk Hp].
    rewrite (Hnone k r Hk) in Hp. done.
Qed.

(** The one row that satisfies [p], when there is exactly one. *)
Lemma objects_filter_unique p table k r :
  unique_by p table → table !! k = Some r → p r = true →
  objects_filter p table = [(k, r)].
Proof.
  intros Huniq Hk Hp.
  pose proof (NoDup_objects_filter p table) as Hnd.
  assert (Hall : ∀ x, x ∈ objects_filter p table → x = (k, r)).
  { intros [k' r'] [Hk' Hp']%elem_of_objects_filter.
    assert (k' = k) as -> by eauto. congruence. }
  assert (Hin : (k, r) ∈ objects_filter p table)
    by by apply elem_of_objects_filter.
  destruct (objects_filter p table) as [|x [|y l]].
  - by apply elem_of_nil in Hin.
  - f_equal. apply Hall. by left.
  - exfalso. apply NoDup_cons in Hnd as [Hx _]. apply Hx.
    rewrite (Hall x), (Hall y); [by left| right; by left | by left].
Qed.

Lemma objects_filter_singleton p table k r :
  objects_filter p table = [(k, r)] →
  table !! k = Some r ∧ p r = true ∧ unique_by p table.
Proof.
  intros E.
  assert (Hin : ∀ k' r', table !! k' = Some r' → p r' = true → k' = k ∧ r' = r).
  { intros k' r' Hk' Hp'.
    assert ((k', r') ∈ objects_filter p table) as Hin
      by by apply elem_of_objects_filter.
    rewrite E in Hin. apply list_elem_of_singleton in Hin. by simplify_eq. }
  assert ((k, r) ∈ objects_filter p table) as [Hk Hp]%elem_of_objects_filter
    by (rewrite E; by left).
  split_and!; [done..|].
  intros k1 k2 r1 r2 H1 H2 Hp1 Hp2.
  destruct (Hin k1 r1 H1 Hp1) as [-> _]. by destruct (Hin k2 r2 H2 Hp2) as [-> _].
Qed.

Lemma objects_exists_true p table k r :
  table !! k = Some r → p r = true → objects_exists p table = true.
Proof.
  intros Hk Hp. unfold objects_exists.
  destruct (objects_filter p table) eqn:E; [|done].
  apply objects_filter_nil in E. rewrite (E k r Hk) in Hp. done.
Qed.

Lemma objects_exists_false p table :
  objects_exists p table = false ↔ none_by p table.
Proof.
  rewrite <- objects_filter_nil. unfold objects_exists.
  by destruct (objects_filter p table).
Qed.

Lemma objects_get_unique p table k r :
  unique_by p table → table !! k = Some r → p r = true →
  objects_get p table = inr (k, r).
Proof.
  intros Huniq Hk Hp. unfold objects_get.
  by rewrite (objects_filter_unique p table k r).
Qed.

Lemma objects_get_none p table :
  none_by p table → objects_get p table = inl DoesNotExist.
Proof.
  intros Hnone%objects_filter_nil. unfold objects_get. by rewrite Hnone.
Qed.

(** A table has no row, one row or several rows that satisfy [p]. *)
Lemma objects_get_cases p table :
  (objects_get p table = inl DoesNotExist ∧ none_by p table) ∨
  (∃ k r, objects_get p table = inr (k, r) ∧ table !! k = Some r ∧
          p r = true ∧ unique_by p table) ∨
  (objects_get p table = inl MultipleObjectsReturned ∧ ¬ unique_by p table).
Proof.
  unfold objects_get. destruct (objects_filter p table) as [|[k r] [|y l]] eqn:E.
  - left. split; [done|]. by apply objects_filter_nil.
  - right. left. exists k, r. apply objects_filter_singleton in E. tauto.
  - right. right. split; [done|]. intros Huniq.
    assert ((k, r) ∈ objects_filter p table) as [Hk Hp]%elem_of_objects_filter
      by (rewrite E; by left).
    rewrite (objects_filter_unique p table k r Huniq Hk Hp) in E. done.
Qed.

(** Replacing a row by one that satisfies [p] as much as it did. *)
Lemma unique_by_insert_same p table k r r' :
  table !! k = Some r → p r' = p r →
  unique_by p table → unique_by p (<[k := r']> table).
Proof.
  intros Hk Hp Huniq k1 k2 r1 r2 H1 H2 Hp1 Hp2.
  rewrite lookup_insert in H1. rewrite lookup_insert in H2.
  repeat case_decide; simplify_eq; try done;
    eapply Huniq; eauto; congruence.
Qed.

(** Adding a row under a new key when no row satisfies [p]. *)
Lemma unique_by_insert_none p table k r :
  none_by p table → unique_by p (<[k := r]> table).
Proof.
  intros Hnone k1 k2 r1 r2 H1 H2 Hp1 Hp2.
  rewrite lookup_insert in H1. rewrite lookup_insert in H2.
  repeat case_decide; simplify_eq; try done;
    match goal with
    | H : table !! _ = Some ?x, Hp : p ?x = true |- _ =>
        by rewrite (Hnone _ _ H) in Hp
    end.
Qed.

(** Adding a row that does not satisfy [p]. *)
Lemma unique_by_insert_other p table k r :
  table !! k = None → p r = false →
  unique_by p table → unique_by p (<[k := r]> table).
Proof.
  intros Hk Hp Huniq k1 k2 r1 r2 H1 H2 Hp1 Hp2.
  rewrite lookup_insert in H1. rewrite lookup_insert in H2.
  repeat case_decide; simplify_eq; try done; try congruence.
  eapply Huniq; eauto.
Qed.

End Tables.

(** ** The transactions of a statement *)

Section Movements.
Context {backend : Backend}.

Lemma movements_only_refl st : movements_only st st.
Proof. by split. Qed.

Lemma movements_only_trans st1 st2 st3 :
  movements_only st1 st2 → movements_only st2 st3 → movements_only st1 st3.
Proof. intros [] []. split; congruence. Qed.

(** ** One transaction *)

Lemma overwrite_movement_id s mvmt m m' :
  unique_import_id m = unique_import_id m' →
  overwrite_movement s mvmt m = overwrite_movement s mvmt m'.
Proof. unfold overwrite_movement. by intros ->. Qed.


Lemma movement_step_found s u last mvmt st k m :
  unique_by (by_unique_import_id (mvmt_unique_import_id mvmt)) (movements (db st)) →
  movements (db st) !! k = Some m →
  unique_import_id m = mvmt_unique_import_id mvmt →
  movement_error (overwrite_movement s mvmt m) = None →
  movement_step s u last mvmt st
  = (movement_overwritten s u mvmt k m st, inr (py_max last (mvmt_date mvmt))).
Proof.
  intros Huniq Hk Hid Hsave.
  assert (Hp : by_unique_import_id (mvmt_unique_import_id mvmt) m = true)
    by by apply bool_decide_eq_true.
  unfold movement_step, movement_overwritten, mbind, M_bind, gets. simpl.
  rewrite (objects_exists_true _ _ k m Hk Hp).
  destruct u; simpl; unfold lift;
    rewrite (objects_get_unique _ _ k m Huniq Hk Hp); unfold save_movement;
    rewrite Hsave; reflexivity.
Qed.

(** The row a transaction overwrites is refused with the exception of
    [save()], and nothing but the log has changed. *)
Lemma movement_step_found_refused s u last mvmt st k m e :
  unique_by (by_unique_import_id (mvmt_unique_import_id mvmt)) (movements (db st)) →
  movements (db st) !! k = Some m →
  unique_import_id m = mvmt_unique_import_id mvmt →
  movement_error (overwrite_movement s mvmt m) = Some e →
  ∃ st', movement_step s u last mvmt st = (st', inl e) ∧ db st' = db st.
Proof.
  intros Huniq Hk Hid Hsave.
  assert (Hp : by_unique_import_id (mvmt_unique_import_id mvmt) m = true)
    by by apply bool_decide_eq_true.
  unfold movement_step, mbind, M_bind, gets. simpl.
  rewrite (objects_exists_true _ _ k m Hk Hp).
  destruct u; simpl; unfold lift;
    rewrite (objects_get_unique _ _ k m Huniq Hk Hp); unfold save_movement;
    rewrite Hsave; by eexists.
Qed.

Lemma movement_step_new s u last mvmt st :
  none_by (by_unique_import_id (mvmt_unique_import_id mvmt)) (movements (db st)) →
  movement_error (new_movement s mvmt) = None →
  movement_step s u last mvmt st
  = (movement_created s mvmt st, inr (py_max last (mvmt_date mvmt))).
Proof.
  intros Hnone%objects_exists_false Hsave.
  unfold movement_step, movement_created, mbind, M_bind, gets. simpl.
  rewrite Hnone. unfold save_movement. rewrite Hsave. reflexivity.
Qed.

(** The row a transaction makes is refused with the exception of [save()],
    and nothing has changed. *)
Lemma movement_step_new_refused s u last mvmt st e :
  none_by (by_unique_import_id (mvmt_unique_import_id mvmt)) (movements (db st)) →
  movement_error (new_movement s mvmt) = Some e →
  movement_step s u last mvmt st = (st, inl e).
Proof.
  intros Hnone%objects_exists_false Hsave.
  unfold movement_step, mbind, M_bind, gets. simpl.
  rewrite Hnone. unfold save_movement. by rewrite Hsave.
Qed.

Lemma wf_movements_overwritten s mvmt k m (t : gmap nat Movement) :
  t !! k = Some m →
  (∀ i, unique_by (by_unique_import_id i) t) →
  ∀ i, unique_by (by_unique_import_id i) (<[k := overwrite_movement s mvmt m]> t).
Proof.
  intros Hk Huniq i. by apply (unique_by_insert_same _ _ _ m).
Qed.

Lemma wf_movements_created s mvmt (t : gmap nat Movement) :
  none_by (by_unique_import_id (mvmt_unique_import_id mvmt)) t →
  (∀ i, unique_by (by_unique_import_id i) t) →
  ∀ i, unique_by (by_unique_import_id i) (<[next_pk t := new_movement s mvmt]> t).
Proof.
  intros Hnone Huniq i.
  destruct (decide (i = mvmt_unique_import_id mvmt)) as [->|Hne].
  - by apply unique_by_insert_none.
  - apply unique_by_insert_other; [apply next_pk_fresh| |done].
    apply bool_decide_eq_false. simpl. congruence.
Qed.

Lemma upsert_movement_found s mvmt (t : gmap nat Movement) k m :
  unique_by (by_unique_import_id (mvmt_unique_import_id mvmt)) t →
  t !! k = Some m → unique_import_id m = mvmt_unique_import_id mvmt →
  upsert_movement s mvmt t = <[k := overwrite_movement s mvmt m]> t.
Proof.
  intros Huniq Hk Hid. unfold upsert_movement.
  rewrite (objects_filter_unique _ _ k m); [done..|].
  by apply bool_decide_eq_true.
Qed.

Lemma upsert_movement_new s mvmt (t : gmap nat Movement) :
  none_by (by_unique_import_id (mvmt_unique_import_id mvmt)) t →
  upsert_movement s mvmt t = <[next_pk t := new_movement s mvmt]> t.
Proof.
  intros Hnone%objects_filter_nil. unfold upsert_movement. by rewrite Hnone.
Qed.


(** ** The table of movements after the transactions of a statement *)

Section MovementsAfter.
Implicit Types (t : gmap nat Movement) (txs : list transaction).

Lemma wf_upsert_movement s mvmt t : (∀ i, unique_by (by_unique_import_id i) t) → (∀ i, unique_by (by_unique_import_id i) (upsert_movement s mvmt t)).
Proof.
  intros Huniq.
  destruct (objects_get_cases (by_unique_import_id (mvmt_unique_import_id mvmt)) t)
    as [[_ Hnone]|[(k & m & _ & Hk & Hp & _)|[_ Hmany]]].
  - rewrite upsert_movement_new by done. by apply wf_movements_created.
  - apply bool_decide_eq_true in Hp.
    rewrite (upsert_movement_found s mvmt t k m) by done.
    by apply wf_movements_overwritten.
  - destruct Hmany. apply Huniq.
Qed.

(** A transaction overwrites the row that has its import identifier. *)
Lemma upsert_movement_same s mvmt t k m :
  (∀ i, unique_by (by_unique_import_id i) t) → t !! k = Some m →
  unique_import_id m = mvmt_unique_import_id mvmt →
  upsert_movement s mvmt t !! k = Some (overwrite_movement s mvmt m).
Proof.
  intros Huniq Hk Hid.
  rewrite (upsert_movement_found s mvmt t k m) by done. apply lookup_insert_eq.
Qed.

(** It leaves the rows that have another import identifier as they are. *)
Lemma upsert_movement_other s mvmt t k m :
  (∀ i, unique_by (by_unique_import_id i) t) → t !! k = Some m →
  unique_import_id m ≠ mvmt_unique_import_id mvmt →
  upsert_movement s mvmt t !! k = Some m.
Proof.
  intros Huniq Hk Hid.
  destruct (objects_get_cases (by_unique_import_id (mvmt_unique_import_id mvmt)) t)
    as [[_ Hnone]|[(k' & m' & _ & Hk' & Hp' & _)|[_ Hmany]]].
  - rewrite upsert_movement_new by done. rewrite lookup_insert_ne; [done|].
    intros <-. by rewrite next_pk_fresh in Hk.
  - apply bool_decide_eq_true in Hp'.
    rewrite (upsert_movement_found s mvmt t k' m') by done.
    rewrite lookup_insert_ne; [done|]. intros <-. congruence.
  - destruct Hmany. apply Huniq.
Qed.

(** After it the table has a row with its import identifier. *)
Lemma upsert_movement_present s mvmt t :
  (∀ i, unique_by (by_unique_import_id i) t) →
  ∃ k m, upsert_movement s mvmt t !! k = Some m ∧
         unique_import_id m = mvmt_unique_import_id mvmt.
Proof.
  intros Huniq.
  destruct (objects_get_cases (by_unique_import_id (mvmt_unique_import_id mvmt)) t)
    as [[_ Hnone]|[(k & m & _ & Hk & Hp & _)|[_ Hmany]]].
  - rewrite upsert_movement_new by done.
    eexists _, _. split; [apply lookup_insert_eq|done].
  - apply bool_decide_eq_true in Hp.
    exists k, (overwrite_movement s mvmt m).
    split; [by apply upsert_movement_same|done].
  - destruct Hmany. apply Huniq.
Qed.

(** A row stays under its key with its import identifier. *)
Lemma upsert_movement_kept s mvmt t k m :
  (∀ i, unique_by (by_unique_import_id i) t) → t !! k = Some m →
  ∃ m', upsert_movement s mvmt t !! k = Some m' ∧
        unique_import_id m' = unique_import_id m.
Proof.
  intros Huniq Hk.
  destruct (decide (unique_import_id m = mvmt_unique_import_id mvmt)) as [Hid|Hid].
  - exists (overwrite_movement s mvmt m).
    split; [by apply upsert_movement_same|done].
  - exists m. split; [by apply upsert_movement_other|done].
Qed.

Lemma movements_after_kept s txs : ∀ t k m,
  (∀ i, unique_by (by_unique_import_id i) t) → t !! k = Some m →
  ∃ m', movements_after s txs t !! k = Some m' ∧
        unique_import_id m' = unique_import_id m.
Proof.
  induction txs as [|mvmt txs IH]; intros t k m Huniq Hk; [by exists m|].
  destruct (upsert_movement_kept s mvmt t k m Huniq Hk) as (m1 & Hk1 & Hid1).
  destruct (IH _ k m1 (wf_upsert_movement s mvmt t Huniq) Hk1) as (m2 & Hk2 & Hid2).
  exists m2. split; [done|congruence].
Qed.

(** After the transactions the table has a row for each of them. *)
Lemma movements_after_present s txs : ∀ t mvmt,
  (∀ i, unique_by (by_unique_import_id i) t) → mvmt ∈ txs →
  ∃ k m, movements_after s txs t !! k = Some m ∧
         unique_import_id m = mvmt_unique_import_id mvmt.
Proof.
  induction txs as [|x txs IH]; intros t mvmt Huniq Hin.
  - by apply elem_of_nil in Hin.
  - apply elem_of_cons in Hin as [->|Hin].
    + destruct (upsert_movement_present s x t Huniq) as (k & m & Hk & Hid).
      destruct (movements_after_kept s txs _ k m (wf_upsert_movement s x t Huniq) Hk)
        as (m' & Hk' & Hid').
      exists k, m'. split; [done|congruence].
    + apply IH; [by apply wf_upsert_movement|done].
Qed.



End MovementsAfter.

(** A transaction is processed without an exception when the import
    identifiers of the table identify its rows and the database takes its
    movement; nothing but the table of movements and the log changes, and
    the log gets the warning when the flag is not set and the table has the
    import identifier. *)
Lemma movement_step_ok s u last mvmt st :
  (∀ i, unique_by (by_unique_import_id i) (movements (db st))) →
  storable_movement mvmt →
  ∃ st', movement_step s u last mvmt st
         = (st', inr (py_max last (mvmt_date mvmt))) ∧
         movements_only st st' ∧
         movements (db st') = upsert_movement s mvmt (movements (db st)) ∧
         (∀ i, unique_by (by_unique_import_id i) (movements (db st'))) ∧
         log st'
         = log st ++
           (if negb u && objects_exists
                           (by_unique_import_id (mvmt_unique_import_id mvmt))
                           (movements (db st))
            then [(WARNING, msg_existing_transaction (mvmt_unique_import_id mvmt))]
            else []).
Proof.
  intros Huniq Hsave. destruct (Hsave s) as [Hnew Hover].
  destruct (objects_get_cases (by_unique_import_id (mvmt_unique_import_id mvmt))
              (movements (db st)))
    as [[_ Hnone]|[(k & m & _ & Hk & Hp & _)|[_ Hmany]]].
  - eexists. split; [by apply movement_step_new|]. split_and!.
    + by split.
    + by rewrite upsert_movement_new.
    + by apply wf_movements_created.
    + apply objects_exists_false in Hnone. rewrite Hnone, andb_false_r.
      simpl. by rewrite app_nil_r.
  - rewrite (objects_exists_true _ _ k m Hk Hp), andb_true_r.
    apply bool_decide_eq_true in Hp.
    eexists. split.
    { eapply movement_step_found; [done..|].
      by rewrite (overwrite_movement_id s mvmt m (new_movement s mvmt)). }
    split_and!.
    + split; by destruct u.
    + by rewrite (upsert_movement_found s mvmt _ k m).
    + simpl. by apply wf_movements_overwritten.
    + destruct u; simpl; [by rewrite app_nil_r|done].
  - destruct Hmany. apply Huniq.
Qed.

(** The transactions of a record: what they leave, and what they log: no
    warning when the flag is set, and a warning for each of them whose
    import identifier the table had. *)
Lemma for_each_movement_step_ok s u txs : ∀ last st,
  (∀ i, unique_by (by_unique_import_id i) (movements (db st))) →
  (∀ mvmt, mvmt ∈ txs → storable_movement mvmt) →
  ∃ st', for_each (movement_step s u) last txs st
         = (st', inr (running_max last txs)) ∧
         movements_only st st' ∧
         movements (db st') = movements_after s txs (movements (db st)) ∧
         (∀ i, unique_by (by_unique_import_id i) (movements (db st'))) ∧
         (∃ l, log st' = log st ++ l) ∧
         (u = true → log st' = log st) ∧
         (u = false →
          ∀ mvmt k m, mvmt ∈ txs → movements (db st) !! k = Some m →
            unique_import_id m = mvmt_unique_import_id mvmt →
            (WARNING, msg_existing_transaction (mvmt_unique_import_id mvmt))
            ∈ log st').
Proof.
  induction txs as [|mvmt txs IH]; intros last st Huniq Hsave.
  - exists st. split_and!; [done|apply movements_only_refl|done|done| |done|].
    + exists []. by rewrite app_nil_r.
    + intros _ mvmt k m Hin. by apply elem_of_nil in Hin.
  - destruct (movement_step_ok s u last mvmt st Huniq)
      as (st1 & Hrun1 & Hmo1 & Ht1 & Hu1 & Hlog1); [apply Hsave; by left|].
    destruct (IH (py_max last (mvmt_date mvmt)) st1 Hu1)
      as (st2 & Hrun2 & Hmo2 & Ht2 & Hu2 & [l2 Hl2] & Hquiet2 & Hwarn2).
    { intros x Hx. apply Hsave. by right. }
    exists st2. split_and!; [|by eapply movements_only_trans| |done| | |].
    + simpl. unfold mbind, M_bind. rewrite Hrun1. exact Hrun2.
    + rewrite Ht2, Ht1. done.
    + eexists. rewrite Hl2, Hlog1, <- app_assoc. reflexivity.
    + intros ->. rewrite Hquiet2 by done. rewrite Hlog1. simpl.
      by rewrite app_nil_r.
    + intros -> x k m [->|Hin]%elem_of_cons Hk Hid.
      * rewrite Hl2, Hlog1. simpl.
        assert (Hp : by_unique_import_id (mvmt_unique_import_id mvmt) m = true)
          by by apply bool_decide_eq_true.
        rewrite (objects_exists_true _ _ k m Hk Hp).
        apply elem_of_app. left. apply elem_of_app. right. by left.
      * rewrite Ht1 in Hwarn2.
        destruct (upsert_movement_kept s mvmt _ k m Huniq Hk) as (m' & Hk' & Hid').
        eapply (Hwarn2 eq_refl x k m'); [done..|congruence].
Qed.



End Movements.

(** ** What holds however an import ends: the relations *)

Lemma set_last_movement_same a : set_last_movement (last_movement a) a = a.
Proof. by destruct a. Qed.

Lemma rows_kept_refl d : rows_kept d d.
Proof. split; eauto. Qed.

Lemma rows_kept_trans d1 d2 d3 :
  rows_kept d1 d2 → rows_kept d2 d3 → rows_kept d1 d3.
Proof.
  intros [Ha Hs Hm] [Ha' Hs' Hm']. split.
  - intros k a Hk. destruct (Ha k a Hk) as (a1 & Hk1 & Hi1).
    destruct (Ha' k a1 Hk1) as (a2 & Hk2 & Hi2). exists a2. split; congruence.
  - intros k s Hk. destruct (Hs k s Hk) as (s1 & Hk1 & Hn1 & Hc1).
    destruct (Hs' k s1 Hk1) as (s2 & Hk2 & Hn2 & Hc2).
    exists s2. split_and!; congruence.
  - intros k m Hk. destruct (Hm k m Hk) as (m1 & Hk1 & Hi1).
    destruct (Hm' k m1 Hk1) as (m2 & Hk2 & Hi2). exists m2. split; congruence.
Qed.

(** ** Tables *)

(** A table has no row, one row or several rows that satisfy [p], and
    [exists] and [get] agree on which. *)
Lemma objects_cases {A : Type} (p : A → bool) (table : gmap nat A) :
  (objects_exists p table = false ∧ objects_get p table = inl DoesNotExist ∧
   none_by p table) ∨
  (∃ k r, objects_exists p table = true ∧ objects_get p table = inr (k, r) ∧
          table !! k = Some r ∧ p r = true ∧ unique_by p table) ∨
  (objects_exists p table = true ∧
   objects_get p table = inl MultipleObjectsReturned).
Proof.
  unfold objects_exists, objects_get.
  destruct (objects_filter p table) as [|[k r] [|y l]] eqn:E.
  - left. split_and!; [done..|]. by apply objects_filter_nil.
  - right. left. exists k, r. apply objects_filter_singleton in E. tauto.
  - right. right. done.
Qed.

(** ** Computations *)

Section Always.
Context (R : State → State → Prop) `{!Reflexive R} `{!Transitive R}.

Lemma always_pure {A : Type} (c : M A) :
  (∀ st, (c st).1 = st) → always R c.
Proof. intros Hc st. by rewrite Hc. Qed.

Lemma always_bind {A B : Type} (c : M A) (f : A → M B) :
  always R c → (∀ a, always R (f a)) → always R (c ≫= f).
Proof.
  intros Hc Hf st. unfold mbind, M_bind. specialize (Hc st).
  destruct (c st) as [st1 [e|a]]; [done|].
  etrans; [done|apply Hf].
Qed.

Lemma always_for_each {A B : Type} (body : B → A → M B) l :
  (∀ acc x, always R (body acc x)) → ∀ acc, always R (for_each body acc l).
Proof.
  intros Hbody. induction l as [|x l IH]; intros acc; [by intros st|].
  simpl. apply always_bind; auto.
Qed.

End Always.

(** ** The relations *)

Lemma accounts_fixed_refl d : accounts_fixed d d.
Proof.
  intros k a Hk. exists (last_movement a). by rewrite set_last_movement_same.
Qed.

Lemma accounts_fixed_trans d1 d2 d3 :
  accounts_fixed d1 d2 → accounts_fixed d2 d3 → accounts_fixed d1 d3.
Proof.
  intros H12 H23 k a Hk. destruct (H12 k a Hk) as [l1 Hk1].
  destruct (H23 k _ Hk1) as [l2 Hk2]. by exists l2.
Qed.

#[global] Instance db_safe_refl : Reflexive db_safe.
Proof.
  intros d. split; [apply rows_kept_refl|apply accounts_fixed_refl|done].
Qed.

#[global] Instance db_safe_trans : Transitive db_safe.
Proof.
  intros d1 d2 d3 [] []. split; [by eapply rows_kept_trans
                                |by eapply accounts_fixed_trans|auto].
Qed.

#[global] Instance movement_frame_refl : Reflexive movement_frame.
Proof. intros st. split; [apply movements_only_refl|done]. Qed.

#[global] Instance movement_frame_trans : Transitive movement_frame.
Proof.
  intros st1 st2 st3 [] []. split; [by eapply movements_only_trans|by etrans].
Qed.

#[global] Instance loop_frame_refl : Reflexive loop_frame.
Proof. by split. Qed.

#[global] Instance loop_frame_trans : Transitive loop_frame.
Proof. intros st1 st2 st3 [] []. split; congruence. Qed.

(** ** The updates of the tables *)

Lemma accounts_fixed_same d d' : accounts d' = accounts d → accounts_fixed d d'.
Proof.
  intros Heq k a Hk. rewrite Heq. exists (last_movement a).
  by rewrite set_last_movement_same.
Qed.


(** ** One statement record *)

Section Importer.
Context {backend : Backend}.
Variable clean_fields : Account → option string.
Variable delete_imported_xml_files : bool.

Lemma bind_inr {A B : Type} (c : M A) (f : A → M B) st st1 a :
  c st = (st1, inr a) → (c ≫= f) st = f a st1.
Proof. intros H. unfold mbind, M_bind. by rewrite H. Qed.

(** [full_clean] raises nothing when the validators accept the account and
    no other row has its IBAN. *)
Lemma full_clean_ok pk a st :
  clean_fields a = None →
  (∀ k r, accounts (db st) !! k = Some r → iban r = iban a → Some k = pk) →
  full_clean clean_fields pk a st = (st, inr ()).
Proof.
  intros Hclean Hothers. unfold full_clean. rewrite Hclean.
  unfold mbind, M_bind, gets.
  assert (forallb (λ kr : nat * Account, bool_decide (Some kr.1 = pk))
            (objects_filter (by_iban (iban a)) (accounts (db st))) = true) as ->;
    [|done].
  apply forallb_forall. intros [k r] Hin%list_elem_of_In.
  apply elem_of_objects_filter in Hin as [Hk Hp].
  apply bool_decide_eq_true in Hp. apply bool_decide_eq_true. eauto.
Qed.

Lemma overwrite_statement_key account_pk stmt s :
  by_statement (stmt_name stmt) account_pk s = true →
  overwrite_statement stmt s = new_statement account_pk stmt.
Proof.
  intros [Hn Ha]%bool_decide_eq_true.
  unfold overwrite_statement, new_statement. by rewrite Hn, Ha.
Qed.

Lemma by_statement_new_statement n a account_pk stmt :
  by_statement n a (new_statement account_pk stmt)
  = bool_decide (stmt_name stmt = n ∧ account_pk = a).
Proof. reflexivity. Qed.

Lemma wf_statements_created account_pk stmt (t : gmap nat Statement) :
  none_by (by_statement (stmt_name stmt) account_pk) t →
  (∀ n a, unique_by (by_statement n a) t) →
  ∀ n a, unique_by (by_statement n a)
           (<[next_pk t := new_statement account_pk stmt]> t).
Proof.
  intros Hnone Huniq n a.
  destruct (decide (stmt_name stmt = n ∧ account_pk = a)) as [[<- <-]|Hne].
  - by apply unique_by_insert_none.
  - apply unique_by_insert_other; [apply next_pk_fresh| |done].
    rewrite by_statement_new_statement. by apply bool_decide_eq_false.
Qed.

Lemma wf_statements_overwritten account_pk stmt k s (t : gmap nat Statement) :
  t !! k = Some s → by_statement (stmt_name stmt) account_pk s = true →
  (∀ n a, unique_by (by_statement n a) t) →
  ∀ n a, unique_by (by_statement n a)
           (<[k := new_statement account_pk stmt]> t).
Proof.
  intros Hk [Hn Ha]%bool_decide_eq_true Huniq n a.
  apply (unique_by_insert_same _ _ _ s); [done| |done].
  unfold by_statement. simpl. by rewrite Hn, Ha.
Qed.

Lemma wf_accounts_last_movement k a last (t : gmap nat Account) :
  t !! k = Some a →
  (∀ i, unique_by (by_iban i) t) →
  ∀ i, unique_by (by_iban i) (<[k := set_last_movement last a]> t).
Proof. intros Hk Huniq i. by apply (unique_by_insert_same _ _ _ a). Qed.

(** The statement of a record, its movements and the date of the account are
    written without an exception when the database is well formed and takes
    the rows of the record, [account] is the row under [account_pk] and the
    validators accept it with its new date, when that is another one. *)
Lemma import_statement_ok account_pk account stmt st :
  wf (db st) →
  accounts (db st) !! account_pk = Some account →
  storable stmt →
  let last := running_max None (stmt_transactions stmt) in
  (last_movement account ≠ last →
   clean_fields (set_last_movement last account) = None) →
  ∃ st' spk,
    import_statement clean_fields account_pk account stmt st = (st', inr ()) ∧
    wf (db st') ∧
    accounts (db st')
      = <[account_pk := set_last_movement last account]> (accounts (db st)) ∧
    statements (db st')
      = <[spk := new_statement account_pk stmt]> (statements (db st)) ∧
    movements (db st')
      = movements_after spk (stmt_transactions stmt) (movements (db st)) ∧
    statement_branch account_pk stmt spk st st' ∧
    failed_statements st' = failed_statements st ∧
    imported_files st' = imported_files st ∧
    files st' = files st ∧
    log_after stmt st st'.
Proof.
  intros [Hwa Hws Hwm] Hacc [Hsave_s Hsave_m] last Hclean.
  (* the statement is found or made, and saved *)
  assert (∃ st1 spk u,
    st1 = set_db (set_statements (<[spk := new_statement account_pk stmt]>
                                    (statements (db st))))
            (if u : bool then incr_updated_statements st
             else incr_new_statements st) ∧
    import_statement clean_fields account_pk account stmt st
    = (last ← for_each (movement_step spk u) None (stmt_transactions stmt);
       if decide (last_movement account ≠ last) then
         let account := set_last_movement last account in
         full_clean clean_fields (Some account_pk) account;;
         save_account (Some account_pk) account;;
         mret ()
       else mret ()) st1 ∧
    statement_branch account_pk stmt spk st st1 ∧
    (∀ n a, unique_by (by_statement n a) (statements (db st1))))
    as (st1 & spk & u & Hst1 & Hrun & Hbranch & Hws1).
  { destruct (objects_get_cases (by_statement (stmt_name stmt) account_pk)
                (statements (db st)))
      as [[Hget Hnone]|[(k & s & Hget & Hk & Hp & _)|[_ Hmany]]];
      [| |destruct Hmany; apply Hws].
    - eexists _, (next_pk (statements (db st))), false.
      split; [reflexivity|]. split_and!.
      + unfold import_statement, mbind, M_bind, gets. simpl.
        apply objects_exists_false in Hnone. rewrite Hnone.
        unfold modify, save_statement, mret, M_ret. cbv beta iota.
        rewrite Hsave_s. reflexivity.
      + left. by split_and!.
      + simpl. by apply wf_statements_created.
    - eexists _, k, true.
      split; [reflexivity|]. split_and!.
      + unfold import_statement, mbind, M_bind, gets. simpl.
        rewrite (objects_exists_true _ _ k s Hk Hp). unfold lift.
        rewrite Hget. unfold modify, save_statement, mret, M_ret.
        cbv beta iota.
        rewrite (overwrite_statement_key account_pk) by done.
        rewrite Hsave_s. reflexivity.
      + right. exists s. by split_and!.
      + simpl. by eapply wf_statements_overwritten. }
  (* the transactions *)
  assert (Hwm1 : ∀ i, unique_by (by_unique_import_id i) (movements (db st1))).
  { subst st1. by destruct u. }
  destruct (for_each_movement_step_ok spk u (stmt_transactions stmt) None st1
              Hwm1 Hsave_m)
    as (st2 & Hloop & Hmo & Hmv2 & Hwm2 & Hgrows & Hquiet & Hwarn).
  assert (Hmv1 : movements (db st1) = movements (db st)).
  { subst st1. by destruct u. }
  rewrite Hmv1 in Hmv2, Hwarn.
  fold last in Hloop.
  assert (Hacc1 : accounts (db st1) = accounts (db st)).
  { subst st1. by destruct u. }
  assert (Hst_1 : statements (db st1)
                  = <[spk := new_statement account_pk stmt]> (statements (db st))).
  { subst st1. by destruct u. }
  assert (Hcnt1 : failed_statements st1 = failed_statements st ∧
                  imported_files st1 = imported_files st ∧
                  files st1 = files st ∧ log st1 = log st).
  { subst st1. by destruct u. }
  destruct Hcnt1 as (Hf1 & Hi1 & Hfi1 & Hlog1).
  assert (Hu : (u = true ∧ new_statements st1 = new_statements st ∧
                updated_statements st1 = S (updated_statements st)) ∨
               (u = false ∧ new_statements st1 = S (new_statements st) ∧
                updated_statements st1 = updated_statements st)).
  { subst st1. destruct u; [left|right]; done. }
  destruct Hmo as [Hmo_a Hmo_s Hmo_n Hmo_u Hmo_f Hmo_i Hmo_fi].
  assert (Hlog : ∀ st3, log st3 = log st2 →
                        new_statements st3 = new_statements st2 →
                        updated_statements st3 = updated_statements st2 →
                        log_after stmt st st3).
  { intros st3 Hl3 Hn3 Hu3. rewrite Hlog1 in Hgrows, Hquiet. split.
    - by rewrite Hl3.
    - intros Hupd. rewrite Hl3. apply Hquiet.
      destruct Hu as [(-> & _)|(_ & _ & ?)]; [done|]. lia.
    - intros Hnew mvmt k m Hin Hk Hid. rewrite Hl3. eapply Hwarn; [|done..].
      destruct Hu as [(_ & ? & _)|(-> & _)]; [lia|done]. }
  rewrite Hrun, (bind_inr _ _ _ _ _ Hloop).
  destruct (decide (last_movement account ≠ last)) as [Hne|Heq%dec_stable].
  - (* the date of the account changes *)
    eexists _, spk. split.
    { cbv zeta. erewrite bind_inr; [|apply full_clean_ok].
      - unfold mbind, M_bind, save_account. simpl. reflexivity.
      - by apply Hclean.
      - intros k r Hk Hr. f_equal. rewrite Hmo_a, Hacc1 in Hk.
        eapply (Hwa (iban account)); eauto; by apply bool_decide_eq_true. }
    simpl. split_and!; try congruence.
    + split; simpl.
      * rewrite Hmo_a, Hacc1. by apply wf_accounts_last_movement.
      * by rewrite Hmo_s.
      * done.
    + unfold statement_branch. simpl.
      destruct Hbranch as [(? & ? & ? & ?)|(s' & ? & ? & ? & ?)];
        [left|right; exists s']; split_and!; first [done|congruence].
    + by apply Hlog.
  - (* the date of the account is the one it has *)
    exists st2, spk. split; [done|]. split_and!; try congruence.
    + split.
      * by rewrite Hmo_a, Hacc1.
      * by rewrite Hmo_s.
      * done.
    + rewrite <- Heq, set_last_movement_same, insert_id by done. congruence.
    + unfold statement_branch.
      destruct Hbranch as [(? & ? & ? & ?)|(s' & ? & ? & ? & ?)];
        [left|right; exists s']; split_and!; first [done|congruence].
    + by apply Hlog.
Qed.

(** A record without an account number is counted as failed and changes
    nothing but the log. *)
Lemma stmt_step_without_iban failed stmt st :
  stmt_account_number stmt = None →
  stmt_step clean_fields failed stmt st
  = (add_log WARNING (msg_without_iban (stmt_name stmt)) st, inr (S failed)).
Proof. intros H. unfold stmt_step. by rewrite H. Qed.

(** So is a record whose account number several accounts have. *)
Lemma stmt_step_more_than_one failed stmt st i :
  stmt_account_number stmt = Some i →
  ¬ unique_by (by_iban i) (accounts (db st)) →
  stmt_step clean_fields failed stmt st
  = (add_log WARNING (msg_more_than_one i) st, inr (S failed)).
Proof.
  intros H Hmany. unfold stmt_step. rewrite H.
  destruct (objects_get_cases (by_iban i) (accounts (db st)))
    as [[_ Hnone]|[(k & a & _ & _ & _ & Huniq)|[Hget _]]].
  - destruct Hmany. intros k1 k2 r1 r2 H1 _ Hp1 _.
    by rewrite (Hnone _ _ H1) in Hp1.
  - done.
  - unfold mbind, M_bind, try_except, lift. by rewrite Hget.
Qed.

(** A record with an account number is imported without an exception, and
    not counted as failed, when the database is well formed and takes the
    rows of the record, and the validators accept what [full_clean] is
    called with. *)
Lemma stmt_step_imports failed stmt st i :
  wf (db st) →
  stmt_account_number stmt = Some i →
  validates clean_fields stmt i (db st) →
  storable stmt →
  ∃ st' apk a0 spk,
    stmt_step clean_fields failed stmt st = (st', inr failed) ∧
    stmt_imported stmt i st st' apk a0 spk ∧
    log_after stmt st st'.
Proof.
  intros Hwf Hi [Hclean_new Hclean_date] Hsave. pose proof Hwf as [Hwa Hws Hwm].
  unfold stmt_step. rewrite Hi.
  destruct (objects_get_cases (by_iban i) (accounts (db st)))
    as [[Hget Hnone]|[(k & a & Hget & Hk & Hp & _)|[_ Hmany]]];
    [| |destruct Hmany; apply Hwa].
  - (* no account has the number: one is made *)
    set (a0 := new_account i).
    set (apk := next_pk (accounts (db st))).
    set (st_a := set_db (set_accounts (<[apk := a0]> (accounts (db st)))) st).
    assert (Hwf_a : wf (db st_a)).
    { split; [|done..]. intros j. simpl.
      destruct (decide (j = i)) as [->|Hne].
      - by apply unique_by_insert_none.
      - apply unique_by_insert_other; [apply next_pk_fresh| |done].
        apply bool_decide_eq_false. simpl. congruence. }
    destruct (import_statement_ok apk a0 stmt st_a Hwf_a)
      as (st' & spk & Hrun & Hwf' & Ha' & Hs' & Hm' & Hb' & Hf' & Hi' & Hfi' & Hlog').
    { simpl. apply lookup_insert_eq. }
    { done. }
    { apply Hclean_date. right. by split. }
    exists st', apk, a0, spk. split_and!.
    + unfold mbind, M_bind, try_except, lift. rewrite Hget.
      rewrite (full_clean_ok None a0 st).
      * unfold save_account. simpl. fold apk a0 st_a. by rewrite Hrun.
      * by apply Hclean_new.
      * intros k r Hk Hr. apply (bool_decide_eq_true_2 (iban r = i)) in Hr.
        unfold none_by, by_iban in Hnone. by rewrite (Hnone k r Hk) in Hr.
    + split; try done.
      * right. by split_and!.
      * rewrite Ha'. simpl. by rewrite insert_insert_eq.
    + by destruct Hlog'.
  - (* one account has the number *)
    apply bool_decide_eq_true in Hp.
    destruct (import_statement_ok k a stmt st Hwf Hk)
      as (st' & spk & Hrun & Hwf' & Ha' & Hs' & Hm' & Hb' & Hf' & Hi' & Hfi' & Hlog').
    { done. }
    { apply Hclean_date. left. eauto. }
    exists st', k, a, spk. split_and!.
    + unfold mbind, M_bind, try_except, lift. rewrite Hget.
      unfold mret, M_ret. cbv beta iota. by rewrite Hrun.
    + split; try done. by left.
    + done.
Qed.

Lemma stmt_step_ok failed stmt st i :
  wf (db st) →
  stmt_account_number stmt = Some i →
  validates clean_fields stmt i (db st) →
  storable stmt →
  ∃ st' apk a0 spk,
    stmt_step clean_fields failed stmt st = (st', inr failed) ∧
    stmt_imported stmt i st st' apk a0 spk.
Proof.
  intros Hwf Hi Hclean Hsave.
  destruct (stmt_step_imports failed stmt st i Hwf Hi Hclean Hsave)
    as (st' & apk & a0 & spk & Hrun & Himp & _).
  by exists st', apk, a0, spk.
Qed.

(** ** The updates of the tables *)

Lemma db_safe_movement_created s mvmt d :
  none_by (by_unique_import_id (mvmt_unique_import_id mvmt)) (movements d) →
  db_safe d (set_movements
               (<[next_pk (movements d) := new_movement s mvmt]> (movements d)) d).
Proof.
  intros Hnone. split.
  - split; simpl; eauto. intros k m Hk. exists m. split; [|done].
    rewrite lookup_insert_ne; [done|]. intros <-.
    by rewrite next_pk_fresh in Hk.
  - by apply accounts_fixed_same.
  - intros [Hwa Hws Hwm]. split; [done..|]. simpl.
    by apply wf_movements_created.
Qed.

Lemma db_safe_movement_overwritten s mvmt k m d :
  movements d !! k = Some m →
  db_safe d (set_movements
               (<[k := overwrite_movement s mvmt m]> (movements d)) d).
Proof.
  intros Hk. split.
  - split; simpl; eauto. intros k' m' Hk'.
    destruct (decide (k = k')) as [->|Hne].
    + rewrite lookup_insert_eq. eexists. split; [done|]. simpl. congruence.
    + rewrite lookup_insert_ne by done. eauto.
  - by apply accounts_fixed_same.
  - intros [Hwa Hws Hwm]. split; [done..|]. simpl.
    by apply wf_movements_overwritten.
Qed.

Lemma db_safe_statement_created account_pk stmt d :
  none_by (by_statement (stmt_name stmt) account_pk) (statements d) →
  db_safe d (set_statements
               (<[next_pk (statements d) := new_statement account_pk stmt]>
                  (statements d)) d).
Proof.
  intros Hnone. split.
  - split; simpl; eauto. intros k s Hk. exists s. split; [|done].
    rewrite lookup_insert_ne; [done|]. intros <-.
    by rewrite next_pk_fresh in Hk.
  - by apply accounts_fixed_same.
  - intros [Hwa Hws Hwm]. split; [done| |done]. simpl.
    by apply wf_statements_created.
Qed.

Lemma db_safe_statement_overwritten account_pk stmt k s d :
  statements d !! k = Some s →
  by_statement (stmt_name stmt) account_pk s = true →
  db_safe d (set_statements
               (<[k := overwrite_statement stmt s]> (statements d)) d).
Proof.
  intros Hk Hp. split.
  - split; simpl; eauto. intros k' s' Hk'.
    destruct (decide (k = k')) as [->|Hne].
    + rewrite lookup_insert_eq. eexists. split; [done|]. simpl.
      split; congruence.
    + rewrite lookup_insert_ne by done. eauto.
  - by apply accounts_fixed_same.
  - intros [Hwa Hws Hwm]. split; [done| |done]. simpl.
    rewrite (overwrite_statement_key account_pk) by done.
    by eapply wf_statements_overwritten.
Qed.

Lemma db_safe_last_movement k a last d :
  accounts d !! k = Some a →
  db_safe d (set_accounts (<[k := set_last_movement last a]> (accounts d)) d).
Proof.
  intros Hk. split.
  - split; simpl; eauto. intros k' a' Hk'.
    destruct (decide (k = k')) as [->|Hne].
    + rewrite lookup_insert_eq. eexists. split; [done|]. simpl. congruence.
    + rewrite lookup_insert_ne by done. eauto.
  - intros k' a' Hk'. simpl. destruct (decide (k = k')) as [->|Hne].
    + rewrite lookup_insert_eq. exists last. congruence.
    + rewrite lookup_insert_ne by done. exists (last_movement a').
      by rewrite set_last_movement_same.
  - intros [Hwa Hws Hwm]. split; [|done..]. simpl.
    by apply wf_accounts_last_movement.
Qed.

Lemma db_safe_account_created i d :
  none_by (by_iban i) (accounts d) →
  db_safe d (set_accounts
               (<[next_pk (accounts d) := new_account i]> (accounts d)) d).
Proof.
  intros Hnone.
  assert (Hother : ∀ k (a : Account), accounts d !! k = Some a →
            <[next_pk (accounts d) := new_account i]> (accounts d) !! k = Some a).
  { intros k a Hk. rewrite lookup_insert_ne; [done|]. intros <-.
    by rewrite next_pk_fresh in Hk. }
  split.
  - split; simpl; eauto.
  - intros k a Hk. simpl. exists (last_movement a).
    rewrite set_last_movement_same. auto.
  - intros [Hwa Hws Hwm]. split; [|done..]. simpl. intros j.
    destruct (decide (j = i)) as [->|Hne].
    + by apply unique_by_insert_none.
    + apply unique_by_insert_other; [apply next_pk_fresh| |done].
      apply bool_decide_eq_false. simpl. congruence.
Qed.


(** ** One transaction, one record, however they end *)

Lemma movement_step_any s u last mvmt :
  always movement_frame (movement_step s u last mvmt).
Proof.
  intros st. unfold movement_step, mbind, M_bind, gets, lift, save_movement.
  destruct (objects_cases (by_unique_import_id (mvmt_unique_import_id mvmt))
              (movements (db st)))
    as [(-> & _ & Hnone)|[(k & m & -> & Hget & Hk & _ & _)|(-> & Hget)]].
  - destruct (movement_error (new_movement s mvmt)); simpl; [done|].
    split; [by split|]. by apply db_safe_movement_created.
  - destruct u; simpl; rewrite Hget; simpl;
      destruct (movement_error (overwrite_movement s mvmt m)); simpl;
      first [by split | split; [by split|by apply db_safe_movement_overwritten]].
  - destruct u; simpl; rewrite Hget; simpl; by split.
Qed.

Lemma full_clean_state pk a st : (full_clean clean_fields pk a st).1 = st.
Proof.
  unfold full_clean. destruct (clean_fields a); [done|].
  unfold mbind, M_bind, gets. by destruct (forallb _ _).
Qed.

(** The statement of a record, its movements and the date of the account:
    what holds however [import_statement] ends, the counters when it ends
    without an exception, and the accounts when it ends with one. *)
Lemma import_statement_any account_pk account stmt st st' res :
  accounts (db st) !! account_pk = Some account →
  import_statement clean_fields account_pk account stmt st = (st', res) →
  db_safe (db st) (db st') ∧ loop_frame st st' ∧
  (∀ u, res = inr u →
        (new_statements st' + updated_statements st'
         = S (new_statements st + updated_statements st))%nat) ∧
  (∀ e, res = inl e → accounts (db st') = accounts (db st)) ∧
  (∃ last, accounts (db st')
           = <[account_pk := set_last_movement last account]>
               (accounts (db st))).
Proof.
  intros Hacc Hend.
  assert (Hsame : ∀ t : gmap nat Account, t = accounts (db st) →
            ∃ last, t = <[account_pk := set_last_movement last account]>
                          (accounts (db st))).
  { intros t ->. exists (last_movement account).
    by rewrite set_last_movement_same, insert_id. }
  (* the statement is found or made, and saved *)
  assert ((∃ st0 e,
             import_statement clean_fields account_pk account stmt st
             = (st0, inl e) ∧ db st0 = db st ∧ loop_frame st st0) ∨
          ∃ st1 spk u,
    import_statement clean_fields account_pk account stmt st
    = (last ← for_each (movement_step spk u) None (stmt_transactions stmt);
       if decide (last_movement account ≠ last) then
         let account := set_last_movement last account in
         full_clean clean_fields (Some account_pk) account;;
         save_account (Some account_pk) account;;
         mret ()
       else mret ()) st1 ∧
    db_safe (db st) (db st1) ∧ accounts (db st1) = accounts (db st) ∧
    loop_frame st st1 ∧
    (new_statements st1 + updated_statements st1
     = S (new_statements st + updated_statements st))%nat)
    as [(st0 & e & Hrun & Hdb & Hframe)
       |(st1 & spk & u & Hrun & Hsafe1 & Hacc1 & Hframe1 & Hcount1)].
  { destruct (objects_cases (by_statement (stmt_name stmt) account_pk)
                (statements (db st)))
      as [(Hex & _ & Hnone)|[(k & s & Hex & Hget & Hk & Hp & _)|(Hex & Hget)]].
    - destruct (statement_error (new_statement account_pk stmt)) as [e|] eqn:Hsave.
      + left. eexists _, e. split.
        * unfold import_statement, mbind, M_bind, gets. simpl.
          rewrite Hex. unfold modify, save_statement, mret, M_ret.
          cbv beta iota. rewrite Hsave. reflexivity.
        * by split.
      + right. eexists _, (next_pk (statements (db st))), false. split.
        * unfold import_statement, mbind, M_bind, gets. simpl.
          rewrite Hex. unfold modify, save_statement, mret, M_ret.
          cbv beta iota. rewrite Hsave. reflexivity.
        * simpl. split_and!; [|done|by split|lia].
          by apply db_safe_statement_created.
    - destruct (statement_error (overwrite_statement stmt s)) as [e|] eqn:Hsave.
      + left. eexists _, e. split.
        * unfold import_statement, mbind, M_bind, gets. simpl.
          rewrite Hex. unfold lift. rewrite Hget.
          unfold modify, save_statement, mret, M_ret.
          cbv beta iota. rewrite Hsave. reflexivity.
        * by split.
      + right. eexists _, k, true. split.
        * unfold import_statement, mbind, M_bind, gets. simpl.
          rewrite Hex. unfold lift. rewrite Hget.
          unfold modify, save_statement, mret, M_ret.
          cbv beta iota. rewrite Hsave. reflexivity.
        * simpl. split_and!; [|done|by split|lia].
          by eapply db_safe_statement_overwritten.
    - left. eexists _, _. split.
      + unfold import_statement, mbind, M_bind, gets. simpl.
        rewrite Hex. unfold lift. by rewrite Hget.
      + by split. }
  { rewrite Hrun in Hend. injection Hend as <- <-.
    rewrite Hdb. split_and!; [done|done|done|by intros|by apply Hsame]. }
  rewrite Hrun in Hend. clear Hrun. unfold mbind at 1, M_bind at 1 in Hend.
  (* the transactions *)
  pose proof (always_for_each movement_frame (movement_step spk u)
                (stmt_transactions stmt) (movement_step_any spk u) None st1)
    as Hloop.
  destruct (for_each _ _ _ st1) as [st2 [e|last]]; simpl in Hloop;
    destruct Hloop as [Hmo Hsafe2];
    assert (Hframe2 : loop_frame st st2)
      by (destruct Hmo, Hframe1; split; congruence);
    assert (Hacc2' : accounts (db st2) = accounts (db st))
      by (destruct Hmo; congruence).
  { injection Hend as <- <-.
    split_and!; [by etrans|done|done|done|by apply Hsame]. }
  assert (Hacc2 : accounts (db st2) !! account_pk = Some account)
    by by rewrite Hacc2'.
  assert (Hcount2 : (new_statements st2 + updated_statements st2
                     = S (new_statements st + updated_statements st))%nat)
    by (destruct Hmo; congruence).
  assert (Hsafe : db_safe (db st) (db st2)) by by etrans.
  (* the date of the account *)
  case_decide;
    [|injection Hend as <- <-; split_and!; [done..|by apply Hsame]].
  cbv zeta in Hend. unfold mbind, M_bind in Hend.
  pose proof (full_clean_state (Some account_pk)
                (set_last_movement last account) st2) as Hclean.
  destruct (full_clean _ _ _ st2) as [st3 [e|[]]]; simpl in Hclean; subst st3.
  { injection Hend as <- <-. split_and!; [done..|by apply Hsame]. }
  simpl in Hend. injection Hend as <- <-. simpl.
  split_and!; [|by destruct Hframe2|done|done|].
  - etrans; [done|]. by apply db_safe_last_movement.
  - exists last. by rewrite Hacc2'.
Qed.

(** One record: what holds however [stmt_step] ends; the counters when it
    ends without an exception: the record counts once, as new, updated or
    failed; the accounts when it ends with one: they are as they were, but
    for the account that has been made. *)
Lemma stmt_step_any failed stmt st st' res :
  stmt_step clean_fields failed stmt st = (st', res) →
  db_safe (db st) (db st') ∧ loop_frame st st' ∧
  (∀ failed', res = inr failed' →
     (new_statements st' + updated_statements st' + failed'
      = S (new_statements st + updated_statements st + failed))%nat) ∧
  (∀ e, res = inl e →
     accounts (db st') = accounts (db st) ∨
     ∃ i, stmt_account_number stmt = Some i ∧
          none_by (by_iban i) (accounts (db st)) ∧
          clean_fields (new_account i) = None ∧
          accounts (db st')
          = <[next_pk (accounts (db st)) := new_account i]> (accounts (db st))).
Proof.
  intros Hend. unfold stmt_step in Hend.
  destruct (stmt_account_number stmt) as [i|].
  2: { injection Hend as <- <-. simpl.
       split_and!; [done|by split|intros ? [= <-]; lia|done]. }
  unfold mbind, M_bind, try_except, lift in Hend.
  destruct (objects_cases (by_iban i) (accounts (db st)))
    as [(_ & Hget & Hnone)|[(k & a & _ & Hget & Hk & _ & _)|(_ & Hget)]];
    rewrite Hget in Hend.
  - (* no account has the number: one is made *)
    pose proof (full_clean_state None (new_account i) st) as Hclean.
    destruct (full_clean clean_fields None (new_account i) st)
      as [st0 [e|[]]] eqn:Hfull; simpl in Hclean; subst st0.
    { injection Hend as <- <-. split_and!; [done..|]. intros; by left. }
    assert (Haccepted : clean_fields (new_account i) = None).
    { unfold full_clean in Hfull.
      by destruct (clean_fields (new_account i)). }
    unfold save_account in Hend. simpl in Hend.
    destruct (import_statement _ _ _ _ _) as [st2 r2] eqn:Himp.
    apply import_statement_any in Himp as (Hsafe & Hframe & Hcount & Hexn & _);
      [|simpl; apply lookup_insert_eq].
    simpl in Hsafe, Hframe, Hcount, Hexn.
    assert (db_safe (db st) (db st2))
      by (etrans; [by apply db_safe_account_created|done]).
    assert (loop_frame st st2) by (by destruct Hframe).
    destruct r2 as [e|[]]; injection Hend as <- <-;
      (split_and!; [done|done| |]); try done.
    + intros e' _. right. exists i. split_and!; [done..|]. by eapply Hexn.
    + intros ? [= <-]. rewrite (Hcount () eq_refl). lia.
  - (* the account is in the table *)
    unfold mret, M_ret in Hend. cbv beta iota in Hend.
    destruct (import_statement _ _ _ _ _) as [st2 r2] eqn:Himp.
    apply import_statement_any in Himp as (Hsafe & Hframe & Hcount & Hexn & _);
      [|done].
    destruct r2 as [e|[]]; injection Hend as <- <-;
      (split_and!; [done|done| |]); try done.
    + intros e' _. left. by eapply Hexn.
    + intros ? [= <-]. rewrite (Hcount () eq_refl). lia.
  - (* several accounts have the number *)
    unfold logger, modify, mret, M_ret in Hend. cbv beta iota in Hend.
    injection Hend as <- <-. simpl.
    split_and!; [done|by split|intros ? [= <-]; lia|done].
Qed.

Lemma for_each_stmt_step_any res : ∀ failed st st' r,
  for_each (stmt_step clean_fields) failed res st = (st', r) →
  db_safe (db st) (db st') ∧ loop_frame st st' ∧
  (∀ failed', r = inr failed' →
     (new_statements st' + updated_statements st' + failed'
      = new_statements st + updated_statements st + failed + length res)%nat).
Proof.
  induction res as [|stmt res IH]; intros failed st st' r Hend.
  { injection Hend as <- <-. split_and!; [done..|]. intros ? [= <-].
    simpl. lia. }
  simpl in Hend. unfold mbind, M_bind in Hend.
  destruct (stmt_step _ _ _ st) as [st1 r1] eqn:Hstep.
  apply stmt_step_any in Hstep as (Hsafe1 & Hframe1 & Hcount1 & _).
  destruct r1 as [e|failed1].
  { injection Hend as <- <-. by split_and!. }
  apply IH in Hend as (Hsafe & Hframe & Hcount).
  split_and!; [by etrans..|].
  intros failed' ->. rewrite (Hcount failed' eq_refl).
  specialize (Hcount1 failed1 eq_refl). simpl. lia.
Qed.

(** The account that is made for a record stays in the table, with nothing
    changed but its date, however the import of the record goes on. *)
Lemma stmt_step_makes_account failed stmt st i :
  stmt_account_number stmt = Some i →
  none_by (by_iban i) (accounts (db st)) →
  clean_fields (new_account i) = None →
  ∃ last,
    accounts (db (stmt_step clean_fields failed stmt st).1)
    = <[next_pk (accounts (db st)) := set_last_movement last (new_account i)]>
        (accounts (db st)).
Proof.
  intros Hi Hnone Hclean. unfold stmt_step. rewrite Hi.
  unfold mbind, M_bind, try_except, lift.
  rewrite (objects_get_none _ _ Hnone).
  rewrite (full_clean_ok None (new_account i) st); [|done|].
  2: { intros k r Hk Hr. apply (bool_decide_eq_true_2 (iban r = i)) in Hr.
       unfold none_by, by_iban in Hnone. by rewrite (Hnone k r Hk) in Hr. }
  unfold save_account. simpl.
  destruct (import_statement _ _ _ _ _) as [st2 r2] eqn:Himp.
  apply import_statement_any in Himp as (_ & _ & _ & _ & [last Hlast]);
    [|simpl; apply lookup_insert_eq].
  simpl in Hlast. exists last.
  destruct r2 as [e|[]]; simpl; by rewrite Hlast, insert_insert_eq.
Qed.

(** ** The date of the last movement *)

Lemma date_ltb_irrefl d : date_ltb d d = false.
Proof. apply bool_decide_eq_false. lia. Qed.

Lemma date_ltb_le_trans x l d :
  date_ltb l x = false → date_ltb d l = false → date_ltb d x = false.
Proof. unfold date_ltb. rewrite !bool_decide_eq_false. lia. Qed.

Lemma date_ltb_antisym a b : date_ltb a b = false → date_ltb b a = false → a = b.
Proof.
  unfold date_ltb. rewrite !bool_decide_eq_false.
  destruct a, b. simpl. intros. f_equal; lia.
Qed.

Lemma running_max_cons last mvmt txs :
  running_max last (mvmt :: txs) = running_max (py_max last (mvmt_date mvmt)) txs.
Proof. reflexivity. Qed.

Lemma running_max_some l txs :
  ∃ d, running_max (Some l) txs = Some d ∧
       (d = l ∨ d ∈ mvmt_date <$> txs) ∧
       date_ltb d l = false ∧
       ∀ mvmt, mvmt ∈ txs → date_ltb d (mvmt_date mvmt) = false.
Proof.
  revert l. induction txs as [|mvmt txs IH]; intros l.
  - exists l. split_and!; [done|by left|apply date_ltb_irrefl|].
    intros mvmt Hin. by apply elem_of_nil in Hin.
  - rewrite running_max_cons. simpl.
    destruct (date_ltb l (mvmt_date mvmt)) eqn:Hlt.
    + destruct (IH (mvmt_date mvmt)) as (d & Hd & Hin & Hge & Hall).
      exists d. split_and!; [done| | |].
      * right. destruct Hin as [->|Hin]; [by left|by right].
      * eapply date_ltb_le_trans; [|done].
        apply bool_decide_eq_false. apply bool_decide_eq_true in Hlt. lia.
      * intros x [->|Hx]%elem_of_cons; auto.
    + destruct (IH l) as (d & Hd & Hin & Hge & Hall).
      exists d. split_and!; [done| | done |].
      * destruct Hin as [->|Hin]; [by left|right; by right].
      * intros x [->|Hx]%elem_of_cons; [|auto].
        by eapply date_ltb_le_trans.
Qed.

(** The running maximum is the latest date of the transactions, and [None]
    only when there are none. *)
Lemma running_max_latest txs :
  match running_max None txs with
  | Some d => is_latest d txs
  | None => txs = []
  end.
Proof.
  destruct txs as [|mvmt txs]; [done|].
  rewrite running_max_cons. simpl.
  destruct (running_max_some (mvmt_date mvmt) txs) as (d & Hd & Hin & Hge & Hall).
  rewrite Hd. split.
  - rewrite fmap_cons. destruct Hin as [->|Hin]; [by left|by right].
  - intros x [->|Hx]%elem_of_cons; auto.
Qed.

Lemma is_latest_unique d d' txs : is_latest d txs → is_latest d' txs → d = d'.
Proof.
  intros [Hin Hall] [Hin' Hall'].
  apply list_elem_of_fmap in Hin as (x & -> & Hx).
  apply list_elem_of_fmap in Hin' as (x' & -> & Hx').
  apply date_ltb_antisym; auto.
Qed.

(** C7. When a statement record is imported, the account it belongs to ends
    up with, as the date of its last movement, the latest date among the
    transactions of the record, whatever their order; for the dates
    2024-03-01, 2024-01-15, 2024-02-10 in this order that is 2024-03-01.
    The record is imported, without an exception, into a well-formed
    database that takes its rows, the validators accepting what
    [full_clean] is called with.  When the import of a record of an account
    the table has ends with an exception, as it does when [save()] refuses
    a row, no date is written: the accounts are as they were. *)
Theorem last_movement_is_latest :
  (∀ failed stmt st i,
     wf (db st) →
     stmt_account_number stmt = Some i →
     validates clean_fields stmt i (db st) →
     storable stmt →
     ∃ st' k a,
       stmt_step clean_fields failed stmt st = (st', inr failed) ∧
       objects_filter (by_iban i) (accounts (db st')) = [(k, a)] ∧
       last_movement a = running_max None (stmt_transactions stmt) ∧
       ∀ d, is_latest d (stmt_transactions stmt) → last_movement a = Some d) ∧
  (∀ mvmt1 mvmt2 mvmt3,
     mvmt_date mvmt1 = Date 2024 3 1 →
     mvmt_date mvmt2 = Date 2024 1 15 →
     mvmt_date mvmt3 = Date 2024 2 10 →
     running_max None [mvmt1; mvmt2; mvmt3] = Some (Date 2024 3 1)) ∧
  (∀ failed stmt st i k a st' e,
     stmt_account_number stmt = Some i →
     accounts (db st) !! k = Some a → iban a = i →
     stmt_step clean_fields failed stmt st = (st', inl e) →
     accounts (db st') = accounts (db st)).
Proof.
  split_and!.
  - intros failed stmt st i Hwf Hi Hclean Hsave.
    destruct (stmt_step_ok failed stmt st i Hwf Hi Hclean Hsave)
      as (st' & apk & a0 & spk & Hrun & Himp).
    destruct Himp as [Hwf' Hiban _ Haccs _ _ _ _ _ _].
    set (last := running_max None (stmt_transactions stmt)) in *.
    exists st', apk, (set_last_movement last a0). split_and!; [done| |done|].
    + apply objects_filter_unique.
      * apply Hwf'.
      * rewrite Haccs. apply lookup_insert_eq.
      * by apply bool_decide_eq_true.
    + intros d Hd. simpl. pose proof (running_max_latest (stmt_transactions stmt)) as H.
      fold last in H. destruct last as [d'|].
      * f_equal. by eapply is_latest_unique.
      * rewrite H in Hd. destruct Hd as [Hd _]. by apply elem_of_nil in Hd.
  - intros mvmt1 mvmt2 mvmt3 H1 H2 H3. rewrite !running_max_cons.
    by rewrite H1, H2, H3.
  - intros failed stmt st i k a st' e Hi Hk Hiban Hrun.
    destruct (stmt_step_any failed stmt st st' (inl e) Hrun)
      as (_ & _ & _ & Hexn).
    destruct (Hexn e eq_refl) as [Hsame|(i' & Hi' & Hnone & _)]; [done|].
    assert (i' = i) as -> by congruence.
    specialize (Hnone k a Hk). unfold by_iban in Hnone.
    by apply bool_decide_eq_false in Hnone.
Qed.

(** C10, as the code has it. Importing a statement record of an account
    that is in the table writes the row of the account only when the running
    maximum of the dates of the record, [None] when it has no transaction,
    differs from the date of the last movement the account has, and then
    stores that maximum, be it later or earlier; when the two are equal the
    accounts are left as they are.  The record is imported into a
    well-formed database that takes its rows, the validators accepting the
    account with the new date when it is written. *)
Theorem last_movement_written failed stmt st i k a :
  wf (db st) →
  stmt_account_number stmt = Some i →
  accounts (db st) !! k = Some a → iban a = i →
  let last := running_max None (stmt_transactions stmt) in
  (last_movement a ≠ last → clean_fields (set_last_movement last a) = None) →
  storable stmt →
  ∃ st',
    stmt_step clean_fields failed stmt st = (st', inr failed) ∧
    accounts (db st') = <[k := set_last_movement last a]> (accounts (db st)) ∧
    (last = last_movement a → accounts (db st') = accounts (db st)) ∧
    (last ≠ last_movement a →
     accounts (db st') !! k = Some (set_last_movement last a) ∧
     accounts (db st') ≠ accounts (db st)).
Proof.
  intros Hwf Hi Hk Hiban last Hclean Hsave.
  assert (Honly : ∀ a', account_for i (db st) a' → a' = a).
  { intros a' [(k' & Hk' & Hiban')|(Hnone & _)].
    - destruct Hwf as [Hwa _ _].
      assert (k' = k) as ->; [|congruence].
      eapply (Hwa i); eauto; by apply bool_decide_eq_true.
    - apply (bool_decide_eq_true_2 (iban a = i)) in Hiban.
      unfold none_by, by_iban in Hnone. by rewrite (Hnone _ _ Hk) in Hiban. }
  destruct (stmt_step_ok failed stmt st i Hwf Hi) as
    (st' & apk & a0 & spk & Hrun & Himp); [|done|].
  { split.
    - intros Hnone. apply (bool_decide_eq_true_2 (iban a = i)) in Hiban.
      unfold none_by, by_iban in Hnone. by rewrite (Hnone _ _ Hk) in Hiban.
    - intros a' Ha'. rewrite (Honly a' Ha'). apply Hclean. }
  destruct Himp as [_ Hiban0 Hacc Haccs _ _ _ _ _ _].
  assert (apk = k ∧ a0 = a) as [-> ->].
  { destruct Hacc as [Hapk|(Hnone & _ & _)].
    - assert (apk = k) as ->; [|split; congruence].
      destruct Hwf as [Hwa _ _].
      eapply (Hwa i); eauto; by apply bool_decide_eq_true.
    - apply (bool_decide_eq_true_2 (iban a = i)) in Hiban.
      unfold none_by, by_iban in Hnone. by rewrite (Hnone _ _ Hk) in Hiban. }
  exists st'. fold last in Haccs. split_and!; [done..| |].
  - intros Heq. rewrite Haccs, Heq, set_last_movement_same.
    by apply insert_id.
  - intros Hne. rewrite Haccs. split; [apply lookup_insert_eq|].
    intros Heq. apply (f_equal (λ t, t !! k)) in Heq.
    rewrite lookup_insert_eq, Hk in Heq. injection Heq as Heq.
    apply Hne. by rewrite <- Heq.
Qed.

(** ** Two records of one statement *)

(** C5. Two records with one account number and one statement number,
    imported one after the other into a well-formed database that takes
    their rows, the validators accepting what [full_clean] is called with:
    both are imported without an exception and the table is left with
    exactly one statement under that account and number, holding the dates,
    balances, currency and sequence number of the second record.  The first
    record counts as new when the table had no statement under the key and
    as updated when it had; the second counts as updated. *)
Theorem statement_upsert failed stmt1 stmt2 st i :
  wf (db st) →
  stmt_account_number stmt1 = Some i →
  stmt_account_number stmt2 = Some i →
  stmt_name stmt1 = stmt_name stmt2 →
  storable stmt1 → storable stmt2 →
  validates clean_fields stmt1 i (db st) →
  validates clean_fields stmt2 i
            (db (stmt_step clean_fields failed stmt1 st).1) →
  ∃ st1 st2 apk a spk,
    stmt_step clean_fields failed stmt1 st = (st1, inr failed) ∧
    stmt_step clean_fields failed stmt2 st1 = (st2, inr failed) ∧
    objects_filter (by_iban i) (accounts (db st2)) = [(apk, a)] ∧
    objects_filter (by_statement (stmt_name stmt2) apk) (statements (db st2))
      = [(spk, new_statement apk stmt2)] ∧
    start_date (new_statement apk stmt2) = stmt_start_date stmt2 ∧
    end_date (new_statement apk stmt2) = stmt_end_date stmt2 ∧
    balance_start (new_statement apk stmt2) = stmt_balance_start stmt2 ∧
    balance_end (new_statement apk stmt2) = stmt_balance_end stmt2 ∧
    balance_end_real (new_statement apk stmt2) = stmt_balance_end_real stmt2 ∧
    currency_code (new_statement apk stmt2) = stmt_currency_code stmt2 ∧
    sequence_number (new_statement apk stmt2)
    = stmt_legal_sequence_number stmt2 ∧
    statement_branch apk stmt1 spk st st1 ∧
    new_statements st2 = new_statements st1 ∧
    updated_statements st2 = S (updated_statements st1).
Proof.
  intros Hwf Hi1 Hi2 Hname Hsave1 Hsave2 Hclean1 Hclean2.
  destruct (stmt_step_ok failed stmt1 st i Hwf Hi1 Hclean1 Hsave1)
    as (st1 & apk & a1 & spk & Hrun1 & Himp1).
  rewrite Hrun1 in Hclean2. simpl in Hclean2.
  destruct Himp1 as [Hwf1 Hiban1 _ Haccs1 Hstmts1 _ Hbranch1 _ _ _].
  destruct (stmt_step_ok failed stmt2 st1 i Hwf1 Hi2 Hclean2 Hsave2)
    as (st2 & apk2 & a2 & spk2 & Hrun2 & Himp2).
  destruct Himp2 as [Hwf2 Hiban2 Hacc2 Haccs2 Hstmts2 _ Hbranch2 _ _ _].
  pose proof Hwf1 as [Hwa1 Hws1 _].
  (* the second record finds the account of the first *)
  assert (Hapk : accounts (db st1) !! apk
                 = Some (set_last_movement
                           (running_max None (stmt_transactions stmt1)) a1))
    by (rewrite Haccs1; apply lookup_insert_eq).
  assert (apk2 = apk) as ->.
  { destruct Hacc2 as [Hk2|(Hnone & _ & _)].
    - eapply (Hwa1 i); eauto; by apply bool_decide_eq_true.
    - specialize (Hnone _ _ Hapk). by apply bool_decide_eq_false in Hnone. }
  (* and the statement of the first *)
  assert (Hspk : statements (db st1) !! spk = Some (new_statement apk stmt1))
    by (rewrite Hstmts1; apply lookup_insert_eq).
  assert (Hkey : by_statement (stmt_name stmt2) apk (new_statement apk stmt1) = true)
    by by apply bool_decide_eq_true.
  assert (spk2 = spk ∧ new_statements st2 = new_statements st1 ∧
          updated_statements st2 = S (updated_statements st1)) as (-> & Hnew & Hupd).
  { destruct Hbranch2 as [(Hnone & _)|(s & Hs & Hp & ? & ?)].
    - by rewrite (Hnone _ _ Hspk) in Hkey.
    - split; [|done]. eapply (Hws1 (stmt_name stmt2) apk); eauto. }
  exists st1, st2, apk,
    (set_last_movement (running_max None (stmt_transactions stmt2)) a2), spk.
  split_and!; try done.
  - apply objects_filter_unique.
    + apply Hwf2.
    + rewrite Haccs2. apply lookup_insert_eq.
    + by apply bool_decide_eq_true.
  - apply objects_filter_unique.
    + apply Hwf2.
    + rewrite Hstmts2. apply lookup_insert_eq.
    + by apply bool_decide_eq_true.
Qed.

(** ** The account of a record *)

(** C9, as the code has it. When no account has the number of a statement
    record, an account with that number, no BIC and no date is made and
    validated by the [full_clean] that [b2c.Account] inherits, which looks no
    BIC up (the [full_clean] that does is the one of [sepa.Account], another
    model).  When the validators reject the account the exception leaves
    the loop and nothing is saved.  When they accept it, it is saved under
    a new key, and however the import of the record goes on, the table has
    it afterwards as its one account with that number, with an empty BIC,
    and has its other accounts as they were.  The record is imported
    without an exception when moreover the database is well formed and
    takes its rows and the validators accept the account with the date of
    the record. *)
Theorem new_account_saved failed stmt st i :
  stmt_account_number stmt = Some i →
  none_by (by_iban i) (accounts (db st)) →
  (∀ msg, clean_fields (new_account i) = Some msg →
          stmt_step clean_fields failed stmt st = (st, inl (ValidationError msg))) ∧
  (clean_fields (new_account i) = None →
   let st' := (stmt_step clean_fields failed stmt st).1 in
   ∃ a,
     objects_filter (by_iban i) (accounts (db st'))
       = [(next_pk (accounts (db st)), a)] ∧
     iban a = i ∧ bic a = EmptyString ∧
     size (accounts (db st')) = S (size (accounts (db st))) ∧
     ∀ k r, accounts (db st) !! k = Some r → accounts (db st') !! k = Some r) ∧
  (wf (db st) → validates clean_fields stmt i (db st) → storable stmt →
   ∃ st', stmt_step clean_fields failed stmt st = (st', inr failed)).
Proof.
  intros Hi Hnone. split_and!.
  - intros msg Hmsg. unfold stmt_step. rewrite Hi.
    unfold mbind at 1. unfold M_bind at 1. unfold try_except.
    unfold mbind at 1. unfold M_bind at 1. unfold lift.
    rewrite (objects_get_none _ _ Hnone). cbv beta iota.
    unfold full_clean. rewrite Hmsg. reflexivity.
  - intros Hclean. cbv zeta.
    destruct (stmt_step_makes_account failed stmt st i Hi Hnone Hclean)
      as [last ->].
    exists (set_last_movement last (new_account i)).
    split_and!; [|done|done| |].
    + apply objects_filter_unique.
      * by apply unique_by_insert_none.
      * apply lookup_insert_eq.
      * by apply bool_decide_eq_true.
    + apply map_size_insert_None, next_pk_fresh.
    + intros k r Hk. rewrite lookup_insert_ne; [done|].
      intros <-. by rewrite next_pk_fresh in Hk.
  - intros Hwf Hclean Hsave.
    destruct (stmt_step_ok failed stmt st i Hwf Hi Hclean Hsave)
      as (st' & apk & a0 & spk & Hrun & _).
    by exists st'.
Qed.

(** ** Two transactions of one import identifier *)


(** ** Records that fail *)

Lemma keeps_files_bind {A B : Type} (c : M A) (f : A → M B) :
  keeps_files c → (∀ a, keeps_files (f a)) → keeps_files (c ≫= f).
Proof.
  intros Hc Hf st. unfold mbind, M_bind. specialize (Hc st).
  destruct (c st) as [st1 [e|a]]; [done|]. rewrite Hf. done.
Qed.

Lemma keeps_files_try_except {A : Type} (c : M A) handler :
  keeps_files c → (∀ e h, handler e = Some h → keeps_files h) →
  keeps_files (try_except c handler).
Proof.
  intros Hc Hh st. unfold try_except. specialize (Hc st).
  destruct (c st) as [st1 [e|a]]; [|done].
  destruct (handler e) as [h|] eqn:E; [|done]. by rewrite (Hh e h E).
Qed.

Lemma keeps_files_for_each {A B : Type} (body : B → A → M B) l :
  (∀ acc x, keeps_files (body acc x)) → ∀ acc, keeps_files (for_each body acc l).
Proof.
  intros Hbody. induction l as [|x l IH]; intros acc; [done|].
  simpl. apply keeps_files_bind; auto.
Qed.

Lemma keeps_files_save_movement pk m : keeps_files (save_movement pk m).
Proof.
  intros st. unfold save_movement.
  destruct (movement_error m); [done|]. by destruct (save_row _ _ _).
Qed.

Lemma keeps_files_save_statement pk s : keeps_files (save_statement pk s).
Proof.
  intros st. unfold save_statement.
  destruct (statement_error s); [done|]. by destruct (save_row _ _ _).
Qed.

Lemma keeps_files_save_account pk a : keeps_files (save_account pk a).
Proof. intros st. unfold save_account. by destruct (save_row _ _ _). Qed.

Lemma keeps_files_full_clean pk a : keeps_files (full_clean clean_fields pk a).
Proof.
  unfold full_clean. destruct (clean_fields a); [done|].
  apply keeps_files_bind; [done|]. intros same. by destruct (forallb _ _).
Qed.

Lemma keeps_files_movement_step s u last mvmt :
  keeps_files (movement_step s u last mvmt).
Proof.
  unfold movement_step. apply keeps_files_bind; [done|]. intros found.
  apply keeps_files_bind; [|done]. destruct found.
  - apply keeps_files_bind; [by destruct u|]. intros _.
    apply keeps_files_bind; [done|]. intros [pk m].
    apply keeps_files_save_movement.
  - apply keeps_files_save_movement.
Qed.

Lemma keeps_files_import_statement account_pk account stmt :
  keeps_files (import_statement clean_fields account_pk account stmt).
Proof.
  unfold import_statement. apply keeps_files_bind; [done|]. intros found.
  apply keeps_files_bind.
  { destruct found; [|done].
    apply keeps_files_bind; [done|]. by intros [pk s]. }
  intros [[pk s] u]. apply keeps_files_bind; [apply keeps_files_save_statement|].
  intros s_pk. apply keeps_files_bind.
  { apply keeps_files_for_each. intros. apply keeps_files_movement_step. }
  intros last. case_decide; [|done].
  apply keeps_files_bind; [apply keeps_files_full_clean|]. intros _.
  apply keeps_files_bind; [apply keeps_files_save_account|]. done.
Qed.

Lemma keeps_files_stmt_step failed stmt :
  keeps_files (stmt_step clean_fields failed stmt).
Proof.
  unfold stmt_step. destruct (stmt_account_number stmt) as [i|]; [|done].
  apply keeps_files_bind.
  - apply keeps_files_try_except.
    + apply keeps_files_bind; [done|]. done.
    + intros e h Hh. destruct e; simplify_eq.
      * apply keeps_files_bind; [apply keeps_files_full_clean|]. intros _.
        apply keeps_files_bind; [apply keeps_files_save_account|]. done.
      * done.
  - intros [[pk a]|]; [|done].
    apply keeps_files_bind; [apply keeps_files_import_statement|]. done.
Qed.

(** The local counter of failed records never goes down, and goes up at a
    record without an account number. *)
Lemma stmt_step_counter failed stmt st st' failed' :
  stmt_step clean_fields failed stmt st = (st', inr failed') →
  (failed ≤ failed')%nat ∧
  (stmt_account_number stmt = None → failed' = S failed).
Proof.
  unfold stmt_step. destruct (stmt_account_number stmt) as [i|].
  - unfold mbind at 1. unfold M_bind at 1.
    destruct (try_except _ _ st) as [st1 [e|[[pk a]|]]]; [done| |].
    + unfold mbind, M_bind.
      destruct (import_statement _ _ _ _ st1) as [st2 [e|[]]]; [done|].
      intros [= <- <-]. split; [lia|done].
    + intros [= <- <-]. split; [lia|done].
  - intros [= <- <-]. split; [lia|done].
Qed.

Lemma for_each_stmt_step_counter res : ∀ failed st st' failed',
  for_each (stmt_step clean_fields) failed res st = (st', inr failed') →
  (failed ≤ failed')%nat ∧
  ((∃ stmt, stmt ∈ res ∧ stmt_account_number stmt = None) →
   (failed < failed')%nat).
Proof.
  induction res as [|stmt res IH]; intros failed st st' failed'.
  - intros [= <- <-]. split; [lia|]. intros (stmt & Hin & _).
    by apply elem_of_nil in Hin.
  - simpl. unfold mbind, M_bind.
    destruct (stmt_step _ _ _ st) as [st1 [e|failed1]] eqn:Hstep; [done|].
    intros Hrest. apply IH in Hrest as [Hle Hlt].
    apply stmt_step_counter in Hstep as [Hle1 Hnone1]. split; [lia|].
    intros (bad & [->|Hin]%elem_of_cons & Hbad).
    + rewrite Hnone1 in Hle by done. lia.
    + assert (failed1 < failed')%nat by eauto. lia.
Qed.

(** C8. A record without an account number, or whose account number
    several accounts have, is counted as failed and leaves the database and
    the counters of the action as they are, so no statement is made or
    updated; the loop goes on with the records after it.  When the loop ends
    with a record counted as failed, the number of failed statements is added
    to the counter of the action and the file stays in the directory,
    whatever [delete_imported_xml_files] is; a file with a record without an
    account number is in the directory after the import in any case. *)
Theorem failed_statement_skipped :
  (∀ failed stmt rest st,
     stmt_account_number stmt = None ∨
     (∃ i, stmt_account_number stmt = Some i ∧
           ¬ unique_by (by_iban i) (accounts (db st))) →
     ∃ msg,
       stmt_step clean_fields failed stmt st
         = (add_log WARNING msg st, inr (S failed)) ∧
       for_each (stmt_step clean_fields) failed (stmt :: rest) st
         = for_each (stmt_step clean_fields) (S failed) rest
             (add_log WARNING msg st)) ∧
  (∀ filename res st st1 failed,
     for_each (stmt_step clean_fields) 0%nat res
       (incr_imported_files
          (add_log DEBUG ("Importing file " +:+ filename +:+ ".") st))
       = (st1, inr failed) →
     (0 < failed)%nat →
     ∃ msg,
       import_file clean_fields delete_imported_xml_files filename (Some res) st
         = (add_failed_statements failed (add_log WARNING msg st1), inr ()) ∧
       files st1 = files st) ∧
  (∀ filename res st,
     (∃ stmt, stmt ∈ res ∧ stmt_account_number stmt = None) →
     files (import_file clean_fields delete_imported_xml_files filename
              (Some res) st).1 = files st).
Proof.
  split_and!.
  - intros failed stmt rest st Hbad.
    assert (∃ msg, stmt_step clean_fields failed stmt st
                   = (add_log WARNING msg st, inr (S failed))) as [msg Hstep].
    { destruct Hbad as [Hnone|(i & Hi & Hmany)].
      - eexists. by apply stmt_step_without_iban.
      - eexists. by eapply stmt_step_more_than_one. }
    exists msg. split; [done|]. simpl. by rewrite (bind_inr _ _ _ _ _ Hstep).
  - intros filename res st st1 failed Hloop Hpos.
    eexists. split.
    + unfold import_file, mbind, M_bind, logger, modify. cbv beta iota.
      rewrite Hloop. rewrite decide_True by done. reflexivity.
    + pose proof (keeps_files_for_each (stmt_step clean_fields) res
                    keeps_files_stmt_step 0%nat
                    (incr_imported_files
                       (add_log DEBUG ("Importing file " +:+ filename +:+ ".") st)))
        as Hfiles.
      rewrite Hloop in Hfiles. done.
  - intros filename res st Hbad.
    unfold import_file, mbind, M_bind, logger, modify. cbv beta iota.
    pose proof (keeps_files_for_each (stmt_step clean_fields) res
                  keeps_files_stmt_step 0%nat
                  (incr_imported_files
                     (add_log DEBUG ("Importing file " +:+ filename +:+ ".") st)))
      as Hfiles.
    destruct (for_each _ _ _ _) as [st1 [e|failed]] eqn:Hloop; [done|].
    apply for_each_stmt_step_counter in Hloop as [_ Hlt].
    rewrite decide_True by auto. done.
Qed.


(** ** Importing a file again *)

Lemma known_kept d d' stmt : rows_kept d d' → known d stmt → known d' stmt.
Proof.
  intros [Ha Hs Hm] Hknown i Hi.
  destruct (Hknown i Hi) as (apk & a & spk & s & Hapk & Hiban & Hspk & Hkey & Hmv).
  destruct (Ha apk a Hapk) as (a' & Hapk' & Hiban').
  destruct (Hs spk s Hspk) as (s' & Hspk' & Hn' & Hc').
  exists apk, a', spk, s'. split_and!; [done|congruence|done| |].
  - apply bool_decide_eq_true in Hkey as [? ?].
    apply bool_decide_eq_true. split; congruence.
  - intros mvmt Hin. destruct (Hmv mvmt Hin) as (k & m & Hk & Hid).
    destruct (Hm k m Hk) as (m' & Hk' & Hid'). exists k, m'. split; congruence.
Qed.

(** Importing a record removes no row and changes no key. *)
Lemma stmt_imported_rows_kept stmt i st st' apk a0 spk :
  wf (db st) → stmt_imported stmt i st st' apk a0 spk → rows_kept (db st) (db st').
Proof.
  intros [_ _ Hwm] [_ Hiban Hacc Haccs Hstmts Hmvs Hbranch _ _ _]. split.
  - intros k a Hk. rewrite Haccs.
    destruct (decide (apk = k)) as [->|Hne].
    + rewrite lookup_insert_eq. eexists. split; [done|]. simpl.
      destruct Hacc as [Hk'|(_ & -> & _)]; [congruence|].
      by rewrite next_pk_fresh in Hk.
    + rewrite lookup_insert_ne by done. eauto.
  - intros k s Hk. rewrite Hstmts.
    destruct (decide (spk = k)) as [->|Hne].
    + rewrite lookup_insert_eq. eexists. split; [done|]. simpl.
      destruct Hbranch as [(_ & -> & _)|(s' & Hs' & Hkey & _)].
      * by rewrite next_pk_fresh in Hk.
      * apply bool_decide_eq_true in Hkey as [? ?]. split; congruence.
    + rewrite lookup_insert_ne by done. eauto.
  - intros k m Hk. rewrite Hmvs. by apply movements_after_kept.
Qed.

(** After a record is imported the database has its rows. *)
Lemma stmt_imported_known stmt i st st' apk a0 spk :
  wf (db st) → stmt_account_number stmt = Some i →
  stmt_imported stmt i st st' apk a0 spk → known (db st') stmt.
Proof.
  intros [_ _ Hwm] Hi [_ Hiban _ Haccs Hstmts Hmvs _ _ _ _] j Hj.
  assert (j = i) as -> by congruence.
  eexists apk, _, spk, _. split_and!.
  - rewrite Haccs. apply lookup_insert_eq.
  - done.
  - rewrite Hstmts. apply lookup_insert_eq.
  - by apply bool_decide_eq_true.
  - intros mvmt Hin. rewrite Hmvs. by apply movements_after_present.
Qed.

Lemma movements_after_dom s txs : ∀ (t : gmap nat Movement),
  (∀ i, unique_by (by_unique_import_id i) t) →
  (∀ mvmt, mvmt ∈ txs →
     ∃ k m, t !! k = Some m ∧ unique_import_id m = mvmt_unique_import_id mvmt) →
  dom (movements_after s txs t) = dom t.
Proof.
  induction txs as [|x txs IH]; intros t Huniq Hall; [done|].
  simpl. destruct (Hall x) as (k & m & Hk & Hid); [by left|].
  rewrite IH.
  - rewrite (upsert_movement_found s x t k m) by done.
    apply dom_insert_lookup_L. eauto.
  - by apply wf_upsert_movement.
  - intros mvmt Hin. destruct (Hall mvmt) as (k' & m' & Hk' & Hid'); [by right|].
    destruct (upsert_movement_kept s x t k' m' Huniq Hk') as (m'' & Hk'' & Hid'').
    exists k', m''. split; congruence.
Qed.

(** Importing a record whose rows the database has adds no row; the
    statement counts as updated. *)
Lemma stmt_imported_again stmt i st st' apk a0 spk :
  wf (db st) → stmt_account_number stmt = Some i → known (db st) stmt →
  stmt_imported stmt i st st' apk a0 spk →
  dom (accounts (db st')) = dom (accounts (db st)) ∧
  dom (statements (db st')) = dom (statements (db st)) ∧
  dom (movements (db st')) = dom (movements (db st)) ∧
  new_statements st' = new_statements st ∧
  updated_statements st' = S (updated_statements st).
Proof.
  intros [Hwa Hws Hwm] Hi Hknown [_ Hiban Hacc Haccs Hstmts Hmvs Hbranch _ _ _].
  destruct (Hknown i Hi) as (k & a & sk & s & Hk & Hka & Hsk & Hkey & Hmv).
  assert (Hp : by_iban i a = true) by by apply bool_decide_eq_true.
  assert (apk = k ∧ accounts (db st) !! apk = Some a0) as [-> Hapk].
  { destruct Hacc as [Hapk|(Hnone & _)].
    - split; [|done]. eapply (Hwa i); eauto. by apply bool_decide_eq_true.
    - by rewrite (Hnone _ _ Hk) in Hp. }
  assert (statements (db st) !! spk = Some s ∧
          new_statements st' = new_statements st ∧
          updated_statements st' = S (updated_statements st))
    as (Hspk & Hnew & Hupd).
  { destruct Hbranch as [(Hnone & _)|(s' & Hs' & Hkey' & ? & ?)].
    - by rewrite (Hnone _ _ Hsk) in Hkey.
    - split; [|done].
      assert (spk = sk) as -> by (eapply (Hws (stmt_name stmt) k); eauto).
      done. }
  split_and!; [| | |done..].
  - rewrite Haccs. apply dom_insert_lookup_L. eauto.
  - rewrite Hstmts. apply dom_insert_lookup_L. eauto.
  - rewrite Hmvs. by apply movements_after_dom.
Qed.

Lemma accepted_cons stmt res d :
  accepted clean_fields (stmt :: res) d →
  (∀ i, stmt_account_number stmt = Some i → validates clean_fields stmt i d) ∧
  accepted clean_fields res d.
Proof.
  intros Hacc. split.
  - intros i Hi. split.
    + intros Hnone.
      apply (Hacc stmt i (new_account i) None); [by left|done|]. by right.
    + intros a Ha _. apply (Hacc stmt i a); [by left|done..].
  - intros r i a last Hin. apply Hacc. by right.
Qed.

(** The validators accept the accounts of the records after a record is
    imported as they did before. *)
Lemma accepted_kept res stmt i0 st st' apk a0 spk :
  stmt_imported stmt i0 st st' apk a0 spk →
  accepted clean_fields res (db st) → accepted clean_fields res (db st').
Proof.
  intros [_ Hiban0 Hacc0 Haccs _ _ _ _ _ _] Hacc r i a last Hin Hi Hfor.
  assert (Hold : ∀ k b, accounts (db st) !! k = Some b →
                        ∃ b', accounts (db st') !! k = Some b' ∧ iban b' = iban b).
  { intros k b Hk. rewrite Haccs. destruct (decide (apk = k)) as [->|Hne].
    - rewrite lookup_insert_eq. eexists. split; [done|]. simpl.
      destruct Hacc0 as [Hk'|(_ & -> & _)]; [congruence|].
      by rewrite next_pk_fresh in Hk.
    - rewrite lookup_insert_ne by done. eauto. }
  destruct Hfor as [(k & Hk & Hiban)|(Hnone' & ->)].
  - rewrite Haccs in Hk. destruct (decide (apk = k)) as [->|Hne].
    + rewrite lookup_insert_eq in Hk. injection Hk as <-. simpl in Hiban.
      change (set_last_movement last (set_last_movement _ a0))
        with (set_last_movement last a0).
      apply (Hacc r i a0); [done..|].
      destruct Hacc0 as [Hk0|(Hnone0 & _ & ->)].
      * left. eauto.
      * right. simpl in Hiban. by subst i.
    + rewrite lookup_insert_ne in Hk by done.
      apply (Hacc r i a); [done..|]. left. eauto.
  - apply (Hacc r i (new_account i)); [done..|]. right. split; [|done].
    intros k b Hk. destruct (Hold k b Hk) as (b' & Hk' & Hiban').
    specialize (Hnone' k b' Hk'). unfold by_iban in *.
    apply bool_decide_eq_false in Hnone'. apply bool_decide_eq_false.
    congruence.
Qed.

(** The records of a file are processed without an exception when the
    database is well formed and takes their rows and the validators accept
    their accounts; after them the database has the rows of each. *)
Lemma for_each_stmt_step_ok res : ∀ failed st,
  wf (db st) → accepted clean_fields res (db st) →
  (∀ stmt, stmt ∈ res → storable stmt) →
  ∃ st' failed',
    for_each (stmt_step clean_fields) failed res st = (st', inr failed') ∧
    wf (db st') ∧ rows_kept (db st) (db st') ∧
    (∀ stmt, stmt ∈ res → known (db st') stmt) ∧
    (∀ res', accepted clean_fields res' (db st) →
             accepted clean_fields res' (db st')).
Proof.
  induction res as [|stmt res IH]; intros failed st Hwf Hacc Hsave.
  - exists st, failed. split_and!; [done|done|apply rows_kept_refl| |done].
    intros stmt Hin. by apply elem_of_nil in Hin.
  - pose proof Hacc as Hacc0. apply accepted_cons in Hacc as [Hstmt Hres].
    assert (∃ st1 failed1,
              stmt_step clean_fields failed stmt st = (st1, inr failed1) ∧
              wf (db st1) ∧ rows_kept (db st) (db st1) ∧ known (db st1) stmt ∧
              (∀ res', accepted clean_fields res' (db st) →
                       accepted clean_fields res' (db st1)))
      as (st1 & failed1 & Hrun1 & Hwf1 & Hkept1 & Hknown1 & Hacc1).
    { destruct (stmt_account_number stmt) as [i|] eqn:Hi.
      - destruct (stmt_step_ok failed stmt st i Hwf Hi (Hstmt i eq_refl))
          as (st1 & apk & a0 & spk & Hrun & Himp); [apply Hsave; by left|].
        exists st1, failed. split_and!; [done|apply Himp| | |].
        + by eapply stmt_imported_rows_kept.
        + by eapply stmt_imported_known.
        + intros res'. by eapply accepted_kept.
      - exists (add_log WARNING (msg_without_iban (stmt_name stmt)) st), (S failed).
        split_and!; [by apply stmt_step_without_iban|done|apply rows_kept_refl
                    | |done].
        intros i Hi'. congruence. }
    destruct (IH failed1 st1 Hwf1) as (st' & failed' & Hrun & Hwf' & Hkept & Hknown & Hacc').
    { by apply Hacc1. }
    { intros r Hin. apply Hsave. by right. }
    exists st', failed'. split_and!; [|done|by eapply rows_kept_trans| |by auto].
    + simpl. by rewrite (bind_inr _ _ _ _ _ Hrun1).
    + intros r [->|Hin]%elem_of_cons; [by eapply known_kept|auto].
Qed.

(** Processed again, they add no row and no statement counts as new. *)
Lemma for_each_stmt_step_again res : ∀ failed st,
  wf (db st) → accepted clean_fields res (db st) →
  (∀ stmt, stmt ∈ res → storable stmt) →
  (∀ stmt, stmt ∈ res → known (db st) stmt) →
  ∃ st' failed',
    for_each (stmt_step clean_fields) failed res st = (st', inr failed') ∧
    dom (accounts (db st')) = dom (accounts (db st)) ∧
    dom (statements (db st')) = dom (statements (db st)) ∧
    dom (movements (db st')) = dom (movements (db st)) ∧
    new_statements st' = new_statements st.
Proof.
  induction res as [|stmt res IH]; intros failed st Hwf Hacc Hsave Hknown.
  - by exists st, failed.
  - apply accepted_cons in Hacc as [Hstmt Hres].
    assert (∃ st1 failed1,
              stmt_step clean_fields failed stmt st = (st1, inr failed1) ∧
              wf (db st1) ∧ rows_kept (db st) (db st1) ∧
              accepted clean_fields res (db st1) ∧
              dom (accounts (db st1)) = dom (accounts (db st)) ∧
              dom (statements (db st1)) = dom (statements (db st)) ∧
              dom (movements (db st1)) = dom (movements (db st)) ∧
              new_statements st1 = new_statements st)
      as (st1 & failed1 & Hrun1 & Hwf1 & Hkept1 & Hacc1 & Ha1 & Hs1 & Hm1 & Hn1).
    { destruct (stmt_account_number stmt) as [i|] eqn:Hi.
      - destruct (stmt_step_ok failed stmt st i Hwf Hi (Hstmt i eq_refl))
          as (st1 & apk & a0 & spk & Hrun & Himp); [apply Hsave; by left|].
        destruct (stmt_imported_again stmt i st st1 apk a0 spk Hwf Hi)
          as (? & ? & ? & ? & ?); [apply Hknown; by left|done|].
        exists st1, failed. split_and!; [done|apply Himp| | |done..].
        + by eapply stmt_imported_rows_kept.
        + by eapply accepted_kept.
      - exists (add_log WARNING (msg_without_iban (stmt_name stmt)) st), (S failed).
        split_and!; [by apply stmt_step_without_iban|done|apply rows_kept_refl
                    |done..]. }
    destruct (IH failed1 st1 Hwf1 Hacc1) as (st' & failed' & Hrun & Ha & Hs & Hm & Hn).
    { intros r Hin. apply Hsave. by right. }
    { intros r Hin. eapply known_kept; [done|]. apply Hknown. by right. }
    exists st', failed'. split_and!; [|congruence..].
    simpl. by rewrite (bind_inr _ _ _ _ _ Hrun1).
Qed.

(** [import_file] ends without an exception when its loop does, and what it
    does after the loop leaves the database and the counters of new and
    updated statements as they are. *)
Lemma import_file_after_loop filename res st st1 failed :
  for_each (stmt_step clean_fields) 0%nat res
    (incr_imported_files
       (add_log DEBUG ("Importing file " +:+ filename +:+ ".") st))
    = (st1, inr failed) →
  ∃ st', import_file clean_fields delete_imported_xml_files filename (Some res) st
         = (st', inr ()) ∧
         db st' = db st1 ∧ new_statements st' = new_statements st1 ∧
         updated_statements st' = updated_statements st1.
Proof.
  intros Hloop. unfold import_file, mbind, M_bind, logger, modify.
  cbv beta iota. rewrite Hloop. case_decide; [by eexists|].
  destruct delete_imported_xml_files; [|by eexists].
  unfold try_except, os_remove.
  destruct (files st1 !! filename) as [[]|]; by eexists.
Qed.

(** A file imported twice: both imports end without an exception when the
    database is well formed and takes the rows of the records and the
    validators accept their accounts, and the second adds no account,
    statement or movement and counts no statement as new. *)
Lemma reimport_adds_no_row filename res st :
  wf (db st) → accepted clean_fields res (db st) →
  (∀ stmt, stmt ∈ res → storable stmt) →
  ∃ st1 st2,
    import_file clean_fields delete_imported_xml_files filename (Some res) st
      = (st1, inr ()) ∧
    import_file clean_fields delete_imported_xml_files filename (Some res) st1
      = (st2, inr ()) ∧
    dom (accounts (db st2)) = dom (accounts (db st1)) ∧
    dom (statements (db st2)) = dom (statements (db st1)) ∧
    dom (movements (db st2)) = dom (movements (db st1)) ∧
    new_statements st2 = new_statements st1.
Proof.
  intros Hwf Hacc Hsave.
  destruct (for_each_stmt_step_ok res 0%nat
              (incr_imported_files
                 (add_log DEBUG ("Importing file " +:+ filename +:+ ".") st))
              Hwf Hacc Hsave) as (l1 & f1 & Hloop1 & Hwf1 & _ & Hknown1 & Hacc1).
  destruct (import_file_after_loop filename res st l1 f1 Hloop1)
    as (st1 & Hrun1 & Hdb1 & Hn1 & _).
  specialize (Hacc1 res Hacc).
  rewrite <- Hdb1 in Hwf1, Hknown1, Hacc1.
  destruct (for_each_stmt_step_again res 0%nat
              (incr_imported_files
                 (add_log DEBUG ("Importing file " +:+ filename +:+ ".") st1))
              Hwf1 Hacc1 Hsave Hknown1) as (l2 & f2 & Hloop2 & Ha & Hs & Hm & Hn).
  destruct (import_file_after_loop filename res st1 l2 f2 Hloop2)
    as (st2 & Hrun2 & Hdb2 & Hn2 & _).
  exists st1, st2. rewrite Hdb2. split_and!; [done..|].
  rewrite Hn2, Hn. done.
Qed.

End Importer.

(** ** The importer on sample files *)

Import Sample.

Lemma unique_by_empty {A : Type} (p : A → bool) : unique_by p (∅ : gmap nat A).
Proof. intros k1 k2 r1 r2 H. by rewrite lookup_empty in H. Qed.

Lemma unique_by_singleton {A : Type} (p : A → bool) k r :
  unique_by p ({[ k := r ]} : gmap nat A).
Proof.
  intros k1 k2 r1 r2 [<- _]%lookup_singleton_Some [<- _]%lookup_singleton_Some.
  done.
Qed.

Lemma wf_initial filename : wf (db (initial filename)).
Proof. split; intros; apply unique_by_empty. Qed.

Lemma wf_with_account : wf (db with_account).
Proof.
  split; intros; [apply unique_by_singleton | apply unique_by_empty..].
Qed.

(** C1 fails on the code. A file with one statement is imported twice with
    no exception; the second import adds no row and counts the statement as
    updated, but it does not leave the database as the first did: an
    attribute the transaction does not have is stored as the empty string
    when the movement is made and as one space when it is overwritten. *)
Theorem reimport_changes_movements :
  let file := Some [first_quarter] in
  let run1 := import_file accept_all false "statements.xml" file
                          (initial "statements.xml") in
  let run2 := import_file accept_all false "statements.xml" file run1.1 in
  run1.2 = inr () ∧ run2.2 = inr () ∧
  new_statements run1.1 = 1%nat ∧ new_statements run2.1 = 1%nat ∧
  updated_statements run1.1 = 0%nat ∧ updated_statements run2.1 = 1%nat ∧
  size (accounts (db run2.1)) = size (accounts (db run1.1)) ∧
  size (statements (db run2.1)) = size (statements (db run1.1)) ∧
  size (movements (db run2.1)) = size (movements (db run1.1)) ∧
  eref <$> movements (db run1.1) !! 1%nat = Some (PStr EmptyString) ∧
  eref <$> movements (db run2.1) !! 1%nat = Some (PStr " ") ∧
  db run2.1 ≠ db run1.1.
Proof.
  intros file run1 run2. split_and!; try (vm_compute; reflexivity).
  intros Heq.
  apply (f_equal (λ d, eref <$> movements d !! 1%nat)) in Heq.
  vm_compute in Heq. discriminate Heq.
Qed.

(** C9, as stated, fails: the account made for a statement of an IBAN whose
    bank code is in the table is saved without a BIC. *)
Lemma new_account_bic_counterexample :
  let run := import_file accept_all false "statements.xml" (Some [no_movement])
                         (initial "statements.xml") in
  stmt_account_number no_movement = Some "BE07340154921566" ∧
  Sepa.iban2bic "BE07340154921566" = Some "BBRUBEBB" ∧
  run.2 = inr () ∧
  map_to_list (accounts (db run.1))
    = [(1%nat, {| iban := "BE07340154921566"; bic := EmptyString;
                  last_movement := None |})].
Proof. intros run. split_and!; vm_compute; reflexivity. Qed.

(** C10, as stated, fails: a statement without movements resets the date of
    the last movement of its account, and a statement of January moves it
    back from March to January. *)
Lemma last_movement_decreases_counterexample :
  accounts (db with_account) !! 1%nat = Some known_account ∧
  last_movement known_account = Some march ∧
  last_movement <$>
    accounts (db (stmt_step accept_all 0 no_movement with_account).1) !! 1%nat
    = Some None ∧
  last_movement <$>
    accounts (db (stmt_step accept_all 0 january_only with_account).1) !! 1%nat
    = Some (Some january).
Proof. split_and!; vm_compute; reflexivity. Qed.

(** The sample transactions and records have what the fields of
    [Movement] and [Statement] take. *)
Lemma storable_transaction_on d unique_import_id :
  storable_movement (transaction_on d unique_import_id).
Proof. intros s. split; reflexivity. Qed.

Lemma storable_statement_of account_number name balance_end ds :
  storable (statement_of account_number name balance_end
              (uncurry transaction_on <$> ds)).
Proof.
  split; [intros account_pk; reflexivity|].
  intros mvmt ([d unique_import_id] & -> & _)%list_elem_of_fmap.
  apply storable_transaction_on.
Qed.

Lemma storable_first_quarter : storable first_quarter.
Proof.
  apply (storable_statement_of _ _ _
           [(march, "TX-1"); (january, "TX-2"); (february, "TX-3")]).
Qed.

Lemma storable_first_quarter_again : storable first_quarter_again.
Proof. apply (storable_statement_of _ _ _ [(march, "TX-1")]). Qed.


Lemma storable_no_movement : storable no_movement.
Proof. apply (storable_statement_of _ _ _ []). Qed.

Lemma storable_january_only : storable january_only.
Proof. apply (storable_statement_of _ _ _ [(january, "TX-5")]). Qed.

Lemma validates_accept_all stmt i d : validates accept_all stmt i d.
Proof. split; intros; reflexivity. Qed.

(** The import of a record with a transaction that has no execution date
    raises the exception of [save()] after the statement is saved, and
    leaves the date of the last movement of the account as it was. *)
Lemma undated_movement_refused :
  let run := stmt_step accept_all 0 with_undated with_account in
  run.2 = inl (ValidationError (msg_invalid_date EmptyString)) ∧
  size (statements (db run.1)) = 1%nat ∧
  movements (db run.1) = ∅ ∧
  accounts (db run.1) = accounts (db with_account).
Proof. intros run. split_and!; vm_compute; reflexivity. Qed.


Lemma new_account_saved_witness :
  let st := initial "statements.xml" in
  let st' := (stmt_step accept_all 0 no_movement st).1 in
  stmt_step reject_all 0 no_movement st
    = (st, inl (ValidationError "Enter a valid IBAN.")) ∧
  (∃ a,
     objects_filter (by_iban "BE07340154921566") (accounts (db st'))
       = [(next_pk (accounts (db st)), a)] ∧
     iban a = "BE07340154921566" ∧ bic a = EmptyString ∧
     size (accounts (db st')) = S (size (accounts (db st))) ∧
     ∀ k r, accounts (db st) !! k = Some r → accounts (db st') !! k = Some r) ∧
  (∃ st', stmt_step accept_all 0 no_movement st = (st', inr 0%nat)).
Proof.
  intros st st'.
  assert (Hnone : none_by (by_iban "BE07340154921566") (accounts (db st))).
  { intros k r Hk. simpl in Hk. by rewrite lookup_empty in Hk. }
  destruct (new_account_saved reject_all 0%nat no_movement st
              "BE07340154921566" eq_refl Hnone) as (Hrejected & _ & _).
  destruct (new_account_saved accept_all 0%nat no_movement st
              "BE07340154921566" eq_refl Hnone) as (_ & Hsaved & Hrun).
  split_and!.
  - apply Hrejected. reflexivity.
  - apply Hsaved. reflexivity.
  - apply Hrun.
    + apply wf_initial.
    + apply validates_accept_all.
    + apply storable_no_movement.
Defined.

Lemma last_movement_is_latest_witness :
  (∃ st' k a,
     stmt_step accept_all 0 first_quarter (initial "statements.xml")
       = (st', inr 0%nat) ∧
     objects_filter (by_iban "BE07340154921566") (accounts (db st')) = [(k, a)] ∧
     last_movement a = running_max None (stmt_transactions first_quarter) ∧
     ∀ d, is_latest d (stmt_transactions first_quarter) →
          last_movement a = Some d) ∧
  running_max None (stmt_transactions first_quarter) = Some (Date 2024 3 1) ∧
  (∀ st' e,
     stmt_step accept_all 0 with_undated with_account = (st', inl e) →
     accounts (db st') = accounts (db with_account)).
Proof.
  destruct (last_movement_is_latest accept_all) as (Himported & Hdates & Hraised).
  split_and!.
  - apply (Himported 0%nat first_quarter (initial "statements.xml")
             "BE07340154921566").
    + apply wf_initial.
    + reflexivity.
    + apply validates_accept_all.
    + apply storable_first_quarter.
  - apply Hdates; reflexivity.
  - intros st' e.
    apply (Hraised 0%nat with_undated with_account "BE07340154921566" 1%nat known_account).
    + reflexivity.
    + reflexivity.
    + reflexivity.
Defined.

Lemma last_movement_written_witness :
  ∃ st',
    stmt_step accept_all 0 january_only with_account = (st', inr 0%nat) ∧
    accounts (db st')
      = <[1%nat := set_last_movement (Some january) known_account]>
          (accounts (db with_account)) ∧
    (Some january = last_movement known_account →
     accounts (db st') = accounts (db with_account)) ∧
    (Some january ≠ last_movement known_account →
     accounts (db st') !! 1%nat
       = Some (set_last_movement (Some january) known_account) ∧
     accounts (db st') ≠ accounts (db with_account)).
Proof.
  apply (last_movement_written accept_all 0%nat january_only with_account
           "BE07340154921566" 1%nat known_account).
  - apply wf_with_account.
  - reflexivity.
  - reflexivity.
  - reflexivity.
  - reflexivity.
  - apply storable_january_only.
Defined.

Lemma statement_upsert_witness :
  ∃ st1 st2 apk a spk,
    stmt_step accept_all 0 first_quarter (initial "statements.xml")
      = (st1, inr 0%nat) ∧
    stmt_step accept_all 0 first_quarter_again st1 = (st2, inr 0%nat) ∧
    objects_filter (by_iban "BE07340154921566") (accounts (db st2))
      = [(apk, a)] ∧
    objects_filter (by_statement "2024/001" apk) (statements (db st2))
      = [(spk, new_statement apk first_quarter_again)] ∧
    start_date (new_statement apk first_quarter_again) = Some (Date 2024 1 1) ∧
    end_date (new_statement apk first_quarter_again) = Some (Date 2024 3 31) ∧
    balance_start (new_statement apk first_quarter_again) = 100000 ∧
    balance_end (new_statement apk first_quarter_again) = 95000 ∧
    balance_end_real (new_statement apk first_quarter_again) = 95000 ∧
    currency_code (new_statement apk first_quarter_again) = "EUR" ∧
    sequence_number (new_statement apk first_quarter_again) = Some 1 ∧
    statement_branch apk first_quarter spk (initial "statements.xml") st1 ∧
    new_statements st2 = new_statements st1 ∧
    updated_statements st2 = S (updated_statements st1).
Proof.
  apply (statement_upsert accept_all 0%nat first_quarter first_quarter_again
           (initial "statements.xml") "BE07340154921566").
  - apply wf_initial.
  - reflexivity.
  - reflexivity.
  - reflexivity.
  - apply storable_first_quarter.
  - apply storable_first_quarter_again.
  - apply validates_accept_all.
  - apply validates_accept_all.
Defined.

(** A file of three records, the second without an account number: two
    statements are imported, one is counted as failed and the file is not
    removed although [delete_imported_xml_files] is set. *)
Lemma failed_statement_skipped_witness :
  let run := import_file accept_all true "statements.xml"
               (Some [first_quarter; without_iban; second_account])
               (initial "statements.xml") in
  files run.1 = files (initial "statements.xml") ∧
  run.2 = inr () ∧
  (new_statements run.1 + updated_statements run.1 = 2)%nat ∧
  failed_statements run.1 = 1%nat ∧
  size (statements (db run.1)) = 2%nat ∧
  (∃ msg,
     stmt_step accept_all 0 first_quarter with_two_accounts
     = (add_log WARNING msg with_two_accounts, inr 1%nat)).
Proof.
  intros run.
  destruct (failed_statement_skipped accept_all true) as (Hskip & _ & Hfile).
  split_and!.
  - apply Hfile. exists without_iban. split; [|reflexivity].
    apply elem_of_cons. right. apply elem_of_cons. by left.
  - vm_compute. reflexivity.
  - vm_compute. reflexivity.
  - vm_compute. reflexivity.
  - vm_compute. reflexivity.
  - destruct (Hskip 0%nat first_quarter [] with_two_accounts) as (msg & Hmsg & _).
    + right. exists "BE07340154921566". split; [reflexivity|].
      intros Huniq.
      assert (1 = 2)%nat; [|done].
      eapply (Huniq 1%nat 2%nat known_account known_account); reflexivity.
    + by exists msg.
Defined.

End B2CSpec.

(** * More on the account-number conversion *)

Module SepaUtilsProps.
Import Sepa SepaSpec SepaShapes.

(** ** Numbers written in decimal *)

Lemma digits_acc_num s : ∀ a,
  Py.all_digits s = true →
  Py.digits_acc a s = Some (a * 10 ^ Z.of_nat (String.length s) + Py.num s).
Proof.
  induction s as [|c s IH]; intros a Hs.
  - simpl. f_equal. unfold Py.num. simpl. lia.
  - apply all_digits_cons in Hs as [Hc Hs].
    destruct (is_digit_val c Hc) as (d & Hd & _).
    unfold Py.num. cbn [Py.digits_acc String.length]. rewrite Hd.
    rewrite !IH by done. cbn [default from_option id]. f_equal.
    rewrite Nat2Z.inj_succ, Z.pow_succ_r by lia. lia.
Qed.

Lemma digits_acc_app s t : ∀ a,
  Py.digits_acc a (s +:+ t) = Py.digits_acc a s ≫= λ a', Py.digits_acc a' t.
Proof.
  induction s as [|c s IH]; intros a; [done|].
  rewrite string_app_cons. cbn [Py.digits_acc].
  destruct (Py.digit_val c); [apply IH|done].
Qed.

Lemma string_app_assoc s t u : (s +:+ t) +:+ u = s +:+ t +:+ u.
Proof. induction s as [|c s IH]; [done|]. by rewrite !string_app_cons, IH. Qed.

Lemma length_app s t :
  String.length (s +:+ t) = (String.length s + String.length t)%nat.
Proof.
  induction s as [|c s IH]; [done|]. rewrite string_app_cons. simpl.
  by rewrite IH.
Qed.

(** The number of a concatenation. *)
Lemma num_app s t :
  Py.all_digits s = true → Py.all_digits t = true →
  Py.num (s +:+ t) = Py.num s * 10 ^ Z.of_nat (String.length t) + Py.num t.
Proof.
  intros Hs Ht. unfold Py.num at 1.
  rewrite digits_acc_app, (digits_acc_num s 0 Hs). cbn [mbind option_bind].
  rewrite (digits_acc_num t _ Ht). cbn [default from_option id]. lia.
Qed.

Lemma num_nonneg s : 0 ≤ Py.num s.
Proof.
  unfold Py.num. assert (H : ∀ a, 0 ≤ a → 0 ≤ default 0 (Py.digits_acc a s)).
  { induction s as [|c s IH]; intros a Ha; [done|]. simpl.
    destruct (Py.digit_val c) as [d|] eqn:Hd; [|done].
    apply IH. unfold Py.digit_val in Hd.
    destruct (Ascii.is_nat c); simplify_eq/=. lia. }
  by apply H.
Qed.

Lemma take_app s t : Py.take (String.length s) (s +:+ t) = s.
Proof.
  induction s as [|c s IH]; [by destruct t|].
  rewrite string_app_cons. simpl. by rewrite IH.
Qed.

Lemma drop_app s t : Py.drop (String.length s) (s +:+ t) = t.
Proof. induction s as [|c s IH]; [done|]. by rewrite string_app_cons. Qed.

Lemma take_drop n s : Py.take n s +:+ Py.drop n s = s.
Proof.
  revert s. induction n as [|n IH]; intros [|c s]; try done.
  simpl. rewrite string_app_cons. by rewrite IH.
Qed.

(** The two characters ["%02d"] writes for a number below 100 denote it. *)
Lemma fmt_02d_digits z :
  0 ≤ z < 100 →
  Py.all_digits (Py.fmt_02d z) = true ∧ Py.num (Py.fmt_02d z) = z.
Proof.
  intros Hz. rewrite <- (Z2Nat.id z) by lia.
  assert (Hn : (Z.to_nat z < 100)%nat) by lia.
  generalize dependent (Z.to_nat z). clear. intros n Hn.
  do 100 (destruct n as [|n]; [by vm_compute|]). lia.
Qed.

(** A string of two digits is known by the number it denotes. *)
Lemma num_two_digits_inj e e' :
  Py.all_digits e = true → String.length e = 2%nat →
  Py.all_digits e' = true → String.length e' = 2%nat →
  Py.num e = Py.num e' → e = e'.
Proof.
  intros He Hl He' Hl'.
  destruct e as [|a [|b [|]]]; try discriminate Hl.
  destruct e' as [|a' [|b' [|]]]; try discriminate Hl'.
  apply all_digits_cons in He as [Ha [Hb _]%all_digits_cons].
  apply all_digits_cons in He' as [Ha' [Hb' _]%all_digits_cons].
  destruct (is_digit_val a Ha) as (da & Ea & Hda).
  destruct (is_digit_val b Hb) as (db & Eb & Hdb).
  destruct (is_digit_val a' Ha') as (da' & Ea' & Hda').
  destruct (is_digit_val b' Hb') as (db' & Eb' & Hdb').
  unfold Py.num. cbn [Py.digits_acc]. rewrite Ea, Ea'. cbn [Py.digits_acc].
  rewrite Eb, Eb'. cbn [Py.digits_acc default from_option id]. intros H.
  assert (da = da') by lia. assert (db = db') by lia. subst.
  f_equal; [|f_equal]; eapply digit_val_inj; eauto.
Qed.

Lemma remove_char_idemp c s :
  Py.remove_char c (Py.remove_char c s) = Py.remove_char c s.
Proof.
  induction s as [|x s IH]; [done|]. simpl.
  destruct (decide (x = c)) as [->|Hne]; [done|]. simpl.
  rewrite decide_False by done. by rewrite IH.
Qed.

Lemma remove_char_comm c1 c2 s :
  Py.remove_char c1 (Py.remove_char c2 s) = Py.remove_char c2 (Py.remove_char c1 s).
Proof.
  induction s as [|x s IH]; [done|]. simpl.
  repeat case_decide; simpl; repeat case_decide; try congruence; by rewrite ?IH.
Qed.

Lemma normalize_idemp raw : normalize (normalize raw) = normalize raw.
Proof.
  unfold normalize.
  by rewrite (remove_char_comm " " "-"), !remove_char_idemp.
Qed.

(** [be2iban] sees its argument only through [normalize]. *)
Lemma be2iban_normalize raw : be2iban raw = be2iban (normalize raw).
Proof.
  unfold be2iban. fold (normalize raw). fold (normalize (normalize raw)).
  by rewrite normalize_idemp.
Qed.

(** What [be2iban] returns for a valid number. *)
Lemma be2iban_valid raw :
  valid_nban raw → be2iban raw = inr (iban_of (normalize raw)).
Proof.
  intros (Hlen & Hdig & Hsum). rewrite be2iban_digits by done. cbv zeta.
  by rewrite decide_True.
Qed.

Lemma check_digits_range s : 0 ≤ 98 - Py.num s `mod` 97 < 100.
Proof. pose proof (Z.mod_pos_bound (Py.num s) 97). lia. Qed.

(** The two control digits of [iban_of nban]. *)
Lemma iban_of_check nban :
  let check := Py.fmt_02d (98 - Py.num (nban +:+ "111400") `mod` 97) in
  String.length check = 2%nat ∧ Py.all_digits check = true ∧
  Py.num check = 98 - Py.num (nban +:+ "111400") `mod` 97 ∧
  Py.slice 2 4 (iban_of nban) = check.
Proof.
  intros check.
  assert (Hcl : String.length check = 2%nat)
    by apply fmt_02d_length, check_digits_range.
  destruct (fmt_02d_digits _ (check_digits_range (nban +:+ "111400")))
    as [Hcd Hcn].
  split_and!; [done..|].
  unfold Py.slice, iban_of. change (Py.drop 2 ("BE" +:+ ?s)) with s.
  change (4 - 2)%nat with 2%nat. fold check. rewrite <- Hcl. apply take_app.
Qed.

Lemma iban_of_drop_4 nban : Py.drop 4 (iban_of nban) = nban.
Proof.
  destruct (iban_of_check nban) as (Hcl & _). unfold iban_of.
  change (Py.drop 4 ("BE" +:+ ?s)) with (Py.drop 2 s).
  rewrite <- Hcl. apply drop_app.
Qed.

(** ** The IBAN of a valid number *)

(** The IBAN of a valid number is the letters BE and fourteen digits, the
    last twelve being the number without its spaces and hyphens: the number
    can be read back from the IBAN. *)
Theorem be2iban_shape raw iban :
  valid_nban raw → be2iban raw = inr iban →
  String.length iban = 16%nat ∧
  Py.take 2 iban = "BE" ∧
  Py.all_digits (Py.drop 2 iban) = true ∧
  Py.drop 4 iban = normalize raw.
Proof.
  intros Hvalid Hrun. rewrite (be2iban_valid raw Hvalid) in Hrun.
  injection Hrun as <-. destruct Hvalid as (Hlen & Hdig & _).
  destruct (iban_of_check (normalize raw)) as (Hcl & Hcd & _).
  split_and!.
  - unfold iban_of. rewrite !length_app, Hcl, Hlen. done.
  - done.
  - unfold iban_of. change (Py.drop 2 ("BE" +:+ ?s)) with s.
    by apply all_digits_app.
  - apply iban_of_drop_4.
Qed.

(** Two valid numbers have the same IBAN exactly when they differ only in
    their spaces and hyphens. *)
Theorem be2iban_same_iban a b :
  valid_nban a → valid_nban b →
  be2iban a = be2iban b ↔ normalize a = normalize b.
Proof.
  intros Ha Hb. split.
  - rewrite (be2iban_valid a Ha), (be2iban_valid b Hb). intros Heq.
    assert (Hib : iban_of (normalize a) = iban_of (normalize b))
      by congruence.
    apply (f_equal (Py.drop 4)) in Hib. by rewrite !iban_of_drop_4 in Hib.
  - intros Heq. by rewrite (be2iban_normalize a), (be2iban_normalize b), Heq.
Qed.

(** The IBAN of a valid number passes the check of IBANs: its digits,
    followed by 1114 for the letters BE and by its two control digits, is
    a number that leaves 1 when divided by 97. *)
Theorem be2iban_mod_97 raw iban :
  valid_nban raw → be2iban raw = inr iban →
  Py.num (Py.drop 4 iban +:+ "1114" +:+ Py.slice 2 4 iban) `mod` 97 = 1.
Proof.
  intros Hvalid Hrun.
  rewrite (be2iban_valid raw Hvalid) in Hrun. injection Hrun as <-.
  destruct Hvalid as (Hlen & Hdig & _).
  set (nban := normalize raw) in *.
  destruct (iban_of_check nban) as (Hcl & Hcd & Hcn & Hslice).
  rewrite iban_of_drop_4, Hslice.
  set (check := Py.fmt_02d _) in *.
  assert (H00 : Py.num (nban +:+ "111400") = Py.num (nban +:+ "1114") * 100).
  { rewrite <- append_data. rewrite num_app; [|by apply all_digits_app|done].
    change (Py.num "00") with 0.
    change (10 ^ Z.of_nat (String.length "00")) with 100. lia. }
  assert (Hdata : Py.num (nban +:+ "1114" +:+ check)
                  = Py.num (nban +:+ "1114") * 100 + Py.num check).
  { rewrite <- string_app_assoc.
    rewrite num_app; [|by apply all_digits_app|done]. by rewrite Hcl. }
  rewrite Hdata, Hcn, H00.
  generalize (Py.num (nban +:+ "1114") * 100). intros d.
  assert (d + (98 - d `mod` 97) = 1 + (d `div` 97 + 1) * 97) as ->
    by (pose proof (Z.div_mod d 97); lia).
  by rewrite Z.mod_add.
Qed.

(** ** The two closing digits *)

Lemma expected_end_range ten : 1 ≤ expected_end ten ≤ 97.
Proof.
  unfold expected_end. pose proof (Z.mod_pos_bound (Py.num ten) 97).
  case_decide; lia.
Qed.

(** After any ten digits exactly one of the hundred endings of two digits
    makes a number [be2iban] takes: the one ["%02d"] writes for the
    remainder of the ten digits modulo 97, or for 97 when that is 0. *)
Theorem nban_closing_digits ten e :
  String.length ten = 10%nat → Py.all_digits ten = true →
  String.length e = 2%nat → Py.all_digits e = true →
  (∃ iban, be2iban (ten +:+ e) = inr iban) ↔ e = Py.fmt_02d (expected_end ten).
Proof.
  intros Hlt Hdt Hle Hde.
  assert (Hd : Py.all_digits (ten +:+ e) = true) by by apply all_digits_app.
  assert (Hl : String.length (ten +:+ e) = 12%nat) by by rewrite length_app, Hlt, Hle.
  pose proof (be2iban_digits (ten +:+ e)) as Hrun. cbv zeta in Hrun.
  rewrite (normalize_digits _ Hd) in Hrun. specialize (Hrun Hl Hd).
  assert (Htake : Py.take 10 (ten +:+ e) = ten) by (rewrite <- Hlt; apply take_app).
  assert (Hlast : Py.last_chars 2 (ten +:+ e) = e).
  { unfold Py.last_chars. rewrite Hl. change (12 - 2)%nat with 10%nat.
    rewrite <- Hlt. apply drop_app. }
  rewrite Htake, Hlast in Hrun. rewrite Hrun.
  pose proof (expected_end_range ten) as Hrange.
  destruct (fmt_02d_digits (expected_end ten)) as [Hfd Hfn]; [lia|].
  assert (Hfl : String.length (Py.fmt_02d (expected_end ten)) = 2%nat)
    by (apply fmt_02d_length; lia).
  case_decide as Hnum; split.
  - intros _. apply num_two_digits_inj; congruence.
  - eauto.
  - by intros [iban ?].
  - intros ->. by rewrite Hfn in Hnum.
Qed.

(** ** The table of bank codes and [iban2bic] *)

Lemma add_bank_code_shape d ln d' :
  add_bank_code d ln = inr d' →
  map_Forall (λ _ bic, bic_shape bic) d →
  map_Forall (λ _ bic, bic_shape bic) d'.
Proof.
  unfold add_bank_code. intros Hadd Hd.
  destruct (Py.split _ ln) as [|a0 [|a1 [|]]]; try discriminate Hadd.
  case_decide as Hlen; [|discriminate Hadd]. injection Hadd as <-.
  apply map_Forall_insert_2; [|done]. split; [done|]. apply remove_char_idemp.
Qed.

Lemma build_bics_shape lines : ∀ acc d',
  foldl (λ acc ln, d ← acc; add_bank_code d ln) acc lines = inr d' →
  (∀ d, acc = inr d → map_Forall (λ _ bic, bic_shape bic) d) →
  map_Forall (λ _ bic, bic_shape bic) d'.
Proof.
  induction lines as [|ln lines IH]; intros acc d' Hfold Hacc; [by apply Hacc|].
  simpl in Hfold. apply (IH _ _ Hfold). intros d Hd.
  destruct acc as [e|d0]; [discriminate Hd|].
  by eapply add_bank_code_shape, Hacc.
Qed.

(** The assertions of the loop that fills [BELGIAN_BICS] hold on every line
    of [BANK_CODES]: loading the module raises no [AssertionError], and the
    dictionary is what the loop has built. *)
Theorem BELGIAN_BICS_loaded : build_BELGIAN_BICS = inr BELGIAN_BICS.
Proof.
  assert (H : match build_BELGIAN_BICS with
              | inr _ => true
              | inl _ => false
              end = true) by (vm_compute; reflexivity).
  unfold BELGIAN_BICS. destruct build_BELGIAN_BICS; [discriminate H | done].
Qed.

Lemma BELGIAN_BICS_shape : map_Forall (λ _ bic, bic_shape bic) BELGIAN_BICS.
Proof.
  unfold BELGIAN_BICS, build_BELGIAN_BICS.
  generalize (Py.splitlines BANK_CODES). intros lines.
  destruct (foldl _ _ lines) as [e|d] eqn:Hbuild; [apply map_Forall_empty|].
  eapply (build_bics_shape _ _ _ Hbuild).
  intros d0 [= <-]. apply map_Forall_empty.
Qed.

(** Whatever [iban2bic] returns has the shape the loop that fills the table
    asserts: eight or eleven characters, and no space. *)
Theorem iban2bic_shape iban bic : iban2bic iban = Some bic → bic_shape bic.
Proof.
  unfold iban2bic. case_match; [|done]. intros Hlookup.
  by eapply BELGIAN_BICS_shape.
Qed.

(** [iban2bic] does not see the spaces of its argument, so an IBAN written
    in groups of four characters has the BIC of the IBAN written in one
    piece. *)
Theorem iban2bic_spaces iban : iban2bic iban = iban2bic (Py.remove_char " " iban).
Proof. unfold iban2bic. by rewrite remove_char_idemp. Qed.

(** The BIC [iban2bic] finds for the IBAN made of twelve digits. *)
Lemma iban2bic_iban_of nban :
  Py.all_digits nban = true →
  iban2bic (iban_of nban) = BELGIAN_BICS !! Py.take 3 nban.
Proof.
  intros Hdig. destruct (iban_of_check nban) as (Hcl & Hcd & _).
  unfold iban2bic. generalize BELGIAN_BICS. intros bics.
  assert (Py.remove_char " " (iban_of nban) = iban_of nban) as ->.
  { unfold iban_of.
    set (tail := Py.fmt_02d _ +:+ nban).
    assert (Htail : Py.remove_char " " tail = tail)
      by (apply remove_char_digits; [done|by apply all_digits_app]).
    change ("BE" +:+ tail) with (String "B" (String "E" tail)).
    cbn [Py.remove_char]. repeat case_decide; try discriminate.
    by rewrite Htail. }
  assert (Py.startswith "BE" (iban_of nban) = true) as -> by done.
  unfold Py.slice. change (7 - 4)%nat with 3%nat. by rewrite iban_of_drop_4.
Qed.

(** The BIC that comes with the IBAN of a valid number is the one the table
    has for the first three digits of the number, and none when the table
    has none; a number [be2iban] rejects is rejected with the same error. *)
Theorem belgian_nban_to_iban_bic_bank_code raw :
  (valid_nban raw →
   ∃ iban, be2iban raw = inr iban ∧
           belgian_nban_to_iban_bic raw
           = inr (iban, BELGIAN_BICS !! Py.take 3 (normalize raw))) ∧
  (∀ e, be2iban raw = inl e → belgian_nban_to_iban_bic raw = inl e).
Proof.
  split.
  - intros Hvalid. pose proof (be2iban_valid raw Hvalid) as Hrun.
    eexists. split; [done|].
    unfold belgian_nban_to_iban_bic. rewrite Hrun.
    cbn [mbind Exc_bind exc_bind mret Exc_ret].
    rewrite iban2bic_iban_of by apply Hvalid. reflexivity.
  - intros e He. unfold belgian_nban_to_iban_bic. by rewrite He.
Qed.

(** ** The properties above on the numbers of the doctests *)

Lemma be2iban_shape_witness :
  String.length "BE03001114829484" = 16%nat ∧
  Py.take 2 "BE03001114829484" = "BE" ∧
  Py.all_digits (Py.drop 2 "BE03001114829484") = true ∧
  Py.drop 4 "BE03001114829484" = normalize "001-1148294-84".
Proof.
  apply (be2iban_shape "001-1148294-84").
  - vm_compute. auto.
  - vm_compute. reflexivity.
Defined.

Lemma be2iban_same_iban_witness :
  be2iban "001-1148294-84" = be2iban "001 1148294 84".
Proof.
  apply (be2iban_same_iban "001-1148294-84" "001 1148294 84").
  - vm_compute. auto.
  - vm_compute. auto.
  - vm_compute. reflexivity.
Defined.

Lemma be2iban_mod_97_witness :
  Py.num (Py.drop 4 "BE07340154921566" +:+ "1114"
          +:+ Py.slice 2 4 "BE07340154921566") `mod` 97 = 1.
Proof.
  apply (be2iban_mod_97 "340-1549215-66").
  - vm_compute. auto.
  - vm_compute. reflexivity.
Defined.

Lemma nban_closing_digits_witness :
  (∃ iban, be2iban ("3401549215" +:+ "66") = inr iban) ∧
  ¬ (∃ iban, be2iban ("3401549215" +:+ "67") = inr iban).
Proof.
  split.
  - apply (nban_closing_digits "3401549215" "66");
      [reflexivity..|]. vm_compute. reflexivity.
  - intros H.
    apply (nban_closing_digits "3401549215" "67") in H;
      [|reflexivity..]. vm_compute in H. discriminate H.
Defined.

Lemma iban2bic_shape_witness : bic_shape "GEBABEBB".
Proof.
  apply (iban2bic_shape "BE03 0011 1482 9484"). vm_compute. reflexivity.
Defined.

Lemma belgian_nban_to_iban_bic_bank_code_witness :
  (∃ iban, be2iban "001-1148294-84" = inr iban ∧
           belgian_nban_to_iban_bic "001-1148294-84"
           = inr (iban, BELGIAN_BICS !! "001")) ∧
  belgian_nban_to_iban_bic "001-1148294"
  = inl (ValidationError msg_length).
Proof.
  split.
  - apply (proj1 (belgian_nban_to_iban_bic_bank_code "001-1148294-84")).
    vm_compute. auto.
  - apply (proj2 (belgian_nban_to_iban_bic_bank_code "001-1148294")).
    vm_compute. reflexivity.
Defined.

End SepaUtilsProps.

(** * [sepa/models.py]: the accounts of the partners *)

Module SepaModelsProps.
Import Sepa SepaSpec SepaShapes SepaUtilsProps SepaModels.

Lemma set_primary_false_id (o : Account) :
  primary o = false → set_primary false o = o.
Proof. destruct o as [p i b r pr]. simpl. by intros ->. Qed.

Lemma bic_shape_truthy b : bic_shape b → truthy (Some b) = true.
Proof. intros [[Hl|Hl] _]; by destruct b. Qed.

Section FullClean.
Variable clean_fields : Account → option string.

(** The branches of [full_clean]. *)
Lemma full_clean_settled self :
  iban self = EmptyString ∨ truthy (bic self) = true →
  full_clean clean_fields self = (self, validated clean_fields self).
Proof.
  unfold full_clean. intros [->| ->]; [done|]. by destruct (iban self).
Qed.

Lemma full_clean_lookup self c rest :
  iban self = String c rest → truthy (bic self) = false →
  Py.is_digit c = false →
  let self' := set_bic (Some (or_empty (iban2bic (iban self)))) self in
  full_clean clean_fields self = (self', validated clean_fields self').
Proof.
  intros Hiban Hbic Hc. unfold full_clean. rewrite Hiban at 1.
  by rewrite Hbic, Hc.
Qed.

Lemma full_clean_convert self c rest :
  iban self = String c rest → truthy (bic self) = false →
  Py.is_digit c = true →
  full_clean clean_fields self
  = match belgian_nban_to_iban_bic (iban self) with
    | inr (iban', bic') =>
        let self' := set_iban iban' (set_bic bic' self) in
        (self', validated clean_fields self')
    | inl e => (self, inl e)
    end.
Proof.
  intros Hiban Hbic Hc. unfold full_clean. rewrite Hiban at 1.
  rewrite Hbic, Hc. cbn [negb].
  by destruct (belgian_nban_to_iban_bic (iban self)) as [e|[iban' bic']].
Qed.

(** ** [Account.full_clean] *)

(** An account whose IBAN field holds a Belgian number and whose BIC is
    not filled: a valid number is replaced by its IBAN, the BIC becomes the
    one of the table (and [None] when the table has none), and the fields
    are validated as they then stand; a number [be2iban] rejects leaves the
    instance as it was and the fields are not validated. *)
Theorem full_clean_nban self c rest :
  iban self = String c rest → Py.is_digit c = true →
  truthy (bic self) = false →
  (valid_nban (iban self) →
   let self' :=
     set_iban (iban_of (normalize (iban self)))
       (set_bic (BELGIAN_BICS !! Py.take 3 (normalize (iban self))) self) in
   full_clean clean_fields self = (self', validated clean_fields self')) ∧
  (∀ e, be2iban (iban self) = inl e → full_clean clean_fields self = (self, inl e)).
Proof.
  intros Hiban Hc Hbic. rewrite (full_clean_convert self c rest) by done.
  unfold belgian_nban_to_iban_bic. split.
  - intros Hvalid. rewrite (be2iban_valid _ Hvalid).
    cbn [mbind Exc_bind exc_bind mret Exc_ret].
    by rewrite iban2bic_iban_of by apply Hvalid.
  - intros e He. by rewrite He.
Qed.

(** However [full_clean] ends, it leaves the partner, the remark and the
    primary flag of the instance alone; it leaves the whole instance alone
    when the BIC is filled or the IBAN is empty; and an IBAN it has changed
    is the one [be2iban] makes of the old one. *)
Theorem full_clean_frame self :
  let self' := (full_clean clean_fields self).1 in
  partner self' = partner self ∧ remark self' = remark self ∧
  primary self' = primary self ∧
  (truthy (bic self) = true ∨ iban self = EmptyString → self' = self) ∧
  (iban self' ≠ iban self → be2iban (iban self) = inr (iban self')).
Proof.
  cbv zeta.
  destruct (iban self) as [|c rest] eqn:Hiban.
  { rewrite full_clean_settled by auto.
    simpl; split_and!; first [done | intros ?; congruence]. }
  destruct (truthy (bic self)) eqn:Hbic.
  { rewrite full_clean_settled by auto.
    simpl; split_and!; first [done | intros ?; congruence]. }
  destruct (Py.is_digit c) eqn:Hc.
  - rewrite (full_clean_convert self c rest) by done.
    unfold belgian_nban_to_iban_bic.
    destruct (be2iban (iban self)) as [e|iban'] eqn:Hrun;
      simpl; split_and!;
      first [done | intros [?|?]; congruence | intros ?; congruence].
  - rewrite (full_clean_lookup self c rest) by done.
    simpl; split_and!;
      first [done | intros [?|?]; congruence | intros ?; congruence].
Qed.

(** Cleaning an instance that [full_clean] has accepted accepts it again
    and changes nothing, unless its BIC was left at [None]. *)
Theorem full_clean_again self self' :
  full_clean clean_fields self = (self', inr ()) → bic self' ≠ None →
  full_clean clean_fields self' = (self', inr ()).
Proof.
  destruct (iban self) as [|c rest] eqn:Hiban.
  { rewrite full_clean_settled by auto. intros [= <- Hv] _.
    rewrite full_clean_settled by auto. by rewrite Hv. }
  destruct (truthy (bic self)) eqn:Hbic.
  { rewrite full_clean_settled by auto. intros [= <- Hv] _.
    rewrite full_clean_settled by auto. by rewrite Hv. }
  destruct (Py.is_digit c) eqn:Hc.
  - rewrite (full_clean_convert self c rest) by done.
    unfold belgian_nban_to_iban_bic.
    destruct (be2iban (iban self)) as [e|iban'] eqn:Hrun; [done|].
    cbn [mbind Exc_bind exc_bind mret Exc_ret]. cbv zeta.
    intros [= <- Hv] Hsome. cbn [bic set_iban set_bic] in Hsome.
    rewrite full_clean_settled; [by rewrite Hv|]. right.
    cbn [bic set_iban set_bic].
    destruct (iban2bic iban') as [b|] eqn:Hb; [|done].
    apply bic_shape_truthy. unfold iban2bic in Hb.
    destruct (Py.startswith _ _); [|done]. by eapply BELGIAN_BICS_shape.
  - rewrite (full_clean_lookup self c rest) by done. cbv zeta.
    intros [= <- Hv] _.
    destruct (truthy (Some (or_empty (iban2bic (iban self))))) eqn:Hfilled.
    + rewrite full_clean_settled; [by rewrite Hv|]. by right.
    + rewrite (full_clean_lookup _ c rest) by done. cbv zeta.
      unfold set_bic in *. simpl in *. by rewrite Hv.
Qed.

End FullClean.

Section AfterUiSave.
Context {Other : Type}.
Implicit Types (site : Site Other) (ko : nat * Account).

(** ** [Account.after_ui_save] *)

Lemma demote_accounts site ko :
  accounts site !! ko.1 = Some ko.2 →
  accounts (demote site ko) = <[ko.1 := set_primary false ko.2]> (accounts site).
Proof.
  intros Hko. unfold demote. destruct (primary ko.2) eqn:Hp; [done|].
  rewrite set_primary_false_id by done. by rewrite insert_id.
Qed.

Lemma foldl_demote_frame l : ∀ site,
  partners (foldl demote site l) = partners site ∧
  updates (foldl demote site l) = updates site ∧
  refresh_all (foldl demote site l)
  = refresh_all site || existsb (λ ko, primary ko.2) l.
Proof.
  induction l as [|ko l IH]; intros site; simpl.
  { by rewrite orb_false_r. }
  destruct (IH (demote site ko)) as (-> & -> & ->). unfold demote.
  destruct (primary ko.2); simpl; [|done].
  by rewrite orb_true_r.
Qed.

Lemma foldl_demote_lookup l : ∀ site k,
  NoDup l.*1 →
  (∀ ko, ko ∈ l → accounts site !! ko.1 = Some ko.2) →
  accounts (foldl demote site l) !! k
  = if decide (k ∈ l.*1) then set_primary false <$> accounts site !! k
    else accounts site !! k.
Proof.
  induction l as [|ko l IH]; intros site k Hnodup Hrows.
  { cbn [foldl]. rewrite fmap_nil.
    rewrite decide_False; [done|apply not_elem_of_nil]. }
  rewrite fmap_cons in Hnodup.
  apply NoDup_cons in Hnodup as [Hfresh Hnodup]. cbn [foldl].
  assert (Hko : accounts site !! ko.1 = Some ko.2) by apply Hrows, list_elem_of_here.
  rewrite IH; [|done|].
  - rewrite (demote_accounts _ _ Hko). rewrite fmap_cons.
    destruct (decide (k = ko.1)) as [->|Hne].
    + rewrite lookup_insert_eq, Hko.
      rewrite decide_False by done. rewrite decide_True by apply list_elem_of_here.
      done.
    + rewrite lookup_insert_ne by done.
      destruct (decide (k ∈ l.*1)) as [Hin|Hin].
      * by rewrite decide_True by by apply list_elem_of_further.
      * rewrite decide_False; [done|].
        intros [?|?]%elem_of_cons; done.
  - intros ko' Hin. rewrite (demote_accounts _ _ Hko).
    rewrite lookup_insert_ne; [by apply Hrows, list_elem_of_further|].
    intros Heq. apply Hfresh. rewrite Heq. by apply list_elem_of_fmap_2.
Qed.

Lemma sepa_accounts_exclude_spec mi self_id (t : gmap nat Account) k o :
  (k, o) ∈ sepa_accounts_exclude mi self_id t
  ↔ t !! k = Some o ∧ partner o = mi ∧ k ≠ self_id.
Proof.
  unfold sepa_accounts_exclude. rewrite list_elem_of_filter, elem_of_map_to_list.
  simpl. tauto.
Qed.

Lemma sepa_accounts_exclude_NoDup mi self_id (t : gmap nat Account) :
  NoDup (sepa_accounts_exclude mi self_id t).*1.
Proof.
  unfold sepa_accounts_exclude.
  eapply sublist_NoDup; [apply (NoDup_fst_map_to_list t)|].
  apply fmap_sublist, sublist_filter.
Qed.

(** The accounts as the loop of [after_ui_save] leaves them. *)
Lemma after_loop_lookup site mi self_id k :
  accounts (foldl demote site (sepa_accounts_exclude mi self_id (accounts site)))
    !! k
  = (λ o, if decide (partner o = mi ∧ k ≠ self_id)
          then set_primary false o else o) <$> accounts site !! k.
Proof.
  rewrite foldl_demote_lookup; [|apply sepa_accounts_exclude_NoDup|].
  - destruct (accounts site !! k) as [o|] eqn:Hk.
    + simpl. case_decide as Hin.
      * apply list_elem_of_fmap in Hin as ([k' o'] & -> & Hin).
        apply sepa_accounts_exclude_spec in Hin as (Hk' & Hp & Hne).
        simpl in Hk. rewrite Hk' in Hk. injection Hk as ->.
        by rewrite decide_True.
      * case_decide as Hsel; [|done]. exfalso. apply Hin.
        apply list_elem_of_fmap. exists (k, o). split; [done|].
        apply sepa_accounts_exclude_spec. tauto.
    + simpl. by case_decide.
  - intros [k' o'] Hin. by apply sepa_accounts_exclude_spec in Hin as (? & _).
Qed.

(** Saving a primary account of an existing partner succeeds; it leaves
    every row of the accounts where it was, the other accounts of the same
    partner without their primary flag and all else as it was; the partner
    gets the IBAN and the BIC of the account and keeps the rest, and the
    other partners are left alone. *)
Theorem after_ui_save_primary self_id self site mi :
  primary self = true → partners site !! partner self = Some mi →
  ∃ site', after_ui_save self_id self site = (site', inr ()) ∧
    (∀ k, accounts site' !! k
          = (λ o, if decide (partner o = partner self ∧ k ≠ self_id)
                  then set_primary false o else o) <$> accounts site !! k) ∧
    partners site' !! partner self
    = Some (mkPartner (iban self) (bic self) (p_other mi)) ∧
    (∀ p, p ≠ partner self → partners site' !! p = partners site !! p).
Proof.
  intros Hprimary Hmi. unfold after_ui_save. rewrite Hprimary, Hmi.
  eexists. split; [reflexivity|]. cbn [accounts partners]. split_and!.
  - intros k. apply after_loop_lookup.
  - by rewrite lookup_insert_eq.
  - intros p Hp. rewrite lookup_insert_ne by done.
    by destruct (foldl_demote_frame
                   (sepa_accounts_exclude (partner self) self_id (accounts site))
                   site) as (-> & _).
Qed.

(** Once a primary account has been saved, it is the only primary account
    of its partner, whatever the table held before; a partner who had one
    primary account at most still has. *)
Theorem after_ui_save_one_primary self_id self site site' :
  after_ui_save self_id self site = (site', inr ()) →
  primary self = true → accounts site !! self_id = Some self →
  accounts site' !! self_id = Some self ∧
  (∀ k o, accounts site' !! k = Some o → partner o = partner self →
          primary o = true → k = self_id) ∧
  one_primary (partner self) (accounts site') ∧
  (∀ p, one_primary p (accounts site) → one_primary p (accounts site')).
Proof.
  intros Hrun Hprimary Hself. unfold after_ui_save in Hrun.
  rewrite Hprimary in Hrun.
  destruct (partners site !! partner self) as [mi|]; [|done].
  injection Hrun as <-. cbn [accounts].
  set (t' := accounts (foldl demote site _)).
  assert (Hlookup : ∀ k, t' !! k
            = (λ o, if decide (partner o = partner self ∧ k ≠ self_id)
                    then set_primary false o else o) <$> accounts site !! k)
    by (intros k; apply after_loop_lookup).
  assert (Hself' : t' !! self_id = Some self).
  { rewrite Hlookup, Hself. simpl. rewrite decide_False; [done|tauto]. }
  assert (Honly : ∀ k o, t' !! k = Some o → partner o = partner self →
                         primary o = true → k = self_id).
  { intros k o Hk Hp Hpr. rewrite Hlookup in Hk.
    destruct (accounts site !! k) as [o0|]; [|done]. simpl in Hk.
    case_decide as Hsel.
    - injection Hk as <-. done.
    - injection Hk as <-. destruct (decide (k = self_id)); [done|tauto]. }
  split_and!; [done|done| |].
  - intros k1 k2 o1 o2 H1 H2 Hp1 Hp2 Hpr1 Hpr2.
    rewrite (Honly k1 o1), (Honly k2 o2); done.
  - intros p Hone k1 k2 o1 o2 H1 H2 Hp1 Hp2 Hpr1 Hpr2.
    rewrite Hlookup in H1, H2.
    destruct (accounts site !! k1) as [a1|] eqn:Ha1; [|done].
    destruct (accounts site !! k2) as [a2|] eqn:Ha2; [|done].
    simpl in H1, H2.
    apply (Hone k1 k2 a1 a2); try done;
      repeat case_decide; simplify_eq; try done.
Qed.

(** The response asks to refresh all rows exactly when it already did or
    another account of the partner was primary. *)
Theorem after_ui_save_refresh_all self_id self site mi :
  primary self = true → partners site !! partner self = Some mi →
  refresh_all (after_ui_save self_id self site).1 = true
  ↔ refresh_all site = true ∨
    ∃ k o, accounts site !! k = Some o ∧ partner o = partner self ∧
           k ≠ self_id ∧ primary o = true.
Proof.
  intros Hprimary Hmi. unfold after_ui_save. rewrite Hprimary, Hmi.
  cbn [fst refresh_all].
  destruct (foldl_demote_frame
              (sepa_accounts_exclude (partner self) self_id (accounts site))
              site) as (_ & _ & ->).
  rewrite orb_true_iff, existsb_exists. apply or_iff_compat_l. split.
  - intros ([k o] & Hin & Hpr). apply list_elem_of_In in Hin.
    apply sepa_accounts_exclude_spec in Hin as (? & ? & ?). by exists k, o.
  - intros (k & o & Hk & Hp & Hne & Hpr). exists (k, o). split; [|done].
    apply list_elem_of_In. by apply sepa_accounts_exclude_spec.
Qed.

End AfterUiSave.

(** ** The properties above on sample rows *)

Lemma full_clean_nban_witness :
  full_clean accept_all first_account
  = (mkAccount 7 "BE07340154921566" (Some "BBRUBEBB") EmptyString true,
     inr ()) ∧
  full_clean accept_all (set_iban "340-1549215-67" first_account)
  = (set_iban "340-1549215-67" first_account,
     inl (ValidationError "Belgian NBAN ends with 67 (expected 66)!")).
Proof.
  split.
  - apply (proj1 (full_clean_nban accept_all first_account
                    "3" "40-1549215-66" eq_refl eq_refl eq_refl)).
    vm_compute. auto.
  - apply (proj2 (full_clean_nban accept_all
                    (set_iban "340-1549215-67" first_account)
                    "3" "40-1549215-67" eq_refl eq_refl eq_refl)).
    vm_compute. reflexivity.
Defined.

Lemma full_clean_frame_witness :
  (full_clean accept_all second_account).1 = second_account.
Proof.
  apply (full_clean_frame accept_all second_account). left. reflexivity.
Defined.

Lemma full_clean_again_witness :
  let self' := mkAccount 7 "BE07340154921566" (Some "BBRUBEBB")
                         EmptyString true in
  full_clean accept_all self' = (self', inr ()).
Proof.
  apply (full_clean_again accept_all first_account).
  - vm_compute. reflexivity.
  - discriminate.
Defined.

Lemma after_ui_save_primary_witness :
  ∃ site', after_ui_save 2 second_account sample_site = (site', inr ()) ∧
    accounts site' !! 1%nat = Some (set_primary false first_account) ∧
    accounts site' !! 3%nat = Some other_account ∧
    partners site' !! 7%nat
    = Some (mkPartner "BE20001601271956" (Some "GEBABEBB") "ACME").
Proof.
  destruct (after_ui_save_primary 2 second_account sample_site
              (mkPartner EmptyString None "ACME") eq_refl)
    as (site' & Hrun & Haccounts & Hpartner & _).
  { vm_compute. reflexivity. }
  exists site'. split_and!; [done| | |done].
  - rewrite Haccounts. vm_compute. reflexivity.
  - rewrite Haccounts. vm_compute. reflexivity.
Defined.

Lemma after_ui_save_one_primary_witness :
  one_primary 7 (accounts (after_ui_save 2 second_account sample_site).1).
Proof.
  destruct (after_ui_save_one_primary 2 second_account sample_site
              (after_ui_save 2 second_account sample_site).1)
    as (_ & _ & Hone & _); [vm_compute; reflexivity..|].
  exact Hone.
Defined.

Lemma after_ui_save_refresh_all_witness :
  refresh_all (after_ui_save 2 second_account sample_site).1 = true.
Proof.
  apply (after_ui_save_refresh_all 2 second_account sample_site
           (mkPartner EmptyString None "ACME") eq_refl).
  - vm_compute. reflexivity.
  - right. exists 1%nat, first_account. split_and!; [|done..].
    vm_compute. reflexivity.
Defined.

End SepaModelsProps.

(** * [b2c/models.py]: what holds however an import ends *)

Module B2CProps.
Import B2C B2CSpec B2CRun.

Section Importer.
Context {backend : Backend}.
Variable clean_fields : Account → option string.
Variable delete_imported_xml_files : bool.

(** ** [import_file], whatever the file holds *)

(** How [import_file] ends, by how its loop does. *)
Lemma import_file_cases filename res st :
  let st0 := incr_imported_files
               (add_log DEBUG ("Importing file " +:+ filename +:+ ".") st) in
  let r := import_file clean_fields delete_imported_xml_files filename res st in
  match res with
  | None => r = (st0, inl (Exception "res is None"))
  | Some res =>
      match for_each (stmt_step clean_fields) 0%nat res st0 with
      | (st1, inl e) => r = (st1, inl e)
      | (st1, inr failed) =>
          r.2 = inr () ∧ db r.1 = db st1 ∧
          new_statements r.1 = new_statements st1 ∧
          updated_statements r.1 = updated_statements st1 ∧
          imported_files r.1 = imported_files st1 ∧
          failed_statements r.1 = (failed_statements st1 + failed)%nat ∧
          files r.1
          = if decide (failed = 0%nat ∧ delete_imported_xml_files = true ∧
                       files st1 !! filename = Some true)
            then delete filename (files st1) else files st1
      end
  end.
Proof.
  cbv zeta. unfold import_file, mbind, M_bind, logger, modify.
  cbv beta iota. destruct res as [res|]; [|done].
  destruct (for_each _ _ _ _) as [st1 [e|failed]]; [done|].
  destruct (decide (0 < failed)%nat) as [Hpos|Hzero].
  { rewrite decide_False by lia. done. }
  assert (failed = 0%nat) as -> by lia.
  destruct delete_imported_xml_files.
  - unfold try_except, os_remove.
    destruct (files st1 !! filename) as [[]|] eqn:Hfile.
    + rewrite decide_True by done. simpl. split_and!; [done..|lia|done].
    + rewrite decide_False by (by intros (_ & _ & ?)).
      simpl. split_and!; [done..|lia|done].
    + rewrite decide_False by (by intros (_ & _ & ?)).
      simpl. split_and!; [done..|lia|done].
  - rewrite decide_False by (by intros (_ & ? & _)).
    simpl. split_and!; [done..|lia|done].
Qed.

Lemma import_file_db_safe filename res st :
  db_safe (db st)
          (db (import_file clean_fields delete_imported_xml_files
                 filename res st).1).
Proof.
  pose proof (import_file_cases filename res st) as Hcases.
  cbv zeta in Hcases.
  destruct res as [res|]; [|by rewrite Hcases].
  destruct (for_each _ _ _ _) as [st1 r1] eqn:Hloop.
  apply for_each_stmt_step_any in Hloop as (Hsafe & _ & _).
  destruct r1 as [e|failed].
  - by rewrite Hcases.
  - by destruct Hcases as (_ & -> & _).
Qed.

(** Whatever the parser has returned and however the import of a file
    ends: every row of the database is kept under its key, with the key the
    importer looks it up by; an account changes in the date of its last
    movement only; a well-formed database stays well formed. *)
Theorem import_file_safe filename res st :
  let d' := db (import_file clean_fields delete_imported_xml_files
                  filename res st).1 in
  rows_kept (db st) d' ∧ accounts_fixed (db st) d' ∧ (wf (db st) → wf d').
Proof.
  cbv zeta. destruct (import_file_db_safe filename res st) as [Hrows Hacc Hwf].
  split_and!.
  - exact Hrows.
  - exact Hacc.
  - exact Hwf.
Qed.

(** A file whose import ends without an exception: each of its records
    has been counted once, as a new, an updated or a failed statement, and
    the file once. *)
Theorem import_file_counts filename res st st' :
  import_file clean_fields delete_imported_xml_files filename (Some res) st
    = (st', inr ()) →
  (new_statements st' + updated_statements st' + failed_statements st'
   = new_statements st + updated_statements st + failed_statements st
     + length res)%nat ∧
  imported_files st' = S (imported_files st).
Proof.
  intros Hend. pose proof (import_file_cases filename (Some res) st) as Hcases.
  cbv zeta in Hcases. rewrite Hend in Hcases. simpl in Hcases.
  destruct (for_each _ _ _ _) as [st1 r1] eqn:Hloop.
  apply for_each_stmt_step_any in Hloop as (_ & [Hf Hi _] & Hcount).
  destruct r1 as [e|failed]; [done|].
  destruct Hcases as (_ & _ & -> & -> & -> & -> & _).
  specialize (Hcount failed eq_refl). simpl in Hcount, Hf, Hi.
  rewrite Hf, Hi. lia.
Qed.

(** A file is counted as imported however its import ends; when the parser
    has returned [None] the import raises and nothing else changes. *)
Theorem import_file_counted filename res st :
  let r := import_file clean_fields delete_imported_xml_files filename res st in
  imported_files r.1 = S (imported_files st) ∧
  (res = None →
   r.2 = inl (Exception "res is None") ∧ db r.1 = db st ∧
   files r.1 = files st ∧ new_statements r.1 = new_statements st ∧
   updated_statements r.1 = updated_statements st ∧
   failed_statements r.1 = failed_statements st).
Proof.
  cbv zeta. pose proof (import_file_cases filename res st) as Hcases.
  cbv zeta in Hcases. destruct res as [res|].
  - split; [|done].
    destruct (for_each _ _ _ _) as [st1 r1] eqn:Hloop.
    apply for_each_stmt_step_any in Hloop as (_ & [_ Hi _] & _).
    destruct r1 as [e|failed].
    + by rewrite Hcases.
    + by destruct Hcases as (_ & _ & _ & _ & -> & _).
  - by rewrite Hcases.
Qed.

(** The import of a file leaves the directory as it is or without the
    file; the file is removed exactly when [delete_imported_xml_files] is
    set, the file may be removed, the import has ended without an exception
    and no statement of the file has failed. *)
Theorem import_file_removes filename res st :
  let r := import_file clean_fields delete_imported_xml_files filename res st in
  (files r.1 = files st ∨ files r.1 = delete filename (files st)) ∧
  (files r.1 ≠ files st
   ↔ delete_imported_xml_files = true ∧ files st !! filename = Some true ∧
     r.2 = inr () ∧ failed_statements r.1 = failed_statements st).
Proof.
  cbv zeta. pose proof (import_file_cases filename res st) as Hcases.
  cbv zeta in Hcases. destruct res as [res|].
  2: { rewrite Hcases. simpl. split; [by left|]. split; [done|].
       by intros (_ & _ & ? & _). }
  destruct (for_each _ _ _ _) as [st1 r1] eqn:Hloop.
  apply for_each_stmt_step_any in Hloop as (_ & [Hf _ Hfiles] & _).
  simpl in Hf, Hfiles. destruct r1 as [e|failed].
  { rewrite Hcases. simpl. rewrite Hfiles. split; [by left|].
    split; [done|]. by intros (_ & _ & ? & _). }
  destruct Hcases as (-> & _ & _ & _ & _ & -> & ->).
  rewrite Hfiles, Hf. case_decide as Hdel.
  - destruct Hdel as (-> & -> & Hfile). split; [by right|]. split.
    + intros _. split_and!; [done..|lia].
    + intros _ Heq. apply (f_equal (.!! filename)) in Heq.
      by rewrite lookup_delete_eq, Hfile in Heq.
  - split; [by left|]. split; [done|].
    intros (? & ? & _ & ?). destruct Hdel. split_and!; [lia|done..].
Qed.

End Importer.

Section RunFromUi.
Context {backend : Backend}.
Variable clean_fields : Account → option string.
Variable delete_imported_xml_files : bool.
Variable parse : string → Exc (option (list statement_record)).
Variable iglob : string → gmap string bool → list string.

Implicit Types (listing : list string) (st : State).

Lemma import_named_db_safe name st :
  db_safe (db st)
          (db (import_named clean_fields delete_imported_xml_files parse
                 name st).1).
Proof.
  unfold import_named. destruct (parse name) as [e|res]; [done|].
  apply import_file_db_safe.
Qed.

(** A named file that is imported without an exception has been parsed,
    and its records and the file have been counted. *)
Lemma import_named_counts name st st' :
  import_named clean_fields delete_imported_xml_files parse name st
    = (st', inr ()) →
  ∃ res, parse name = inr (Some res) ∧
    (new_statements st' + updated_statements st' + failed_statements st'
     = new_statements st + updated_statements st + failed_statements st
       + length res)%nat ∧
    imported_files st' = S (imported_files st).
Proof.
  unfold import_named. destruct (parse name) as [e|[res|]]; [done| |done].
  intros Hend. exists res. split; [done|].
  pose proof (import_file_cases clean_fields delete_imported_xml_files
                name (Some res) st) as Hcases.
  cbv zeta in Hcases. rewrite Hend in Hcases. simpl in Hcases.
  destruct (for_each _ _ _ _) as [st1 r1] eqn:Hloop.
  apply for_each_stmt_step_any in Hloop as (_ & [Hf Hi _] & Hcount).
  destruct r1 as [e|failed]; [done|].
  destruct Hcases as (_ & _ & -> & -> & -> & -> & _).
  specialize (Hcount failed eq_refl). simpl in Hcount, Hf, Hi.
  rewrite Hf, Hi. lia.
Qed.

Lemma files_loop_db_safe listing : ∀ st,
  db_safe (db st)
    (db (for_each (λ _ name, import_named clean_fields
                               delete_imported_xml_files parse name)
                  () listing st).1).
Proof.
  induction listing as [|name listing IH]; intros st; [done|].
  simpl. unfold mbind, M_bind.
  pose proof (import_named_db_safe name st) as Hsafe.
  destruct (import_named _ _ _ _ _) as [st1 [e|[]]]; [done|].
  etrans; [done|apply IH].
Qed.

Lemma files_loop_counts listing : ∀ st st',
  for_each (λ _ name, import_named clean_fields delete_imported_xml_files
                        parse name) () listing st = (st', inr ()) →
  (∀ name, name ∈ listing → ∃ res, parse name = inr (Some res)) ∧
  (new_statements st' + updated_statements st' + failed_statements st'
   = new_statements st + updated_statements st + failed_statements st
     + records_of parse listing)%nat ∧
  imported_files st' = (imported_files st + length listing)%nat.
Proof.
  induction listing as [|name listing IH]; intros st st' Hend.
  { injection Hend as <-. split_and!; [|unfold records_of; simpl; lia..].
    intros name Hin. by apply elem_of_nil in Hin. }
  simpl in Hend. unfold mbind, M_bind in Hend.
  destruct (import_named _ _ _ _ _) as [st1 [e|[]]] eqn:Hfile; [done|].
  apply import_named_counts in Hfile as (res & Hres & Hcount1 & Hi1).
  apply IH in Hend as (Hparsed & Hcount & Hi).
  split_and!.
  - intros n [->|Hin]%elem_of_cons; eauto.
  - unfold records_of in *. rewrite fmap_cons. simpl. rewrite Hres. lia.
  - simpl. lia.
Qed.

(** A file whose rows the database takes and whose accounts the validators
    accept is imported without an exception into a well-formed database,
    which then has the rows of each record. *)
Lemma import_named_ok name res st :
  wf (db st) → parse name = inr (Some res) →
  accepted clean_fields res (db st) → (∀ stmt, stmt ∈ res → storable stmt) →
  ∃ st', import_named clean_fields delete_imported_xml_files parse name st
         = (st', inr ()) ∧
         wf (db st') ∧ rows_kept (db st) (db st') ∧
         (∀ stmt, stmt ∈ res → known (db st') stmt) ∧
         (∀ res', accepted clean_fields res' (db st) →
                  accepted clean_fields res' (db st')).
Proof.
  intros Hwf Hparse Hacc Hsave. unfold import_named. rewrite Hparse.
  destruct (for_each_stmt_step_ok clean_fields res 0%nat
              (incr_imported_files
                 (add_log DEBUG ("Importing file " +:+ name +:+ ".") st))
              Hwf Hacc Hsave) as (l1 & f1 & Hloop & Hwf1 & Hkept & Hknown & Hacc1).
  destruct (import_file_after_loop clean_fields delete_imported_xml_files
              name res st l1 f1 Hloop) as (st1 & Hrun & Hdb & _).
  exists st1. by rewrite Hdb.
Qed.

(** Imported into a database that has the rows of its records, it adds no
    row and no statement counts as new. *)
Lemma import_named_again name res st :
  wf (db st) → parse name = inr (Some res) →
  accepted clean_fields res (db st) → (∀ stmt, stmt ∈ res → storable stmt) →
  (∀ stmt, stmt ∈ res → known (db st) stmt) →
  ∃ st', import_named clean_fields delete_imported_xml_files parse name st
         = (st', inr ()) ∧
         wf (db st') ∧ rows_kept (db st) (db st') ∧
         (∀ res', accepted clean_fields res' (db st) →
                  accepted clean_fields res' (db st')) ∧
         dom (accounts (db st')) = dom (accounts (db st)) ∧
         dom (statements (db st')) = dom (statements (db st)) ∧
         dom (movements (db st')) = dom (movements (db st)) ∧
         new_statements st' = new_statements st.
Proof.
  intros Hwf Hparse Hacc Hsave Hknown.
  destruct (import_named_ok name res st Hwf Hparse Hacc Hsave)
    as (st1 & Hrun & Hwf1 & Hkept & _ & Hacc1).
  exists st1. unfold import_named in *. rewrite Hparse in *.
  destruct (for_each_stmt_step_again clean_fields res 0%nat
              (incr_imported_files
                 (add_log DEBUG ("Importing file " +:+ name +:+ ".") st))
              Hwf Hacc Hsave Hknown) as (l1 & f1 & Hloop & Ha & Hs & Hm & Hn).
  destruct (import_file_after_loop clean_fields delete_imported_xml_files
              name res st l1 f1 Hloop) as (st1' & Hrun' & Hdb & Hnew & _).
  assert (st1' = st1) as -> by congruence.
  split_and!; [done..|by rewrite Hdb|by rewrite Hdb|by rewrite Hdb
              |by rewrite Hnew, Hn].
Qed.

Lemma importable_kept listing d d' :
  (∀ res, accepted clean_fields res d → accepted clean_fields res d') →
  importable clean_fields parse listing d →
  importable clean_fields parse listing d'.
Proof.
  intros Hacc Hfiles name Hin.
  destruct (Hfiles name Hin) as (res & Hparse & Hres & Hsave). eauto.
Qed.

Lemma files_loop_ok listing : ∀ st,
  wf (db st) → importable clean_fields parse listing (db st) →
  ∃ st', for_each (λ _ name, import_named clean_fields
                               delete_imported_xml_files parse name)
                  () listing st = (st', inr ()) ∧
         wf (db st') ∧ rows_kept (db st) (db st') ∧
         (∀ name res stmt, name ∈ listing → parse name = inr (Some res) →
                           stmt ∈ res → known (db st') stmt) ∧
         (∀ res', accepted clean_fields res' (db st) →
                  accepted clean_fields res' (db st')).
Proof.
  induction listing as [|name listing IH]; intros st Hwf Hfiles.
  { exists st. split_and!; [done|done|apply rows_kept_refl| |done].
    intros name res stmt Hin. by apply elem_of_nil in Hin. }
  destruct (Hfiles name) as (res & Hparse & Hacc & Hsave); [by left|].
  destruct (import_named_ok name res st Hwf Hparse Hacc Hsave)
    as (st1 & Hrun1 & Hwf1 & Hkept1 & Hknown1 & Hacc1).
  destruct (IH st1 Hwf1) as (st' & Hrun & Hwf' & Hkept & Hknown & Hacc').
  { apply (importable_kept _ (db st)); [done|].
    intros n Hin. apply Hfiles. by right. }
  exists st'. split_and!; [|done|by eapply rows_kept_trans| |by auto].
  - simpl. unfold mbind, M_bind. by rewrite Hrun1.
  - intros n r stmt [->|Hin]%elem_of_cons Hr Hstmt; [|eauto].
    eapply known_kept; [done|]. apply Hknown1. congruence.
Qed.

Lemma files_loop_again listing : ∀ st,
  wf (db st) → importable clean_fields parse listing (db st) →
  (∀ name res stmt, name ∈ listing → parse name = inr (Some res) →
                    stmt ∈ res → known (db st) stmt) →
  ∃ st', for_each (λ _ name, import_named clean_fields
                               delete_imported_xml_files parse name)
                  () listing st = (st', inr ()) ∧
         dom (accounts (db st')) = dom (accounts (db st)) ∧
         dom (statements (db st')) = dom (statements (db st)) ∧
         dom (movements (db st')) = dom (movements (db st)) ∧
         new_statements st' = new_statements st.
Proof.
  induction listing as [|name listing IH]; intros st Hwf Hfiles Hknown.
  { by exists st. }
  destruct (Hfiles name) as (res & Hparse & Hacc & Hsave); [by left|].
  destruct (import_named_again name res st Hwf Hparse Hacc Hsave)
    as (st1 & Hrun1 & Hwf1 & Hkept1 & Hacc1 & Ha1 & Hs1 & Hm1 & Hn1).
  { intros stmt Hin. eapply Hknown; [by left|done..]. }
  destruct (IH st1 Hwf1) as (st' & Hrun & Ha & Hs & Hm & Hn).
  { apply (importable_kept _ (db st)); [done|].
    intros n Hin. apply Hfiles. by right. }
  { intros n r stmt Hin Hr Hstmt. eapply known_kept; [done|].
    eapply Hknown; [by right|done..]. }
  exists st'. split_and!; [|congruence..].
  simpl. unfold mbind, M_bind. by rewrite Hrun1.
Qed.

(** [run_from_ui] with a path, by how its loop ends. *)
Lemma run_from_ui_loop c rest st :
  let p := String c rest in
  let st0 := add_log INFO ("Importing XML files from " +:+ p +:+ "...")
               (reset_counters st) in
  run_from_ui clean_fields delete_imported_xml_files parse iglob (Some p) st
  = match for_each (λ _ name, import_named clean_fields
                                delete_imported_xml_files parse name) ()
            (iglob (os_path_join p "*.[Xx][Mm][Ll]") (files st)) st0 with
    | (st1, inl e) => (st1, inl e)
    | (st1, inr _) =>
        (add_log INFO (msg_imported st1) st1, inr (Success (msg_imported st1)))
    end.
Proof.
  cbv zeta. unfold run_from_ui, mbind, M_bind, logger, modify, gets.
  cbv beta iota. by destruct (for_each _ _ _ _) as [st1 [e|[]]].
Qed.

(** What [run_from_ui] returns: an error, with nothing changed, exactly
    when no path is configured; else a message made of the counters of this
    run, which count the files that [glob.iglob] yields, each of them read
    and parsed, and each of their records once, as a new, an updated or a
    failed statement, whatever the counters were before. *)
Theorem run_from_ui_report pth st st' resp :
  run_from_ui clean_fields delete_imported_xml_files parse iglob pth st
    = (st', inr resp) →
  match resp with
  | Error msg =>
      (pth = None ∨ pth = Some EmptyString) ∧ st' = st ∧
      msg = msg_not_configured
  | Success msg =>
      ∃ p, pth = Some p ∧ p ≠ EmptyString ∧
        let listing := iglob (os_path_join p "*.[Xx][Mm][Ll]") (files st) in
        msg = msg_imported st' ∧
        imported_files st' = length listing ∧
        (new_statements st' + updated_statements st' + failed_statements st'
         = records_of parse listing)%nat ∧
        ∀ name, name ∈ listing → ∃ res, parse name = inr (Some res)
  end.
Proof.
  destruct pth as [[|c rest]|].
  - intros [= <- <-]. auto.
  - rewrite run_from_ui_loop. cbv zeta.
    destruct (for_each _ _ _ _) as [st1 [e|[]]] eqn:Hloop; [done|].
    intros [= <- <-]. exists (String c rest).
    split; [done|]. split; [discriminate|].
    apply files_loop_counts in Hloop as (Hparsed & Hcount & Hfiles).
    simpl in Hcount, Hfiles. cbv zeta. split_and!; [done|done| |done].
    simpl. lia.
  - intros [= <- <-]. auto.
Qed.

(** However [run_from_ui] ends, with a path or without: every row of the
    database is kept under its key, with the key the importer looks it up
    by; an account changes in the date of its last movement only; a
    well-formed database stays well formed. *)
Theorem run_from_ui_safe pth st :
  let d' := db (run_from_ui clean_fields delete_imported_xml_files parse
                  iglob pth st).1 in
  rows_kept (db st) d' ∧ accounts_fixed (db st) d' ∧ (wf (db st) → wf d').
Proof.
  cbv zeta.
  assert (db_safe (db st)
            (db (run_from_ui clean_fields delete_imported_xml_files parse
                   iglob pth st).1)) as [? ? ?]; [|done].
  destruct pth as [[|c rest]|]; [done| |done].
  rewrite run_from_ui_loop. cbv zeta.
  pose proof (files_loop_db_safe
                (iglob (os_path_join (String c rest) "*.[Xx][Mm][Ll]") (files st))
                (add_log INFO ("Importing XML files from "
                               +:+ String c rest +:+ "...")
                   (reset_counters st))) as Hsafe.
  by destruct (for_each _ _ _ _) as [st1 [e|[]]].
Qed.

(** The action run twice on a well-formed database, the files read and
    parsed, the database taking the rows of their records and the
    validators accepting their accounts: the first run ends without an
    exception; so does a second run that finds no other files than the
    first, and it adds no account, statement or movement and reports no new
    statement: each record of its files is counted as an updated or a
    failed statement. *)
Theorem run_from_ui_again p st :
  p ≠ EmptyString → wf (db st) →
  let wc := os_path_join p "*.[Xx][Mm][Ll]" in
  let run := run_from_ui clean_fields delete_imported_xml_files parse iglob
               (Some p) in
  importable clean_fields parse (iglob wc (files st)) (db st) →
  ∃ st1, run st = (st1, inr (Success (msg_imported st1))) ∧
    (iglob wc (files st1) ⊆ iglob wc (files st) →
     ∃ st2, run st1 = (st2, inr (Success (msg_imported st2))) ∧
       new_statements st2 = 0%nat ∧
       (updated_statements st2 + failed_statements st2
        = records_of parse (iglob wc (files st1)))%nat ∧
       dom (accounts (db st2)) = dom (accounts (db st1)) ∧
       dom (statements (db st2)) = dom (statements (db st1)) ∧
       dom (movements (db st2)) = dom (movements (db st1))).
Proof.
  intros Hp Hwf wc run Hfiles. destruct p as [|c rest]; [done|].
  subst run. cbv beta. rewrite run_from_ui_loop. cbv zeta. fold wc.
  (* the first run *)
  destruct (files_loop_ok (iglob wc (files st))
              (add_log INFO ("Importing XML files from "
                             +:+ String c rest +:+ "...")
                 (reset_counters st)) Hwf Hfiles)
    as (l1 & Hloop1 & Hwf1 & _ & Hknown1 & Hacc1).
  rewrite Hloop1. exists (add_log INFO (msg_imported l1) l1).
  split; [reflexivity|].
  (* the second run *)
  cbn [files add_log]. intros Hsub.
  rewrite run_from_ui_loop. cbv zeta. fold wc. cbn [files add_log].
  destruct (files_loop_again (iglob wc (files l1))
              (add_log INFO ("Importing XML files from "
                             +:+ String c rest +:+ "...")
                 (reset_counters (add_log INFO (msg_imported l1) l1))))
    as (l2 & Hloop2 & Ha & Hs & Hm & Hn).
  { done. }
  { apply (importable_kept _ (db st)); [exact Hacc1|].
    intros name Hin. apply Hfiles, Hsub, Hin. }
  { intros name res stmt Hin. apply Hknown1, Hsub, Hin. }
  rewrite Hloop2. exists (add_log INFO (msg_imported l2) l2).
  split; [reflexivity|].
  apply files_loop_counts in Hloop2 as (_ & Hcount & _).
  simpl in Hcount, Hn, Ha, Hs, Hm. simpl.
  split_and!; [done|lia|done..].
Qed.

End RunFromUi.

(** ** The properties above on sample files *)

Import Sample.

Lemma import_file_safe_witness :
  wf (db (import_file accept_all true "statements.xml"
            (Some [first_quarter; without_iban]) with_account).1).
Proof.
  destruct (import_file_safe accept_all true "statements.xml"
              (Some [first_quarter; without_iban]) with_account)
    as (_ & _ & Hwf).
  apply Hwf, wf_with_account.
Defined.

Lemma import_file_counts_witness :
  let st' := (import_file accept_all true "statements.xml"
                (Some [first_quarter; without_iban])
                (initial "statements.xml")).1 in
  (new_statements st' + updated_statements st' + failed_statements st'
   = 2)%nat ∧ imported_files st' = 1%nat.
Proof.
  cbv zeta.
  apply (import_file_counts accept_all true "statements.xml"
           [first_quarter; without_iban] (initial "statements.xml")).
  vm_compute. reflexivity.
Defined.

Lemma import_file_counted_witness :
  let r := import_file accept_all true "statements.xml" None
             (initial "statements.xml") in
  imported_files r.1 = 1%nat ∧ r.2 = inl (Exception "res is None") ∧
  db r.1 = empty_db.
Proof.
  cbv zeta.
  destruct (import_file_counted accept_all true "statements.xml" None
              (initial "statements.xml")) as (Hcounted & Hnone).
  destruct (Hnone eq_refl) as (Hraises & Hdb & _).
  split_and!; [exact Hcounted|exact Hraises|exact Hdb].
Defined.

Lemma import_file_removes_witness :
  let st := initial "statements.xml" in
  files (import_file accept_all true "statements.xml"
           (Some [first_quarter]) st).1 ≠ files st.
Proof.
  cbv zeta.
  apply (proj2 (import_file_removes accept_all true "statements.xml"
                  (Some [first_quarter]) (initial "statements.xml"))).
  split_and!; vm_compute; reflexivity.
Defined.

Lemma run_from_ui_report_witness :
  let st' := (run_from_ui accept_all true sample_parse sample_iglob
                (Some "in") sample_start).1 in
  imported_files st' = 2%nat ∧
  (new_statements st' + updated_statements st' + failed_statements st'
   = 3)%nat.
Proof.
  cbv zeta.
  pose proof (run_from_ui_report accept_all true sample_parse sample_iglob
                (Some "in") sample_start
                (run_from_ui accept_all true sample_parse sample_iglob
                   (Some "in") sample_start).1
                (Success "2 XML files with 2 new and 0 updated statements have been imported."))
    as Hreport.
  destruct Hreport as (p & [= <-] & _ & _ & Hfiles & Hrecords & _).
  { vm_compute. reflexivity. }
  split; [exact Hfiles|exact Hrecords].
Defined.

Lemma run_from_ui_safe_witness :
  wf (db (run_from_ui accept_all true sample_parse sample_iglob
            (Some "in") sample_start).1).
Proof.
  destruct (run_from_ui_safe accept_all true sample_parse sample_iglob
              (Some "in") sample_start) as (_ & _ & Hwf).
  apply Hwf, (wf_initial "in/a.xml").
Defined.

Lemma sample_importable d :
  importable accept_all sample_parse ["in/a.xml"; "in/b.XML"] d.
Proof.
  intros name [->|[->|[]%elem_of_nil]%elem_of_cons]%elem_of_cons;
    (eexists; split_and!; [vm_compute; reflexivity|done|]).
  - intros stmt [->|[->|[]%elem_of_nil]%elem_of_cons]%elem_of_cons.
    + apply storable_first_quarter.
    + apply (storable_statement_of _ _ _ []).
  - intros stmt [->|[]%elem_of_nil]%elem_of_cons.
    apply (storable_statement_of _ _ _ [(february, "TX-4")]).
Qed.

Lemma sample_listing :
  sample_iglob (os_path_join "in" "*.[Xx][Mm][Ll]") (files sample_start)
  = ["in/a.xml"; "in/b.XML"].
Proof. vm_compute. reflexivity. Qed.

Lemma sample_listing_again :
  sample_iglob (os_path_join "in" "*.[Xx][Mm][Ll]")
    (files (run_from_ui accept_all true sample_parse sample_iglob
              (Some "in") sample_start).1)
  = ["in/a.xml"].
Proof. vm_compute. reflexivity. Qed.

Lemma run_from_ui_again_witness :
  let wc := os_path_join "in" "*.[Xx][Mm][Ll]" in
  let run := run_from_ui accept_all true sample_parse sample_iglob
               (Some "in") in
  ∃ st1 st2,
    run sample_start = (st1, inr (Success (msg_imported st1))) ∧
    run st1 = (st2, inr (Success (msg_imported st2))) ∧
    new_statements st2 = 0%nat ∧
    (updated_statements st2 + failed_statements st2
     = records_of sample_parse (sample_iglob wc (files st1)))%nat ∧
    dom (accounts (db st2)) = dom (accounts (db st1)) ∧
    dom (statements (db st2)) = dom (statements (db st1)) ∧
    dom (movements (db st2)) = dom (movements (db st1)).
Proof.
  intros wc run.
  destruct (run_from_ui_again accept_all true sample_parse sample_iglob
              "in" sample_start) as (st1 & Hrun1 & Hsecond).
  { discriminate. }
  { apply (wf_initial "in/a.xml"). }
  { rewrite sample_listing. apply sample_importable. }
  exists st1.
  destruct Hsecond as (st2 & Hsecond).
  { replace st1
      with (run_from_ui accept_all true sample_parse sample_iglob
              (Some "in") sample_start).1 by (rewrite Hrun1; reflexivity).
    rewrite sample_listing_again, sample_listing.
    intros name Hin%list_elem_of_singleton. subst name. by left. }
  exists st2. split; [exact Hrun1|exact Hsecond].
Defined.
End B2CProps.
